(** * jitboy memory core: a shallow embedding of [src/memory.c]

    The guest sees a flat 64 KiB address space.  Writes below [0x8000] are
    commands for the cartridge's bank controller, a handful of I/O
    registers have side effects, and writes into high memory evict
    compiled blocks.  Every C function of [memory.c] that changes state is
    a function of the same name below. *)

From Stdlib Require Import ZArith Lia Bool List String.
From stdpp Require Import base option list.
Import ListNotations.
Local Open Scope Z_scope.

(** ** Byte regions

    A region maps an offset to the byte stored there, or to [None] where
    nothing is mapped (an access there faults).  The guest view and the
    heap buffer of RAM banks are both regions.  Page protections are left
    out: every store of [memory.c] targets [0x8000] and above, which
    [gb_memory_init] maps read-write. *)

Definition region : Type := Z -> option Z.

Definition unmapped : region := fun _ => None.

Definition in_range (lo len x : Z) : bool := (lo <=? x) && (x <? lo + len).

(** [r[a] = v] *)
Definition region_store (r : region) (a v : Z) : option region :=
  match r a with
  | Some _ => Some (fun x => if x =? a then Some v else r x)
  | None => None
  end.

Definition range_mapped (r : region) (a n : Z) : bool :=
  forallb (fun i => match r (a + Z.of_nat i) with Some _ => true | None => false end)
          (seq 0 (Z.to_nat n)).

(** [memcpy(dst + d, src + s, n)]: the [n] source bytes are read, then
    written.  The two ranges of a call in [memory.c] are disjoint or, for
    a DMA from page [0xfe], identical. *)
Definition memcpy (dst : region) (d : Z) (src : region) (s : Z) (n : Z)
  : option region :=
  if range_mapped dst d n && range_mapped src s n
  then Some (fun x => if in_range d n x then src (s + (x - d)) else dst x)
  else None.

Arguments range_mapped : simpl never.
Arguments memcpy : simpl never.

(** [munmap(r + a, len)] that succeeded *)
Definition region_unmap (r : region) (a len : Z) : region :=
  fun x => if in_range a len x then None else r x.

(** a mapping of [len] bytes placed at [a]; [img] gives its bytes by
    displacement from the start of the mapping *)
Definition region_map (r : region) (a len : Z) (img : region) : region :=
  fun x => if in_range a len x then img (x - a) else r x.

Definition zero_page : region := fun _ => Some 0.

(** ** Structures of [memory.h] and [core.h] (the fields [memory.c] uses) *)

(** The case labels of the [switch] on [mem->mbc]. *)
Inductive mbc_type : Type :=
| MBC_NONE
| MBC1 | MBC1_RAM_BAT
| MBC2 | MBC2_BAT
| MBC3 | MBC3_RAM_BAT | MBC3_TIMER_RAM_BAT
| MBC5 | MBC5_RAM_BAT
| MBC_UNKNOWN.

Record gb_memory : Type := Build_gb_memory {
  mem : region;              (* uint8_t *mem: the 64 KiB view *)
  ram_banks : region;        (* uint8_t *ram_banks: MAX_RAM_BANKS * 0x2000 bytes *)
  filename : option string;
  fd : Z;
  mbc : Z;                   (* header byte 0x0147 *)
  mbc_mode : Z;
  mbc_data : Z;
  current_rom_bank : Z;
  current_ram_bank : Z;
  rtc_access : bool
}.

Record gb_keys : Type := Build_gb_keys {
  keys_state : Z             (* uint8_t state *)
}.

Record gb_block : Type := Build_gb_block {
  exec_count : Z;
  end_address : Z;
  block_code : option Z      (* the compiled code the JIT attached to the block *)
}.

Record gb_state : Type := Build_gb_state {
  state_mem : gb_memory;     (* gb_memory *mem *)
  state_keys : gb_keys
}.

Record gb_vm : Type := Build_gb_vm {
  vm_state : gb_state;       (* first member: a gb_state* is cast to gb_vm* *)
  highmem_blocks : list gb_block
}.

(** Field assignments. *)
Definition set_mem (r : region) (m : gb_memory) : gb_memory :=
  Build_gb_memory r (ram_banks m) (filename m) (fd m) (mbc m) (mbc_mode m)
    (mbc_data m) (current_rom_bank m) (current_ram_bank m) (rtc_access m).
Definition set_ram_banks (r : region) (m : gb_memory) : gb_memory :=
  Build_gb_memory (mem m) r (filename m) (fd m) (mbc m) (mbc_mode m)
    (mbc_data m) (current_rom_bank m) (current_ram_bank m) (rtc_access m).
Definition set_filename (f : option string) (m : gb_memory) : gb_memory :=
  Build_gb_memory (mem m) (ram_banks m) f (fd m) (mbc m) (mbc_mode m)
    (mbc_data m) (current_rom_bank m) (current_ram_bank m) (rtc_access m).
Definition set_fd (d : Z) (m : gb_memory) : gb_memory :=
  Build_gb_memory (mem m) (ram_banks m) (filename m) d (mbc m) (mbc_mode m)
    (mbc_data m) (current_rom_bank m) (current_ram_bank m) (rtc_access m).
Definition set_mbc (c : Z) (m : gb_memory) : gb_memory :=
  Build_gb_memory (mem m) (ram_banks m) (filename m) (fd m) c (mbc_mode m)
    (mbc_data m) (current_rom_bank m) (current_ram_bank m) (rtc_access m).
Definition set_mbc_mode (v : Z) (m : gb_memory) : gb_memory :=
  Build_gb_memory (mem m) (ram_banks m) (filename m) (fd m) (mbc m) v
    (mbc_data m) (current_rom_bank m) (current_ram_bank m) (rtc_access m).
Definition set_mbc_data (v : Z) (m : gb_memory) : gb_memory :=
  Build_gb_memory (mem m) (ram_banks m) (filename m) (fd m) (mbc m) (mbc_mode m)
    v (current_rom_bank m) (current_ram_bank m) (rtc_access m).
Definition set_current_rom_bank (b : Z) (m : gb_memory) : gb_memory :=
  Build_gb_memory (mem m) (ram_banks m) (filename m) (fd m) (mbc m) (mbc_mode m)
    (mbc_data m) b (current_ram_bank m) (rtc_access m).
Definition set_current_ram_bank (b : Z) (m : gb_memory) : gb_memory :=
  Build_gb_memory (mem m) (ram_banks m) (filename m) (fd m) (mbc m) (mbc_mode m)
    (mbc_data m) (current_rom_bank m) b (rtc_access m).
Definition set_rtc_access (b : bool) (m : gb_memory) : gb_memory :=
  Build_gb_memory (mem m) (ram_banks m) (filename m) (fd m) (mbc m) (mbc_mode m)
    (mbc_data m) (current_rom_bank m) (current_ram_bank m) b.

Definition set_exec_count (c : Z) (b : gb_block) : gb_block :=
  Build_gb_block c (end_address b) (block_code b).

(** [state->mem] is a pointer: updating the [gb_memory] behind it *)
Definition with_mem (vm : gb_vm) (m : gb_memory) : gb_vm :=
  Build_gb_vm (Build_gb_state m (state_keys (vm_state vm))) (highmem_blocks vm).
Definition with_blocks (vm : gb_vm) (bs : list gb_block) : gb_vm :=
  Build_gb_vm (vm_state vm) bs.
Definition vm_mem (vm : gb_vm) : gb_memory := state_mem (vm_state vm).

(** ** What the operating system answers

    [open], [mmap], [munmap] and [malloc] are outside the program; one
    record gives their answers during one call of [gb_memory_init] or
    [gb_memory_write] (each makes at most one call of each kind, except
    the two [mmap]s of a file-backed initialisation, told apart by their
    flags). *)
Record syscalls : Type := Build_syscalls {
  sys_open : Z;                          (* open(filename, O_RDONLY): < 0 on failure *)
  sys_mmap_file : Z -> Z -> option region;
                                         (* file offset, length: None is MAP_FAILED,
                                            else the bytes the mapping shows *)
  sys_mmap_anon : bool;                  (* MAP_ANONYMOUS mapping: false is MAP_FAILED *)
  sys_munmap : Z;                        (* munmap: 0 on success *)
  sys_malloc : option (Z -> Z)           (* None is NULL, else the buffer's first contents *)
}.

(** What the process holds, for the accounting of [gb_memory_init]. *)
Inductive resource : Type :=
| FileDescriptor (d : Z)
| Mapping (base len : Z)
| HeapBuffer.

(** What [memory.c] takes from headers and from the JIT that are not part
    of [src/]: the size of the RAM bank store, the values of the
    cartridge-type constants (as the case label a header byte equals) and
    [free_block]. *)
Class Collaborators : Type := Build_Collaborators {
  MAX_RAM_BANKS : Z;
  cartridge_type : Z -> mbc_type;
  free_block : gb_block -> gb_block
}.

(** ** The functions of [memory.c] *)

Definition uint8 (x : Z) : Z := Z.land x 0xff.

(** [static uint8_t get_joypad_state(gb_keys *keys, uint8_t value)]; the
    argument is converted to [uint8_t] at the call. *)
Definition get_joypad_state (keys : gb_keys) (value : Z) : Z :=
  let value := uint8 value in
  let result := 0 in
  let result :=
    if Z.land value (Z.lnot 0x10) =? 0 then result
    else uint8 (Z.lor result (Z.land (keys_state keys) 0x0f)) in
  let result :=
    if Z.land value (Z.lnot 0x20) =? 0 then result
    else uint8 (Z.lor result (Z.shiftr (keys_state keys) 4)) in
  uint8 (Z.lnot result).

(** [static void gb_memory_change_ram_bank(gb_memory *mem, int bank)].
    [None]: a [memcpy] runs outside the bank store or over an unmapped
    part of the view. *)
Definition gb_memory_change_ram_bank (m : gb_memory) (bank : Z) : option gb_memory :=
  if current_ram_bank m =? bank then Some m
  else
    banks ← (if rtc_access m then Some (ram_banks m)
             else memcpy (ram_banks m) (current_ram_bank m * 0x2000)
                         (mem m) 0xa000 0x2000);
    view ← memcpy (mem m) 0xa000 banks (bank * 0x2000) 0x2000;
    Some (set_current_ram_bank bank
            (set_rtc_access false (set_mem view (set_ram_banks banks m)))).

(** [static void gb_memory_change_rom_bank(gb_memory *mem, int bank)] *)
Definition gb_memory_change_rom_bank (os : syscalls) (m : gb_memory) (bank : Z)
  : gb_memory :=
  if current_rom_bank m =? bank then m
  else if negb (sys_munmap os =? 0) then m
  else
    let m := set_mem (region_unmap (mem m) 0x4000 0x4000) m in
    match sys_mmap_file os (0x4000 * bank) 0x4000 with
    | None => m
    | Some img =>
        set_current_rom_bank bank
          (set_mem (region_map (mem m) 0x4000 0x4000 img) m)
    end.

(** [static void gb_memory_access_rtc(gb_memory *mem, int elt)] *)
Definition gb_memory_access_rtc (m : gb_memory) (elt : Z) : option gb_memory :=
  view ← region_store (mem m) 0xa000 0;
  Some (set_rtc_access true (set_mem view m)).

(** [static void gb_memory_update_rtc_time(gb_memory *mem, int value)] *)
Definition gb_memory_update_rtc_time (m : gb_memory) (value : Z) : gb_memory := m.

Section Model.
Context `{Collaborators}.

(** The body of the loop over [highmem_blocks] at index [i]. *)
Definition invalidate_block (addr : Z) (blocks : list gb_block) (i : nat)
  : option (list gb_block) :=
  b ← blocks !! i;
  if negb (exec_count b =? 0) && (end_address b >? addr)
  then Some (<[i := set_exec_count 0 (free_block b)]> blocks)
  else Some blocks.

(** What one pass of the loop body leaves in place of the block [b]. *)
Definition invalidated (addr : Z) (b : gb_block) : gb_block :=
  if negb (exec_count b =? 0) && (end_address b >? addr)
  then set_exec_count 0 (free_block b)
  else b.

(** [for (unsigned i = from; i < from + count; ++i) ...] *)
Fixpoint invalidate_blocks (addr : Z) (from count : nat) (blocks : list gb_block)
  : option (list gb_block) :=
  match count with
  | O => Some blocks
  | S count' =>
      blocks' ← invalidate_block addr blocks from;
      invalidate_blocks addr (S from) count' blocks'
  end.

(** The right-hand side of [int bank = ...] in the MBC1 case. *)
Definition mbc1_rom_bank (m : gb_memory) (value : Z) : Z :=
  let bank :=
    Z.lor (Z.land value 0x1f)
          (if negb (mbc_mode m =? 0) then 0 else Z.land (mbc_data m) 0x60) in
  if Z.land bank 0x1f =? 0 then Z.lor bank 1 else bank.

Definition mbc3_rom_bank (value : Z) : Z :=
  let bank := Z.land value 0x7f in
  if bank =? 0 then 1 else bank.

(** [void gb_memory_write(gb_state *state, uint64_t addr, uint64_t value)].
    [None]: the call faults. *)
Definition gb_memory_write (os : syscalls) (vm : gb_vm) (addr value : Z)
  : option gb_vm :=
  let addr := Z.land addr 0xffff in
  let value := Z.land value 0xff in
  let m := vm_mem vm in
  if addr <? 0x8000 then
    match cartridge_type (mbc m) with
    | MBC_NONE => Some vm
    | MBC2_BAT | MBC2 | MBC1_RAM_BAT | MBC1 =>
        if addr >=? 0x6000 then
          Some (with_mem vm (set_mbc_mode (Z.land value 0x01) m))
        else if addr >=? 0x4000 then
          if negb (mbc_mode m =? 0) then
            m' ← gb_memory_change_ram_bank m value; Some (with_mem vm m')
          else Some (with_mem vm (set_mbc_data (Z.shiftl value 5) m))
        else if addr >=? 0x2000 then
          Some (with_mem vm (gb_memory_change_rom_bank os m (mbc1_rom_bank m value)))
        else Some vm
    | MBC3_TIMER_RAM_BAT | MBC3_RAM_BAT | MBC3 =>
        if addr >=? 0x6000 then
          Some (with_mem vm (gb_memory_update_rtc_time m value))
        else if addr >=? 0x4000 then
          if value <=? 4 then
            m' ← gb_memory_change_ram_bank m value; Some (with_mem vm m')
          else
            m' ← gb_memory_access_rtc m value; Some (with_mem vm m')
        else if addr >=? 0x2000 then
          Some (with_mem vm (gb_memory_change_rom_bank os m (mbc3_rom_bank value)))
        else Some vm
    | MBC5_RAM_BAT | MBC5 =>
        if addr >=? 0x4000 then
          m' ← gb_memory_change_ram_bank m value; Some (with_mem vm m')
        else if addr >=? 0x2000 then
          Some (with_mem vm (gb_memory_change_rom_bank os m value))
        else Some vm
    | MBC_UNKNOWN => Some vm
    end
  else if addr =? 0xff05 then
    view ← region_store (mem m) addr 0; Some (with_mem vm (set_mem view m))
  else if addr =? 0xff00 then
    view ← region_store (mem m) addr (get_joypad_state (state_keys (vm_state vm)) value);
    Some (with_mem vm (set_mem view m))
  else if addr =? 0xff01 then
    Some vm
  else if addr =? 0xff46 then
    view ← region_store (mem m) addr value;
    view ← memcpy view 0xfe00 view (Z.shiftl value 8) 0xa0;
    Some (with_mem vm (set_mem view m))
  else if addr >=? 0xff80 then
    blocks ← invalidate_blocks addr 0 (Z.to_nat (addr - 0xff80)) (highmem_blocks vm);
    view ← region_store (mem m) addr value;
    Some (with_mem (with_blocks vm blocks) (set_mem view m))
  else
    view ← region_store (mem m) addr value; Some (with_mem vm (set_mem view m)).

(** The heap buffer [malloc(MAX_RAM_BANKS * 0x2000)] returns. *)
Definition heap_buffer (contents : Z -> Z) : region :=
  fun o => if in_range 0 (MAX_RAM_BANKS * 0x2000) o then Some (contents o) else None.

(** [bool gb_memory_init(gb_memory *mem, const char *filename)], with
    the resources the process holds before and after.  The view is laid
    out from guest address 0; [None]: reading the header byte faults. *)
Definition gb_memory_init (os : syscalls) (held : list resource) (m : gb_memory)
    (fname : option string) : option (bool * gb_memory * list resource) :=
  let mapping : gb_memory * list resource + gb_memory * list resource :=
    match fname with
    | None =>
        let m := set_fd (-1) m in
        if sys_mmap_anon os then
          inr (set_mem (region_map unmapped 0 0x10000 zero_page) m,
               Mapping 0 0x10000 :: held)
        else inl (set_mem unmapped m, held)
    | Some _ =>
        let m := set_fd (sys_open os) m in
        if fd m <? 0 then inl (m, held)
        else
          let held := FileDescriptor (fd m) :: held in
          match sys_mmap_file os 0 0x8000 with
          | None => inl (set_mem unmapped m, held)
          | Some img =>
              let m := set_mem (region_map unmapped 0 0x8000 img) m in
              let held := Mapping 0 0x8000 :: held in
              if sys_mmap_anon os then
                inr (set_mem (region_map (mem m) 0x8000 0x8000 zero_page) m,
                     Mapping 0x8000 0x8000 :: held)
              else inl (m, held)
          end
    end in
  match mapping with
  | inl (m, held) => Some (false, m, held)
  | inr (m, held) =>
      let (buffer, held) :=
        match sys_malloc os with
        | Some contents => (heap_buffer contents, HeapBuffer :: held)
        | None => (unmapped, held)
        end in
      let m := set_ram_banks buffer m in
      let m := set_filename fname m in
      code ← mem m 0x0147;
      let m := set_mbc code m in
      let m := set_mbc_mode 0 m in
      let m := set_mbc_data 0 m in
      let m := set_current_rom_bank 1 m in
      let m := set_current_ram_bank 0 m in
      let m := set_rtc_access false m in
      Some (true, m, held)
  end.

(** The states a session passes through: a successful initialisation,
    then guest writes; the key state and the block table belong to
    other components, which change them between writes. *)
Inductive reachable : gb_vm -> Prop :=
| reachable_init os m0 fname m held keys blocks :
    gb_memory_init os [] m0 fname = Some (true, m, held) ->
    reachable (Build_gb_vm (Build_gb_state m keys) blocks)
| reachable_write os vm addr value vm' :
    reachable vm ->
    gb_memory_write os vm addr value = Some vm' ->
    reachable vm'
| reachable_collaborator vm keys blocks :
    reachable vm ->
    reachable (Build_gb_vm (Build_gb_state (vm_mem vm) keys) blocks).

End Model.

(** The bank store is allocated at its full size; the external-RAM
    window of the view is mapped.  [gb_memory_init] establishes both. *)
Definition store_allocated `{Collaborators} (r : region) : Prop :=
  forall o, 0 <= o < MAX_RAM_BANKS * 0x2000 -> is_Some (r o).
Definition window_mapped (r : region) : Prop :=
  forall x, 0xa000 <= x < 0xc000 -> is_Some (r x).

(** The three groups of case labels of the [switch]. *)
Definition mbc1_case (t : mbc_type) : bool :=
  match t with MBC2_BAT | MBC2 | MBC1_RAM_BAT | MBC1 => true | _ => false end.
Definition mbc3_case (t : mbc_type) : bool :=
  match t with MBC3_TIMER_RAM_BAT | MBC3_RAM_BAT | MBC3 => true | _ => false end.
Definition mbc5_case (t : mbc_type) : bool :=
  match t with MBC5_RAM_BAT | MBC5 => true | _ => false end.

(** ** The words of the specification, to compare the code with *)

(** The MBC1 bank as the specification words it: "if the low 5 bits are
    zero, forces bank 1". *)
Definition mbc1_rom_bank_forced (m : gb_memory) (value : Z) : Z :=
  let bank :=
    Z.lor (Z.land value 0x1f)
          (if negb (mbc_mode m =? 0) then 0 else Z.land (mbc_data m) 0x60) in
  if Z.land bank 0x1f =? 0 then 1 else bank.

(** The joypad byte as the specification words it: [value] is a mask of
    select lines, bit 5 (the mask [0x20]) for the d-pad line, which
    gates the low nibble of the key state, and bit 4 (the mask [0x10])
    for the buttons line, which gates the high nibble; the byte is the
    bitwise NOT, in eight bits, of the OR of the nibbles whose line is
    selected. *)
Definition dpad_selected (value : Z) : bool := Z.testbit value 5.
Definition buttons_selected (value : Z) : bool := Z.testbit value 4.
Definition selected_nibbles (keys value : Z) : Z :=
  Z.lor (if dpad_selected value then keys mod 16 else 0)
        (if buttons_selected value then keys / 16 else 0).
Definition joypad_byte (keys value : Z) : Z := 255 - selected_nibbles keys value.

(** The nibbles of the key state that the byte [value] makes
    [get_joypad_state] OR together: the low one unless [value] is 0 or
    [0x10], the high one unless [value] is 0 or [0x20]. *)
Definition taken_nibbles (keys value : Z) : Z :=
  Z.lor (if (value =? 0) || (value =? 0x10) then 0 else keys mod 16)
        (if (value =? 0) || (value =? 0x20) then 0 else keys / 16).

(** A run of guest writes [(addr, value)], first to last. *)
Fixpoint guest_writes `{Collaborators} (os : syscalls) (vm : gb_vm) (ws : list (Z * Z))
  : option gb_vm :=
  match ws with
  | [] => Some vm
  | (a, v) :: ws' => vm' ← gb_memory_write os vm a v; guest_writes os vm' ws'
  end.

(** The last byte such a run writes to [x]. *)
Fixpoint written (ws : list (Z * Z)) (x : Z) : option Z :=
  match ws with
  | [] => None
  | (a, v) :: ws' =>
      match written ws' x with
      | Some u => Some u
      | None => if Z.land a 0xffff =? x then Some (Z.land v 0xff) else None
      end
  end.

(** ** A concrete console, for running the model

    [memory.h] and the JIT are not part of [src/]: this instance takes
    the cartridge-type codes of the Game Boy header, a store of 16 banks
    and a [free_block] that drops the compiled code. *)
Definition dmg_cartridge_type (code : Z) : mbc_type :=
  if code =? 0x00 then MBC_NONE
  else if code =? 0x01 then MBC1
  else if code =? 0x03 then MBC1_RAM_BAT
  else if code =? 0x05 then MBC2
  else if code =? 0x06 then MBC2_BAT
  else if code =? 0x10 then MBC3_TIMER_RAM_BAT
  else if code =? 0x11 then MBC3
  else if code =? 0x13 then MBC3_RAM_BAT
  else if code =? 0x19 then MBC5
  else if code =? 0x1b then MBC5_RAM_BAT
  else MBC_UNKNOWN.

Definition dmg_free_block (b : gb_block) : gb_block :=
  Build_gb_block (exec_count b) (end_address b) None.

Definition dmg : Collaborators :=
  Build_Collaborators 16 dmg_cartridge_type dmg_free_block.

(** an image file that holds [code] at [0x0147] and, elsewhere, the low
    byte of the file offset, as a mapping at [offset] shows it *)
Definition rom_image (code : Z) (offset : Z) : region :=
  fun x => Some (if offset + x =? 0x0147 then code else (offset + x) mod 256).

(** every system call succeeds; [open] returns descriptor 3 *)
Definition os_ok (code : Z) : syscalls :=
  Build_syscalls 3 (fun offset _ => Some (rom_image code offset)) true 0 (Some (fun _ => 0)).

(** [open] succeeds and the first [mmap] fails, as for a directory *)
Definition os_mmap_fails : syscalls :=
  Build_syscalls 3 (fun _ _ => None) true 0 (Some (fun _ => 0)).

(** [open] and the first [mmap] succeed, the anonymous [mmap] fails *)
Definition os_anon_fails : syscalls :=
  Build_syscalls 3 (fun offset _ => Some (rom_image 0x01 offset)) false 0 (Some (fun _ => 0)).

(** the [gb_memory] before [gb_memory_init] has run *)
Definition blank_memory : gb_memory :=
  Build_gb_memory unmapped unmapped None 0 0 0 0 0 0 false.

(** a session on a cartridge of type [code]: the state [gb_memory_init]
    returns, no key pressed, [blocks] in the table *)
Definition session (code : Z) (blocks : list gb_block) : gb_vm :=
  match gb_memory_init (H := dmg) (os_ok code) [] blank_memory (Some "rom.gb"%string) with
  | Some (_, m, _) => Build_gb_vm (Build_gb_state m (Build_gb_keys 0)) blocks
  | None => Build_gb_vm (Build_gb_state blank_memory (Build_gb_keys 0)) blocks
  end.

Definition with_keys (vm : gb_vm) (k : Z) : gb_vm :=
  Build_gb_vm (Build_gb_state (vm_mem vm) (Build_gb_keys k)) (highmem_blocks vm).

(** a live block that ends at [0xff90], and a table of 128 of them *)
Definition live_block : gb_block := Build_gb_block 1 0xff90 (Some 7).
Definition live_table : list gb_block := repeat live_block 128.

(** an MBC3 session after the guest wrote [0x08] to [0x4000]: the RTC
    register is exposed *)
Definition rtc_session : gb_vm :=
  match gb_memory_write (H := dmg) (os_ok 0x11) (session 0x11 []) 0x4000 0x08 with
  | Some vm => vm
  | None => session 0x11 []
  end.

(** what a run of guest writes on the concrete console leaves in the
    [gb_memory], seen through [f]; [None]: the run faults *)
Definition observe {A : Type} (f : gb_memory -> A) (os : syscalls) (vm : gb_vm)
    (ws : list (Z * Z)) : option A :=
  vm' ← guest_writes (H := dmg) os vm ws; Some (f (vm_mem vm')).

(** ** Teardown *)

Definition resource_eqb (a b : resource) : bool :=
  match a, b with
  | FileDescriptor x, FileDescriptor y => x =? y
  | Mapping x l, Mapping y k => (x =? y) && (l =? k)
  | HeapBuffer, HeapBuffer => true
  | _, _ => false
  end.

(** [free] of the buffer, [close] of a descriptor: the resource leaves
    the ledger; [free(NULL)] and [close] of a descriptor that is not
    open take nothing away. *)
Fixpoint release (r : resource) (held : list resource) : list resource :=
  match held with
  | [] => []
  | h :: t => if resource_eqb r h then t else h :: release r t
  end.

(** What a successful [munmap(base, len)] leaves of one mapping: the
    part below [base] and the part from [base + len] on. *)
Definition unmap_mapping (base len b l : Z) : list resource :=
  (if b <? Z.min (b + l) base then [Mapping b (Z.min (b + l) base - b)] else []) ++
  (if Z.max b (base + len) <? b + l
   then [Mapping (Z.max b (base + len)) (b + l - Z.max b (base + len))] else []).

Definition unmap_held (base len : Z) (held : list resource) : list resource :=
  flat_map (fun r => match r with
                     | Mapping b l => unmap_mapping base len b l
                     | _ => [r]
                     end) held.

(** The answers of the two [munmap] calls of [gb_memory_free], in the
    order of the calls. *)
Record free_calls : Type := Build_free_calls {
  munmap_low : Z;            (* munmap(mem->mem, 0x8000) *)
  munmap_high : Z            (* munmap(mem->mem + 0x8000, 0x8000) *)
}.

(** [bool gb_memory_free(gb_memory *mem)]: the second [munmap] is the
    right operand of [||] and runs only when the first returned 0. *)
Definition gb_memory_free (fc : free_calls) (held : list resource) (m : gb_memory)
  : bool * gb_memory * list resource :=
  let held := release HeapBuffer held in
  let m := set_ram_banks unmapped m in
  let held := release (FileDescriptor (fd m)) held in
  if negb (munmap_low fc =? 0) then (false, m, held)
  else
    let m := set_mem (region_unmap (mem m) 0 0x8000) m in
    let held := unmap_held 0 0x8000 held in
    if negb (munmap_high fc =? 0) then (false, m, held)
    else (true, set_mem (region_unmap (mem m) 0x8000 0x8000) m,
          unmap_held 0x8000 0x8000 held).

(** What a call leaves alone in the [gb_memory]: the file, the
    cartridge type and the view below [0x4000]. *)
Definition rom_kept (m m' : gb_memory) : Prop :=
  filename m' = filename m /\ fd m' = fd m /\ mbc m' = mbc m /\
  forall x, x < 0x4000 -> mem m' x = mem m x.

(** The part of the view that is emulator memory is mapped. *)
Definition high_mapped (r : region) : Prop :=
  forall x, 0x8000 <= x < 0x10000 -> is_Some (r x).

(** The ranges of the controller fields. *)
Definition controller_in_range `{Collaborators} (m : gb_memory) : Prop :=
  (mbc_mode m = 0 \/ mbc_mode m = 1) /\
  0 <= mbc_data m <= 0x1fe0 /\
  0 <= current_rom_bank m <= 255 /\
  0 <= current_ram_bank m <= 255 /\
  (mbc1_case (cartridge_type (mbc m)) = true -> 1 <= current_rom_bank m <= 127) /\
  (mbc3_case (cartridge_type (mbc m)) = true ->
   1 <= current_rom_bank m <= 127 /\ current_ram_bank m <= 4) /\
  (rtc_access m = true -> mbc3_case (cartridge_type (mbc m)) = true).

(** ** More of the concrete console *)

(** the plain addresses of [gb_memory_write]: at or above [0x8000],
    below [0xff80], none of the four trapped registers *)
Definition plain_address (a : Z) : bool :=
  (0x8000 <=? a) && (a <? 0xff80) &&
  negb ((a =? 0xff05) || (a =? 0xff00) || (a =? 0xff01) || (a =? 0xff46)).

(** [munmap] fails *)
Definition os_munmap_fails : syscalls :=
  Build_syscalls 3 (fun offset _ => Some (rom_image 0x01 offset)) true (-1) (Some (fun _ => 0)).

(** [munmap] succeeds and the [mmap] of the bank fails *)
Definition os_remap_fails : syscalls :=
  Build_syscalls 3 (fun _ _ => None) true 0 (Some (fun _ => 0)).

(** every call succeeds but [malloc], which returns [NULL] *)
Definition os_no_heap : syscalls :=
  Build_syscalls 3 (fun offset _ => Some (rom_image 0x19 offset)) true 0 None.

(** the [gb_memory] an initialisation without bank store returns *)
Definition no_heap_memory : gb_memory :=
  match gb_memory_init (H := dmg) os_no_heap [] blank_memory (Some "rom.gb"%string) with
  | Some (_, m, _) => m
  | None => blank_memory
  end.

(** both [munmap]s of the teardown succeed; the first one fails *)
Definition fc_ok : free_calls := Build_free_calls 0 0.
Definition fc_low_fails : free_calls := Build_free_calls (-1) 0.

(** an MBC1 session whose switch to bank 2 failed at [mmap] *)
Definition stranded_session : gb_vm :=
  with_mem (session 0x01 [])
           (gb_memory_change_rom_bank os_remap_fails (vm_mem (session 0x01 [])) 2).

(** * Properties *)

(** ** Masks, regions and [memcpy] *)

Lemma land_addr (a : Z) : 0 <= a < 0x10000 -> Z.land a 0xffff = a.
Proof.
  intros Ha. change 0xffff with (Z.ones 16).
  rewrite Z.land_ones by lia. apply Z.mod_small. lia.
Qed.

Lemma land_byte (v : Z) : 0 <= v < 256 -> Z.land v 0xff = v.
Proof.
  intros Hv. change 0xff with (Z.ones 8).
  rewrite Z.land_ones by lia. apply Z.mod_small. lia.
Qed.

Lemma land_byte_range (v : Z) : 0 <= Z.land v 0xff < 256.
Proof.
  change 0xff with (Z.ones 8). rewrite Z.land_ones by lia.
  apply Z.mod_pos_bound. lia.
Qed.

Lemma in_range_true (lo len x : Z) : in_range lo len x = true <-> lo <= x < lo + len.
Proof. unfold in_range. rewrite andb_true_iff, Z.leb_le, Z.ltb_lt. tauto. Qed.

Lemma in_range_false (lo len x : Z) :
  in_range lo len x = false <-> x < lo \/ lo + len <= x.
Proof. unfold in_range. rewrite andb_false_iff, Z.leb_gt, Z.ltb_ge. tauto. Qed.

Lemma range_mapped_true (r : region) (a n : Z) :
  range_mapped r a n = true <->
  (forall x, a <= x < a + n -> is_Some (r x)).
Proof.
  unfold range_mapped. rewrite forallb_forall. split.
  - intros Hall x Hx.
    specialize (Hall (Z.to_nat (x - a))).
    rewrite Z2Nat.id in Hall by lia.
    replace (a + (x - a)) with x in Hall by lia.
    destruct (r x); [eauto |].
    exfalso. enough (false = true) by discriminate.
    apply Hall, in_seq. lia.
  - intros Hall i Hi. apply in_seq in Hi.
    destruct (Hall (a + Z.of_nat i)) as [v ->]; [lia | reflexivity].
Qed.

Lemma memcpy_Some (dst : region) (d : Z) (src : region) (s : Z) (n : Z) :
  (forall x, d <= x < d + n -> is_Some (dst x)) ->
  (forall x, s <= x < s + n -> is_Some (src x)) ->
  memcpy dst d src s n =
  Some (fun x => if in_range d n x then src (s + (x - d)) else dst x).
Proof.
  intros Hd Hs. unfold memcpy.
  apply range_mapped_true in Hd, Hs. rewrite Hd, Hs. reflexivity.
Qed.

Lemma region_store_Some (r : region) (a v : Z) :
  is_Some (r a) ->
  region_store r a v = Some (fun x => if x =? a then Some v else r x).
Proof. intros [u Hu]. unfold region_store. rewrite Hu. reflexivity. Qed.

Lemma with_mem_vm_mem (vm : gb_vm) : with_mem vm (vm_mem vm) = vm.
Proof. destruct vm as [[m k] bs]. reflexivity. Qed.

(** ** The controller fields that a RAM-side operation leaves alone *)

Lemma change_ram_bank_rom_side (m m' : gb_memory) (bank : Z) :
  gb_memory_change_ram_bank m bank = Some m' ->
  mbc m' = mbc m /\ current_rom_bank m' = current_rom_bank m.
Proof.
  unfold gb_memory_change_ram_bank. intros Hm.
  destruct (current_ram_bank m =? bank).
  - injection Hm as <-. auto.
  - apply bind_Some in Hm as (banks & _ & Hm).
    apply bind_Some in Hm as (view & _ & Hm).
    injection Hm as <-. auto.
Qed.

Lemma access_rtc_rom_side (m m' : gb_memory) (elt : Z) :
  gb_memory_access_rtc m elt = Some m' ->
  mbc m' = mbc m /\ current_rom_bank m' = current_rom_bank m.
Proof.
  unfold gb_memory_access_rtc. intros Hm.
  destruct (region_store _ _ _); simpl in Hm; [| discriminate].
  injection Hm as <-. auto.
Qed.

Lemma change_rom_bank_result (os : syscalls) (m : gb_memory) (bank : Z) :
  mbc (gb_memory_change_rom_bank os m bank) = mbc m /\
  (current_rom_bank (gb_memory_change_rom_bank os m bank) = current_rom_bank m \/
   current_rom_bank (gb_memory_change_rom_bank os m bank) = bank).
Proof.
  unfold gb_memory_change_rom_bank.
  destruct (current_rom_bank m =? bank); [auto |].
  destruct (negb (sys_munmap os =? 0)); [auto |].
  destruct (sys_mmap_file os _ _); simpl; auto.
Qed.

(** When [munmap] and [mmap] succeed (or the bank is already mapped) the
    requested bank is the current one afterwards. *)
Lemma change_rom_bank_selects (os : syscalls) (m : gb_memory) (bank : Z) :
  sys_munmap os = 0 ->
  is_Some (sys_mmap_file os (0x4000 * bank) 0x4000) ->
  current_rom_bank (gb_memory_change_rom_bank os m bank) = bank.
Proof.
  intros Hun [img Himg]. unfold gb_memory_change_rom_bank.
  destruct (current_rom_bank m =? bank) eqn:Hcur.
  - apply Z.eqb_eq in Hcur. exact Hcur.
  - rewrite Hun, Himg. reflexivity.
Qed.

Section Properties.
Context `{Collaborators}.

(** ** The scan of the block table *)

Lemma invalidate_block_lookup (addr : Z) (blocks : list gb_block) (i : nat) (b : gb_block) :
  blocks !! i = Some b ->
  exists blocks',
    invalidate_block addr blocks i = Some blocks' /\
    length blocks' = length blocks /\
    forall j, blocks' !! j =
              if (j =? i)%nat then Some (invalidated addr b) else blocks !! j.
Proof.
  intros Hb. unfold invalidate_block, invalidated. rewrite Hb. simpl.
  pose proof (lookup_lt_Some _ _ _ Hb) as Hlt.
  destruct (negb (exec_count b =? 0) && (end_address b >? addr)).
  - eexists. split; [reflexivity |]. split; [apply length_insert |].
    intros j. destruct (Nat.eqb_spec j i) as [-> | Hne].
    + apply list_lookup_insert_eq. exact Hlt.
    + apply list_lookup_insert_ne. congruence.
  - exists blocks. split; [reflexivity |]. split; [reflexivity |].
    intros j. destruct (Nat.eqb_spec j i) as [-> | Hne]; [exact Hb | reflexivity].
Qed.

Lemma invalidate_blocks_lookup (addr : Z) (count : nat) :
  forall (from : nat) (blocks : list gb_block),
    (from + count <= length blocks)%nat ->
    exists blocks',
      invalidate_blocks addr from count blocks = Some blocks' /\
      length blocks' = length blocks /\
      forall j, blocks' !! j =
                if ((from <=? j) && (j <? from + count))%nat
                then invalidated addr <$> blocks !! j
                else blocks !! j.
Proof.
  induction count as [| count IH]; intros from blocks Hlen.
  - exists blocks. split; [reflexivity |]. split; [reflexivity |].
    intros j. replace ((from <=? j) && (j <? from + 0))%nat with false; [reflexivity |].
    symmetry. apply andb_false_iff.
    rewrite Nat.leb_gt, Nat.ltb_ge. lia.
  - destruct (lookup_lt_is_Some_2 blocks from) as [b Hb]; [lia |].
    destruct (invalidate_block_lookup addr blocks from b Hb)
      as (blocks1 & Hstep & Hlen1 & Hlook1).
    destruct (IH (S from) blocks1) as (blocks' & Hrest & Hlen' & Hlook'); [lia |].
    exists blocks'. split; [| split].
    + simpl. rewrite Hstep. simpl. exact Hrest.
    + congruence.
    + intros j. rewrite Hlook', !Hlook1.
      destruct (Nat.eqb_spec j from) as [-> | Hne].
      * replace ((S from <=? from) && (from <? S from + count))%nat with false
          by (symmetry; apply andb_false_iff; rewrite Nat.leb_gt; lia).
        replace ((from <=? from) && (from <? from + S count))%nat with true
          by (symmetry; apply andb_true_iff; rewrite Nat.leb_le, Nat.ltb_lt; lia).
        rewrite Hb. reflexivity.
      * replace ((S from <=? j) && (j <? S from + count))%nat
          with ((from <=? j) && (j <? from + S count))%nat; [reflexivity |].
        apply eq_true_iff_eq.
        rewrite !andb_true_iff, !Nat.leb_le, !Nat.ltb_lt. lia.
Qed.

Lemma invalidated_live (addr : Z) (b : gb_block) :
  exec_count b <> 0 -> end_address b > addr ->
  invalidated addr b = set_exec_count 0 (free_block b).
Proof.
  intros Hlive Hend. unfold invalidated.
  apply Z.eqb_neq in Hlive. rewrite Hlive.
  replace (end_address b >? addr) with true; [reflexivity |].
  symmetry. apply Z.gtb_lt. lia.
Qed.

Lemma invalidated_kept (addr : Z) (b : gb_block) :
  exec_count b = 0 \/ end_address b <= addr ->
  invalidated addr b = b.
Proof.
  intros [Hdead | Hend]; unfold invalidated.
  - rewrite Hdead. reflexivity.
  - replace (end_address b >? addr) with false.
    + rewrite andb_false_r. reflexivity.
    + symmetry. rewrite Z.gtb_ltb. apply Z.ltb_ge. lia.
Qed.

(** C1. A write to [addr] in [0xff80, 0x10000) scans the blocks at
    displacements [0 .. addr - 0xff80): each one that is live and ends
    beyond [addr] is replaced by [free_block] of it with [exec_count]
    0, every other block of the table is kept; only then is the byte
    stored at [addr] (the state is the scanned table with the store
    applied, all else as before).  A block ending at [0xffa0] survives
    a write at [0xffa5]; a live block among the first five, ending at
    [0xff90], is invalidated by a write at [0xff85]. *)
Theorem highmem_write_invalidates_blocks
    (os : syscalls) (vm : gb_vm) (addr value : Z) :
  0xff80 <= addr < 0x10000 ->
  (Z.to_nat (addr - 0xff80) <= length (highmem_blocks vm))%nat ->
  is_Some (mem (vm_mem vm) addr) ->
  exists blocks' view,
    invalidate_blocks addr 0 (Z.to_nat (addr - 0xff80)) (highmem_blocks vm)
      = Some blocks' /\
    region_store (mem (vm_mem vm)) addr (Z.land value 0xff) = Some view /\
    gb_memory_write os vm addr value
      = Some (with_mem (with_blocks vm blocks') (set_mem view (vm_mem vm))) /\
    length blocks' = length (highmem_blocks vm) /\
    (forall i b, highmem_blocks vm !! i = Some b ->
       Z.of_nat i < addr - 0xff80 -> exec_count b <> 0 -> end_address b > addr ->
       blocks' !! i = Some (set_exec_count 0 (free_block b)) /\
       exec_count (set_exec_count 0 (free_block b)) = 0) /\
    (forall i b, highmem_blocks vm !! i = Some b ->
       addr - 0xff80 <= Z.of_nat i \/ exec_count b = 0 \/ end_address b <= addr ->
       blocks' !! i = Some b) /\
    view addr = Some (Z.land value 0xff) /\
    (forall x, x <> addr -> view x = mem (vm_mem vm) x) /\
    (addr = 0xffa5 ->
     forall i b, highmem_blocks vm !! i = Some b -> end_address b = 0xffa0 ->
                 blocks' !! i = Some b) /\
    (addr = 0xff85 ->
     forall i b, highmem_blocks vm !! i = Some b -> (i < 5)%nat ->
                 exec_count b <> 0 -> end_address b = 0xff90 ->
                 exists b', blocks' !! i = Some b' /\ exec_count b' = 0).
Proof.
  intros Haddr Hlen Hmapped.
  destruct (invalidate_blocks_lookup addr (Z.to_nat (addr - 0xff80)) 0
              (highmem_blocks vm)) as (blocks' & Hscan & Hlen' & Hlook); [lia |].
  assert (Hfreed : forall i b, highmem_blocks vm !! i = Some b ->
             Z.of_nat i < addr - 0xff80 -> exec_count b <> 0 -> end_address b > addr ->
             blocks' !! i = Some (set_exec_count 0 (free_block b))).
  { intros i b Hb Hi Hlive Hend. rewrite Hlook, Hb.
    replace ((0 <=? i) && (i <? 0 + Z.to_nat (addr - 0xff80)))%nat with true
      by (symmetry; apply andb_true_iff; rewrite Nat.leb_le, Nat.ltb_lt; lia).
    simpl. f_equal. apply invalidated_live; assumption. }
  assert (Hkept : forall i b, highmem_blocks vm !! i = Some b ->
             addr - 0xff80 <= Z.of_nat i \/ exec_count b = 0 \/ end_address b <= addr ->
             blocks' !! i = Some b).
  { intros i b Hb Hcase. rewrite Hlook, Hb.
    destruct ((0 <=? i) && (i <? 0 + Z.to_nat (addr - 0xff80)))%nat eqn:Hin;
      [| reflexivity].
    apply andb_true_iff in Hin. rewrite Nat.leb_le, Nat.ltb_lt in Hin.
    simpl. f_equal. apply invalidated_kept.
    destruct Hcase as [Hout | Hcase]; [lia | exact Hcase]. }
  exists blocks', (fun x => if x =? addr then Some (Z.land value 0xff)
                            else mem (vm_mem vm) x).
  split; [exact Hscan |].
  split; [apply region_store_Some; exact Hmapped |].
  split.
  { unfold gb_memory_write. rewrite (land_addr addr) by lia.
    replace (addr <? 0x8000) with false by (symmetry; apply Z.ltb_ge; lia).
    replace (addr =? 0xff05) with false by (symmetry; apply Z.eqb_neq; lia).
    replace (addr =? 0xff00) with false by (symmetry; apply Z.eqb_neq; lia).
    replace (addr =? 0xff01) with false by (symmetry; apply Z.eqb_neq; lia).
    replace (addr =? 0xff46) with false by (symmetry; apply Z.eqb_neq; lia).
    replace (addr >=? 0xff80) with true by (symmetry; apply Z.geb_le; lia).
    rewrite Hscan. simpl.
    rewrite (region_store_Some _ _ _ Hmapped). reflexivity. }
  split; [exact Hlen' |].
  split; [intros i b Hb Hi Hlive Hend; split; [eauto | reflexivity] |].
  split; [exact Hkept |].
  split; [rewrite Z.eqb_refl; reflexivity |].
  split.
  { intros x Hx. apply Z.eqb_neq in Hx. rewrite Hx. reflexivity. }
  split.
  - intros -> i b Hb Hend. apply Hkept; [exact Hb | lia].
  - intros -> i b Hb Hi Hlive Hend.
    exists (set_exec_count 0 (free_block b)). split; [| reflexivity].
    apply Hfreed; [exact Hb | lia | exact Hlive | lia].
Qed.

(** ** I/O registers *)

(** C7, as the code has it. A write to [0xff01] (any [addr] whose low
    16 bits are [0xff01]) is accepted and dropped: the call returns and
    the whole state is what it was, so the byte at [0xff01] is the one
    from before the write, whatever [value] is. *)
Theorem serial_write_changes_nothing (os : syscalls) (vm : gb_vm) (addr value : Z) :
  Z.land addr 0xffff = 0xff01 ->
  gb_memory_write os vm addr value = Some vm /\
  forall vm', gb_memory_write os vm addr value = Some vm' ->
              mem (vm_mem vm') 0xff01 = mem (vm_mem vm) 0xff01.
Proof.
  intros Haddr.
  assert (Hw : gb_memory_write os vm addr value = Some vm).
  { unfold gb_memory_write. rewrite Haddr. reflexivity. }
  split; [exact Hw |].
  intros vm' Hw'. rewrite Hw in Hw'. injection Hw' as <-. reflexivity.
Qed.

Lemma lor_nibbles (a b : Z) : 0 <= a < 16 -> 0 <= b < 16 -> 0 <= Z.lor a b < 16.
Proof.
  intros Ha Hb.
  assert (Hmod : Z.lor a b = Z.lor a b mod 16).
  { change 16 with (2 ^ 4). rewrite <- Z.land_ones by lia.
    rewrite Z.land_lor_distr_l, !Z.land_ones by lia.
    change (2 ^ 4) with 16. rewrite !Z.mod_small by lia. reflexivity. }
  rewrite Hmod. apply Z.mod_pos_bound. lia.
Qed.

Lemma uint8_lnot (r : Z) : 0 <= r < 256 -> uint8 (Z.lnot r) = 255 - r.
Proof.
  intros Hr.
  assert (Hmod : forall x, uint8 x = x mod 256).
  { intros x. unfold uint8. change 0xff with (Z.ones 8). apply Z.land_ones. lia. }
  rewrite Hmod. unfold Z.lnot.
  replace (Z.pred (- r)) with (255 - r + (-1) * 256) by lia.
  rewrite Z_mod_plus_full. apply Z.mod_small. lia.
Qed.

(** A property checked on each of the 256 bytes holds of every byte. *)
Lemma forall_bytes (P : Z -> bool) :
  forallb P (map Z.of_nat (seq 0 256)) = true ->
  forall v, 0 <= v < 256 -> P v = true.
Proof.
  intros Hall v Hv. rewrite forallb_forall in Hall. apply Hall.
  apply in_map_iff. exists (Z.to_nat v). split; [lia | apply in_seq; lia].
Qed.

(** The two tests of [get_joypad_state] on a byte: [value & ~0x10] is
    zero for the bytes 0 and [0x10] only, [value & ~0x20] for 0 and
    [0x20] only. *)
Lemma joypad_tests (v : Z) :
  0 <= v < 256 ->
  (Z.land v (Z.lnot 0x10) =? 0) = ((v =? 0) || (v =? 0x10)) /\
  (Z.land v (Z.lnot 0x20) =? 0) = ((v =? 0) || (v =? 0x20)).
Proof.
  intros Hv.
  pose proof (forall_bytes
                (fun v => Bool.eqb (Z.land v (Z.lnot 0x10) =? 0) ((v =? 0) || (v =? 0x10)) &&
                          Bool.eqb (Z.land v (Z.lnot 0x20) =? 0) ((v =? 0) || (v =? 0x20)))
                ltac:(vm_compute; reflexivity) v Hv) as Hall.
  cbv beta in Hall. apply andb_true_iff in Hall as [H1 H2].
  split; apply eqb_prop; assumption.
Qed.

(** The byte [get_joypad_state] returns is the complement, in eight
    bits, of the OR of the nibbles it takes. *)
Lemma get_joypad_state_taken (keys : gb_keys) (value : Z) :
  0 <= keys_state keys < 256 ->
  get_joypad_state keys value = 255 - taken_nibbles (keys_state keys) (Z.land value 0xff).
Proof.
  intros Hk. unfold get_joypad_state, taken_nibbles.
  pose proof (land_byte_range value) as Hv.
  change (uint8 value) with (Z.land value 0xff).
  set (v := Z.land value 0xff) in *.
  destruct (joypad_tests v Hv) as [-> ->].
  set (k := keys_state keys) in *.
  assert (Hlow : Z.land k 0x0f = k mod 16).
  { change 0x0f with (Z.ones 4). apply Z.land_ones. lia. }
  assert (Hhigh : Z.shiftr k 4 = k / 16).
  { apply Z.shiftr_div_pow2. lia. }
  assert (Hl : 0 <= k mod 16 < 16) by (apply Z.mod_pos_bound; lia).
  assert (Hh : 0 <= k / 16 < 16).
  { split; [apply Z.div_pos; lia | apply Z.div_lt_upper_bound; lia]. }
  rewrite Hlow, Hhigh.
  destruct ((v =? 0) || (v =? 0x10)), ((v =? 0) || (v =? 0x20)).
  - reflexivity.
  - pose proof (lor_nibbles 0 (k / 16) ltac:(lia) Hh) as Hb.
    unfold uint8 at 2. rewrite land_byte by lia. apply uint8_lnot. lia.
  - pose proof (lor_nibbles 0 (k mod 16) ltac:(lia) Hl) as Hb.
    unfold uint8 at 2. rewrite land_byte by lia.
    rewrite Z.lor_0_r. rewrite Z.lor_0_l in *. apply uint8_lnot. lia.
  - pose proof (lor_nibbles 0 (k mod 16) ltac:(lia) Hl) as Hb.
    unfold uint8 at 3. rewrite (land_byte (Z.lor 0 (k mod 16))) by lia.
    rewrite Z.lor_0_l.
    pose proof (lor_nibbles (k mod 16) (k / 16) Hl Hh) as Hb2.
    unfold uint8 at 2. rewrite land_byte by lia. apply uint8_lnot. lia.
Qed.

(** C8, as the code has it. A write of [value] to [0xff00] stores
    there, instead of [value], the complement in eight bits of the OR of
    the nibbles of the key state that the byte written takes in: the low
    nibble unless the byte is 0 or [0x10], the high nibble unless it is
    0 or [0x20].  For the four masks made of bits 4 and 5 alone that is
    the byte of the select lines: bit 5 selects the d-pad line (low
    nibble), bit 4 the buttons line (high nibble).  The rest of the
    state is kept.  With keys [0x05], the mask [0x20] gives
    [~0x05 & 0xff] and the mask [0x10] gives another byte. *)
Theorem joypad_write_stores_key_lines (os : syscalls) (vm : gb_vm) (value : Z) :
  0 <= keys_state (state_keys (vm_state vm)) < 256 ->
  is_Some (mem (vm_mem vm) 0xff00) ->
  exists view,
    gb_memory_write os vm 0xff00 value
      = Some (with_mem vm (set_mem view (vm_mem vm))) /\
    view 0xff00
      = Some (get_joypad_state (state_keys (vm_state vm)) (Z.land value 0xff)) /\
    get_joypad_state (state_keys (vm_state vm)) (Z.land value 0xff)
      = 255 - taken_nibbles (keys_state (state_keys (vm_state vm))) (Z.land value 0xff) /\
    (Z.land value 0xff = 0x00 \/ Z.land value 0xff = 0x10 \/
     Z.land value 0xff = 0x20 \/ Z.land value 0xff = 0x30 ->
     get_joypad_state (state_keys (vm_state vm)) (Z.land value 0xff)
     = joypad_byte (keys_state (state_keys (vm_state vm))) (Z.land value 0xff)) /\
    (forall x, x <> 0xff00 -> view x = mem (vm_mem vm) x) /\
    get_joypad_state (Build_gb_keys 0x05) 0x20 = Z.land (Z.lnot 0x05) 0xff /\
    get_joypad_state (Build_gb_keys 0x05) 0x10
      <> get_joypad_state (Build_gb_keys 0x05) 0x20 /\
    get_joypad_state (Build_gb_keys 0x05) 0x20 <> 0x20.
Proof.
  intros Hk Hmapped.
  exists (fun x => if x =? 0xff00
                   then Some (get_joypad_state (state_keys (vm_state vm))
                                (Z.land value 0xff))
                   else mem (vm_mem vm) x).
  assert (Htaken :
            get_joypad_state (state_keys (vm_state vm)) (Z.land value 0xff)
            = 255 - taken_nibbles (keys_state (state_keys (vm_state vm)))
                      (Z.land value 0xff)).
  { rewrite get_joypad_state_taken by exact Hk.
    rewrite (land_byte (Z.land value 0xff)) by apply land_byte_range. reflexivity. }
  split.
  { unfold gb_memory_write. change (Z.land 0xff00 0xffff) with 0xff00.
    change (0xff00 <? 0x8000) with false. change (0xff00 =? 0xff05) with false.
    change (0xff00 =? 0xff00) with true. cbv iota.
    rewrite (region_store_Some _ _ _ Hmapped). reflexivity. }
  split; [reflexivity |].
  split; [exact Htaken |].
  split.
  { intros Hmask. rewrite Htaken.
    destruct Hmask as [-> | [-> | [-> | ->]]]; reflexivity. }
  split.
  { intros x Hx. apply Z.eqb_neq in Hx. rewrite Hx. reflexivity. }
  split; [reflexivity |].
  split; [vm_compute; discriminate | vm_compute; discriminate].
Qed.

(** C9, as the code has it. A write of [value] to [0xff46] first
    stores the byte at [0xff46], then copies the 160 bytes at
    [value << 8] to [0xfe00 .. 0xfea0): every OAM byte equals the source
    byte as it is after that store.  For every page but [0xff] that is
    the source byte from before the write; from page [0xff] the byte
    copied from [0xff46] is [value] itself. *)
Theorem dma_write_copies_page (os : syscalls) (vm : gb_vm) (value : Z) :
  (forall x, Z.shiftl (Z.land value 0xff) 8 <= x < Z.shiftl (Z.land value 0xff) 8 + 160 ->
             is_Some (mem (vm_mem vm) x)) ->
  (forall x, 0xfe00 <= x < 0xfea0 -> is_Some (mem (vm_mem vm) x)) ->
  is_Some (mem (vm_mem vm) 0xff46) ->
  exists view,
    gb_memory_write os vm 0xff46 value
      = Some (with_mem vm (set_mem view (vm_mem vm))) /\
    view 0xff46 = Some (Z.land value 0xff) /\
    (forall i, 0 <= i < 160 ->
       view (0xfe00 + i) =
       if Z.shiftl (Z.land value 0xff) 8 + i =? 0xff46
       then Some (Z.land value 0xff)
       else mem (vm_mem vm) (Z.shiftl (Z.land value 0xff) 8 + i)) /\
    (Z.land value 0xff <> 0xff ->
     forall i, 0 <= i < 160 ->
       view (0xfe00 + i) = mem (vm_mem vm) (Z.shiftl (Z.land value 0xff) 8 + i)) /\
    (forall x, x <> 0xff46 -> ~ 0xfe00 <= x < 0xfea0 -> view x = mem (vm_mem vm) x).
Proof.
  set (v := Z.land value 0xff).
  intros Hsrc Hoam Hreg.
  pose proof (land_byte_range value) as Hv. fold v in Hv.
  assert (Hpage : Z.shiftl v 8 = v * 256) by (apply Z.shiftl_mul_pow2; lia).
  rewrite Hpage in *.
  set (stored := fun x => if x =? 0xff46 then Some v else mem (vm_mem vm) x).
  assert (Hstored : forall x, is_Some (mem (vm_mem vm) x) -> is_Some (stored x)).
  { intros x Hx. unfold stored. destruct (x =? 0xff46); eauto. }
  exists (fun x => if in_range 0xfe00 0xa0 x
                   then stored (v * 256 + (x - 0xfe00)) else stored x).
  split.
  { unfold gb_memory_write. change (Z.land 0xff46 0xffff) with 0xff46.
    change (0xff46 <? 0x8000) with false. change (0xff46 =? 0xff05) with false.
    change (0xff46 =? 0xff00) with false. change (0xff46 =? 0xff01) with false.
    change (0xff46 =? 0xff46) with true. cbv iota. fold v.
    rewrite (region_store_Some _ _ _ Hreg). simpl mbind. cbv beta.
    fold stored. rewrite Hpage.
    rewrite memcpy_Some; [reflexivity | |].
    - intros x Hx. apply Hstored, Hoam. lia.
    - intros x Hx. apply Hstored, Hsrc. lia. }
  split; [reflexivity |].
  assert (Hcopy : forall i, 0 <= i < 160 ->
            (if in_range 0xfe00 0xa0 (0xfe00 + i)
             then stored (v * 256 + (0xfe00 + i - 0xfe00)) else stored (0xfe00 + i))
            = stored (v * 256 + i)).
  { intros i Hi.
    replace (in_range 0xfe00 0xa0 (0xfe00 + i)) with true
      by (symmetry; apply in_range_true; lia).
    f_equal. lia. }
  split; [intros i Hi; rewrite Hcopy by exact Hi; reflexivity |].
  split.
  { intros Hne i Hi. rewrite Hcopy by exact Hi. unfold stored.
    replace (v * 256 + i =? 0xff46) with false; [reflexivity |].
    symmetry. apply Z.eqb_neq. lia. }
  intros x Hx Hout.
  replace (in_range 0xfe00 0xa0 x) with false
    by (symmetry; apply in_range_false; lia).
  unfold stored. apply Z.eqb_neq in Hx. rewrite Hx. reflexivity.
Qed.

(** ** RAM banks *)

(** C10. With the RTC register exposed, selecting the RAM bank that is
    already current returns before the RTC handling: the state comes
    back unchanged, [rtc_access] still true, nothing restored from the
    bank store; so does the MBC3 write that makes the selection. *)
Theorem ram_bank_reselect_under_rtc_is_noop
    (os : syscalls) (vm : gb_vm) (addr value : Z) :
  rtc_access (vm_mem vm) = true ->
  Z.land value 0xff = current_ram_bank (vm_mem vm) ->
  gb_memory_change_ram_bank (vm_mem vm) (Z.land value 0xff) = Some (vm_mem vm) /\
  (mbc3_case (cartridge_type (mbc (vm_mem vm))) = true ->
   0x4000 <= Z.land addr 0xffff < 0x6000 ->
   Z.land value 0xff <= 4 ->
   gb_memory_write os vm addr value = Some vm /\
   rtc_access (vm_mem vm) = true).
Proof.
  intros Hrtc Hbank.
  assert (Hnoop : gb_memory_change_ram_bank (vm_mem vm) (Z.land value 0xff)
                  = Some (vm_mem vm)).
  { unfold gb_memory_change_ram_bank. rewrite Hbank, Z.eqb_refl. reflexivity. }
  split; [exact Hnoop |].
  intros Hcase Haddr Hsmall. split; [| exact Hrtc].
  unfold gb_memory_write.
  replace (Z.land addr 0xffff <? 0x8000) with true by (symmetry; apply Z.ltb_lt; lia).
  replace (Z.land addr 0xffff >=? 0x6000) with false
    by (symmetry; rewrite Z.geb_leb; apply Z.leb_gt; lia).
  replace (Z.land addr 0xffff >=? 0x4000) with true by (symmetry; apply Z.geb_le; lia).
  replace (Z.land value 0xff <=? 4) with true by (symmetry; apply Z.leb_le; lia).
  rewrite Hnoop. simpl mbind.
  destruct (cartridge_type (mbc (vm_mem vm))); try discriminate Hcase;
    cbv beta iota; rewrite with_mem_vm_mem; reflexivity.
Qed.

(** A selection of another bank, step by step: what the store and the
    window hold afterwards. *)
Lemma change_ram_bank_switch (m : gb_memory) (bank : Z) :
  current_ram_bank m <> bank ->
  0 <= current_ram_bank m < MAX_RAM_BANKS ->
  0 <= bank < MAX_RAM_BANKS ->
  store_allocated (ram_banks m) ->
  window_mapped (mem m) ->
  exists m',
    gb_memory_change_ram_bank m bank = Some m' /\
    current_ram_bank m' = bank /\
    rtc_access m' = false /\
    store_allocated (ram_banks m') /\
    window_mapped (mem m') /\
    (forall x, 0xa000 <= x < 0xc000 ->
               mem m' x = ram_banks m' (bank * 0x2000 + (x - 0xa000))) /\
    (forall o, ~ current_ram_bank m * 0x2000 <= o < current_ram_bank m * 0x2000 + 0x2000 ->
               ram_banks m' o = ram_banks m o) /\
    (rtc_access m = false ->
     forall x, 0xa000 <= x < 0xc000 ->
               ram_banks m' (current_ram_bank m * 0x2000 + (x - 0xa000)) = mem m x) /\
    (rtc_access m = true -> ram_banks m' = ram_banks m).
Proof.
  intros Hne Hcur Hbank Halloc Hwin.
  set (cur := current_ram_bank m) in *.
  set (banks := if rtc_access m then ram_banks m
                else fun o => if in_range (cur * 0x2000) 0x2000 o
                              then mem m (0xa000 + (o - cur * 0x2000))
                              else ram_banks m o).
  assert (Hsave : (if rtc_access m then Some (ram_banks m)
                   else memcpy (ram_banks m) (cur * 0x2000) (mem m) 0xa000 0x2000)
                  = Some banks).
  { unfold banks. destruct (rtc_access m); [reflexivity |].
    apply memcpy_Some.
    - intros o Ho. apply Halloc. lia.
    - intros x Hx. apply Hwin. lia. }
  assert (Hbanks : store_allocated banks).
  { intros o Ho. unfold banks. destruct (rtc_access m); [apply Halloc; exact Ho |].
    destruct (in_range (cur * 0x2000) 0x2000 o) eqn:Hin.
    - apply in_range_true in Hin. apply Hwin. lia.
    - apply Halloc. exact Ho. }
  set (view := fun x => if in_range 0xa000 0x2000 x
                        then banks (bank * 0x2000 + (x - 0xa000)) else mem m x).
  assert (Hload : memcpy (mem m) 0xa000 banks (bank * 0x2000) 0x2000 = Some view).
  { apply memcpy_Some.
    - intros x Hx. apply Hwin. lia.
    - intros o Ho. apply Hbanks. lia. }
  exists (set_current_ram_bank bank
            (set_rtc_access false (set_mem view (set_ram_banks banks m)))).
  split.
  { unfold gb_memory_change_ram_bank. fold cur.
    replace (cur =? bank) with false by (symmetry; apply Z.eqb_neq; exact Hne).
    apply bind_Some. exists banks. split; [exact Hsave |].
    apply bind_Some. exists view. split; [exact Hload | reflexivity]. }
  split; [reflexivity |]. split; [reflexivity |]. split; [exact Hbanks |].
  split.
  { intros x Hx. simpl. unfold view.
    replace (in_range 0xa000 0x2000 x) with true
      by (symmetry; apply in_range_true; lia).
    apply Hbanks. lia. }
  split.
  { intros x Hx. simpl. unfold view.
    replace (in_range 0xa000 0x2000 x) with true
      by (symmetry; apply in_range_true; lia).
    reflexivity. }
  split.
  { intros o Ho. simpl. unfold banks. destruct (rtc_access m); [reflexivity |].
    replace (in_range (cur * 0x2000) 0x2000 o) with false
      by (symmetry; apply in_range_false; lia).
    reflexivity. }
  split.
  - intros Hrtc x Hx. simpl. unfold banks. rewrite Hrtc.
    replace (in_range (cur * 0x2000) 0x2000 (cur * 0x2000 + (x - 0xa000)))
      with true by (symmetry; apply in_range_true; lia).
    f_equal. lia.
  - intros Hrtc. simpl. unfold banks. rewrite Hrtc. reflexivity.
Qed.

(** Away to [b] and back to [a]: the window holds what the store kept
    for [a], which is the window from before when the RTC register was
    not exposed, and the store's older contents when it was. *)
Lemma change_ram_bank_away_and_back (m : gb_memory) (b : Z) :
  let a := current_ram_bank m in
  a <> b ->
  0 <= a < MAX_RAM_BANKS ->
  0 <= b < MAX_RAM_BANKS ->
  store_allocated (ram_banks m) ->
  window_mapped (mem m) ->
  exists m3 m4,
    gb_memory_change_ram_bank m b = Some m3 /\
    gb_memory_change_ram_bank m3 a = Some m4 /\
    forall x, 0xa000 <= x < 0xc000 ->
              mem m4 x = if rtc_access m
                         then ram_banks m (a * 0x2000 + (x - 0xa000))
                         else mem m x.
Proof.
  intros a Hne Ha Hb Halloc Hwin.
  destruct (change_ram_bank_switch m b Hne Ha Hb Halloc Hwin)
    as (m3 & Hgo & Hcur3 & Hrtc3 & Halloc3 & Hwin3 & _ & Hother3 & Hsaved3 & Hskip3).
  destruct (change_ram_bank_switch m3 a) as
    (m4 & Hback & _ & _ & _ & _ & Hview4 & Hother4 & _ & _);
    [congruence | lia | exact Ha | exact Halloc3 | exact Hwin3 |].
  exists m3, m4. split; [exact Hgo |]. split; [exact Hback |].
  intros x Hx. rewrite Hview4 by exact Hx.
  rewrite Hother4 by (rewrite Hcur3; lia).
  destruct (rtc_access m) eqn:Hrtc.
  - rewrite Hskip3 by reflexivity. reflexivity.
  - apply Hsaved3; [reflexivity | exact Hx].
Qed.

(** A first selection of [a], from any current bank. *)
Lemma change_ram_bank_select (m : gb_memory) (a : Z) :
  rtc_access m = false ->
  0 <= current_ram_bank m < MAX_RAM_BANKS ->
  0 <= a < MAX_RAM_BANKS ->
  store_allocated (ram_banks m) ->
  window_mapped (mem m) ->
  exists m1,
    gb_memory_change_ram_bank m a = Some m1 /\
    current_ram_bank m1 = a /\ rtc_access m1 = false /\
    store_allocated (ram_banks m1) /\ window_mapped (mem m1).
Proof.
  intros Hrtc Hcur Ha Halloc Hwin.
  destruct (Z.eq_dec (current_ram_bank m) a) as [Heq | Hne].
  - exists m. unfold gb_memory_change_ram_bank.
    rewrite Heq, Z.eqb_refl. auto.
  - destruct (change_ram_bank_switch m a Hne Hcur Ha Halloc Hwin)
      as (m1 & Hgo & Hcur1 & Hrtc1 & Halloc1 & Hwin1 & _).
    exists m1. auto.
Qed.

(** ** Guest writes into the external-RAM window are plain stores *)

Lemma window_write_is_plain_store (os : syscalls) (vm : gb_vm) (addr value : Z) :
  0xa000 <= Z.land addr 0xffff < 0xc000 ->
  gb_memory_write os vm addr value =
  (view ← region_store (mem (vm_mem vm)) (Z.land addr 0xffff) (Z.land value 0xff);
   Some (with_mem vm (set_mem view (vm_mem vm)))).
Proof.
  intros Ha. unfold gb_memory_write.
  replace (Z.land addr 0xffff <? 0x8000) with false by (symmetry; apply Z.ltb_ge; lia).
  replace (Z.land addr 0xffff =? 0xff05) with false by (symmetry; apply Z.eqb_neq; lia).
  replace (Z.land addr 0xffff =? 0xff00) with false by (symmetry; apply Z.eqb_neq; lia).
  replace (Z.land addr 0xffff =? 0xff01) with false by (symmetry; apply Z.eqb_neq; lia).
  replace (Z.land addr 0xffff =? 0xff46) with false by (symmetry; apply Z.eqb_neq; lia).
  replace (Z.land addr 0xffff >=? 0xff80) with false
    by (symmetry; rewrite Z.geb_leb; apply Z.leb_gt; lia).
  reflexivity.
Qed.

Lemma written_in_window (ws : list (Z * Z)) (x v : Z) :
  Forall (fun w => 0xa000 <= Z.land (fst w) 0xffff < 0xc000) ws ->
  written ws x = Some v -> 0xa000 <= x < 0xc000.
Proof.
  induction 1 as [| [a u] ws Ha Hws IH]; simpl; [discriminate |].
  destruct (written ws x) as [u' |]; [exact IH |].
  destruct (Z.eqb_spec (Z.land a 0xffff) x) as [<- | _]; [| discriminate].
  intros _. exact Ha.
Qed.

Lemma guest_writes_in_window (os : syscalls) (ws : list (Z * Z)) :
  Forall (fun w => 0xa000 <= Z.land (fst w) 0xffff < 0xc000) ws ->
  forall vm,
    window_mapped (mem (vm_mem vm)) ->
    exists view,
      guest_writes os vm ws = Some (with_mem vm (set_mem view (vm_mem vm))) /\
      window_mapped view /\
      (forall x, view x = match written ws x with
                          | Some v => Some v
                          | None => mem (vm_mem vm) x
                          end).
Proof.
  induction 1 as [| [a u] ws Ha Hws IH]; intros vm Hwin.
  - exists (mem (vm_mem vm)). simpl. split; [| auto].
    destruct vm as [[m k] bs]. destruct m. reflexivity.
  - simpl. rewrite window_write_is_plain_store by exact Ha.
    rewrite (region_store_Some _ _ _ (Hwin _ Ha)). simpl mbind.
    set (view1 := fun x => if x =? Z.land a 0xffff then Some (Z.land u 0xff)
                           else mem (vm_mem vm) x).
    destruct (IH (with_mem vm (set_mem view1 (vm_mem vm)))) as (view & Hrun & Hwin' & Hview).
    { intros x Hx. simpl. unfold view1.
      destruct (x =? Z.land a 0xffff); [eauto | apply Hwin; exact Hx]. }
    exists view. split; [rewrite Hrun; reflexivity |]. split; [exact Hwin' |].
    intros x. rewrite Hview. destruct (written ws x); [reflexivity |].
    simpl. unfold view1. rewrite (Z.eqb_sym x).
    destruct (Z.land a 0xffff =? x); reflexivity.
Qed.

(** C2. With [rtc_access] false, for distinct banks [a] and [b] of
    the store: select [a], let the guest write [ws] into the window
    [0xa000, 0xc000), select [b], select [a] again; every call returns
    and the window is what it was after the writes, each written
    address holding the last byte written to it.  When instead the RTC
    register is exposed (by [gb_memory_access_rtc]) before the writes,
    the same selections leave in the window what the store held for
    [a] before: a written byte that differs from it is lost. *)
Theorem ram_bank_round_trip
    (os : syscalls) (vm : gb_vm) (a b : Z) (ws : list (Z * Z)) :
  rtc_access (vm_mem vm) = false ->
  0 <= current_ram_bank (vm_mem vm) < MAX_RAM_BANKS ->
  0 <= a < MAX_RAM_BANKS ->
  0 <= b < MAX_RAM_BANKS ->
  a <> b ->
  store_allocated (ram_banks (vm_mem vm)) ->
  window_mapped (mem (vm_mem vm)) ->
  Forall (fun w => 0xa000 <= Z.land (fst w) 0xffff < 0xc000) ws ->
  exists m1,
    gb_memory_change_ram_bank (vm_mem vm) a = Some m1 /\
    (exists vm2 m3 m4,
       guest_writes os (with_mem vm m1) ws = Some vm2 /\
       gb_memory_change_ram_bank (vm_mem vm2) b = Some m3 /\
       gb_memory_change_ram_bank m3 a = Some m4 /\
       (forall x, 0xa000 <= x < 0xc000 -> mem m4 x = mem (vm_mem vm2) x) /\
       (forall x v, written ws x = Some v -> mem m4 x = Some v)) /\
    (forall elt, exists m1r vm2 m3 m4,
       gb_memory_access_rtc m1 elt = Some m1r /\
       guest_writes os (with_mem vm m1r) ws = Some vm2 /\
       gb_memory_change_ram_bank (vm_mem vm2) b = Some m3 /\
       gb_memory_change_ram_bank m3 a = Some m4 /\
       (forall x, 0xa000 <= x < 0xc000 ->
                  mem m4 x = ram_banks m1 (a * 0x2000 + (x - 0xa000))) /\
       (forall x v, written ws x = Some v ->
                    ram_banks m1 (a * 0x2000 + (x - 0xa000)) <> Some v ->
                    mem m4 x <> Some v)).
Proof.
  intros Hrtc Hcur Ha Hb Hab Halloc Hwin Hws.
  destruct (change_ram_bank_select (vm_mem vm) a Hrtc Hcur Ha Halloc Hwin)
    as (m1 & Hsel & Hcur1 & Hrtc1 & Halloc1 & Hwin1).
  exists m1. split; [exact Hsel |]. split.
  - destruct (guest_writes_in_window os ws Hws (with_mem vm m1) Hwin1)
      as (view & Hrun & Hwinv & Hview).
    set (m2 := set_mem view m1).
    destruct (change_ram_bank_away_and_back m2 b) as (m3 & m4 & Hgo & Hback & Hm4);
      [simpl; lia | simpl; lia | exact Hb | exact Halloc1 | exact Hwinv |].
    simpl in Hback, Hm4. rewrite Hrtc1, Hcur1 in *.
    exists (with_mem vm m2), m3, m4.
    split; [exact Hrun |]. split; [exact Hgo |]. split; [exact Hback |].
    split; [exact Hm4 |].
    intros x v Hx. rewrite Hm4 by (eapply written_in_window; eassumption).
    rewrite Hview. simpl. rewrite Hx. reflexivity.
  - intros elt.
    set (exposed := fun x => if x =? 0xa000 then Some 0 else mem m1 x).
    set (m1r := set_rtc_access true (set_mem exposed m1)).
    assert (Hexp : gb_memory_access_rtc m1 elt = Some m1r).
    { unfold gb_memory_access_rtc.
      rewrite (region_store_Some _ _ _ (Hwin1 0xa000 ltac:(lia))). reflexivity. }
    assert (Hwinr : window_mapped (mem (vm_mem (with_mem vm m1r)))).
    { intros x Hx. simpl. unfold exposed.
      destruct (x =? 0xa000); [eauto | apply Hwin1; exact Hx]. }
    destruct (guest_writes_in_window os ws Hws (with_mem vm m1r) Hwinr)
      as (view & Hrun & Hwinv & Hview).
    set (m2 := set_mem view m1r).
    destruct (change_ram_bank_away_and_back m2 b) as (m3 & m4 & Hgo & Hback & Hm4);
      [simpl; lia | simpl; lia | exact Hb | exact Halloc1 | exact Hwinv |].
    simpl in Hback, Hm4. rewrite Hcur1 in *.
    exists m1r, (with_mem vm m2), m3, m4.
    split; [exact Hexp |]. split; [exact Hrun |]. split; [exact Hgo |].
    split; [exact Hback |]. split; [exact Hm4 |].
    intros x v Hx Hlost.
    rewrite Hm4 by (eapply written_in_window; eassumption). exact Hlost.
Qed.

(** ** ROM banks *)

Lemma lor_one_low_bits_clear (bank : Z) :
  Z.land bank 0x1f = 0 -> Z.lor bank 1 = bank + 1.
Proof.
  intros Hlow.
  assert (Hbit : Z.land bank 1 = 0).
  { change 1 with (Z.land 0x1f 1) at 1. rewrite Z.land_assoc, Hlow. reflexivity. }
  pose proof (Z.add_lor_land bank 1) as Hsum. lia.
Qed.

Lemma mbc1_rom_bank_nonzero (m : gb_memory) (value : Z) :
  mbc1_rom_bank m value <> 0.
Proof.
  unfold mbc1_rom_bank.
  set (bank := Z.lor _ _).
  destruct (Z.eqb_spec (Z.land bank 0x1f) 0) as [Hlow | Hlow].
  - intros Hz. apply Z.lor_eq_0_iff in Hz. lia.
  - intros Hz. apply Hlow. rewrite Hz. reflexivity.
Qed.

Lemma mbc3_rom_bank_nonzero (value : Z) : mbc3_rom_bank value <> 0.
Proof.
  unfold mbc3_rom_bank.
  destruct (Z.eqb_spec (Z.land value 0x7f) 0); [discriminate | assumption].
Qed.

Lemma mbc1_rom_bank_write (os : syscalls) (vm : gb_vm) (addr value : Z) :
  mbc1_case (cartridge_type (mbc (vm_mem vm))) = true ->
  0x2000 <= Z.land addr 0xffff < 0x4000 ->
  gb_memory_write os vm addr value
  = Some (with_mem vm (gb_memory_change_rom_bank os (vm_mem vm)
                         (mbc1_rom_bank (vm_mem vm) (Z.land value 0xff)))).
Proof.
  intros Hcase Haddr. unfold gb_memory_write.
  replace (Z.land addr 0xffff <? 0x8000) with true by (symmetry; apply Z.ltb_lt; lia).
  replace (Z.land addr 0xffff >=? 0x6000) with false
    by (symmetry; rewrite Z.geb_leb; apply Z.leb_gt; lia).
  replace (Z.land addr 0xffff >=? 0x4000) with false
    by (symmetry; rewrite Z.geb_leb; apply Z.leb_gt; lia).
  replace (Z.land addr 0xffff >=? 0x2000) with true by (symmetry; apply Z.geb_le; lia).
  destruct (cartridge_type (mbc (vm_mem vm))); try discriminate Hcase; reflexivity.
Qed.

Lemma mbc1_latch_write (os : syscalls) (vm : gb_vm) (addr value : Z) :
  mbc1_case (cartridge_type (mbc (vm_mem vm))) = true ->
  0x4000 <= Z.land addr 0xffff < 0x6000 ->
  mbc_mode (vm_mem vm) = 0 ->
  gb_memory_write os vm addr value
  = Some (with_mem vm (set_mbc_data (Z.shiftl (Z.land value 0xff) 5) (vm_mem vm))).
Proof.
  intros Hcase Haddr Hmode. unfold gb_memory_write.
  replace (Z.land addr 0xffff <? 0x8000) with true by (symmetry; apply Z.ltb_lt; lia).
  replace (Z.land addr 0xffff >=? 0x6000) with false
    by (symmetry; rewrite Z.geb_leb; apply Z.leb_gt; lia).
  replace (Z.land addr 0xffff >=? 0x4000) with true by (symmetry; apply Z.geb_le; lia).
  rewrite Hmode. change (negb (0 =? 0)) with false. cbv iota.
  destruct (cartridge_type (mbc (vm_mem vm))); try discriminate Hcase; reflexivity.
Qed.

(** C3, as the code has it. In the MBC1 case group, a write of
    [value] to [0x2000, 0x4000) composes
    [(value & 0x1f) | (mode ? 0 : upper_bits & 0x60)]; when the low five
    bits of that are zero it sets bit 0 (so the bank is the composed
    one plus 1: bank 1 only when the upper bits are zero too), and it
    calls [gb_memory_change_rom_bank] with the result, which is the
    current bank afterwards when the remapping succeeds.  The bank is
    never 0.  With mode 0 and no upper bits latched, value [0x00] gives
    bank 1; with mode 0, writing [0x01] to [0x4000] and then [0x05] to
    [0x2100] gives bank [0x25]. *)
Theorem mbc1_rom_bank_register (os : syscalls) (vm : gb_vm) (addr value : Z) :
  mbc1_case (cartridge_type (mbc (vm_mem vm))) = true ->
  0x2000 <= Z.land addr 0xffff < 0x4000 ->
  let m := vm_mem vm in
  let v := Z.land value 0xff in
  let composed :=
    Z.lor (Z.land v 0x1f) (if negb (mbc_mode m =? 0) then 0 else Z.land (mbc_data m) 0x60) in
  let bank := if Z.land composed 0x1f =? 0 then composed + 1 else composed in
  mbc1_rom_bank m v = bank /\
  bank <> 0 /\
  gb_memory_write os vm addr value
    = Some (with_mem vm (gb_memory_change_rom_bank os m bank)) /\
  (sys_munmap os = 0 -> is_Some (sys_mmap_file os (0x4000 * bank) 0x4000) ->
   current_rom_bank (gb_memory_change_rom_bank os m bank) = bank) /\
  (mbc_mode m = 0 -> mbc_data m = 0 -> v = 0x00 -> bank = 1) /\
  (mbc_mode m = 0 ->
   exists vm1,
     gb_memory_write os vm 0x4000 0x01 = Some vm1 /\
     mbc1_rom_bank (vm_mem vm1) 0x05 = 0x25 /\
     gb_memory_write os vm1 0x2100 0x05
       = Some (with_mem vm1 (gb_memory_change_rom_bank os (vm_mem vm1) 0x25))).
Proof.
  intros Hcase Haddr m v composed bank. fold m in Hcase.
  assert (Hbank : mbc1_rom_bank m v = bank).
  { unfold mbc1_rom_bank, bank. fold composed.
    destruct (Z.eqb_spec (Z.land composed 0x1f) 0) as [Hlow | _]; [| reflexivity].
    apply lor_one_low_bits_clear. exact Hlow. }
  split; [exact Hbank |].
  split; [rewrite <- Hbank; apply mbc1_rom_bank_nonzero |].
  split.
  { rewrite <- Hbank. apply mbc1_rom_bank_write; assumption. }
  split; [apply change_rom_bank_selects |].
  split.
  { intros Hmode Hdata Hv. unfold bank, composed. rewrite Hmode, Hdata, Hv. reflexivity. }
  intros Hmode.
  exists (with_mem vm (set_mbc_data 0x20 m)).
  split.
  { apply (mbc1_latch_write os vm 0x4000 0x01); [exact Hcase | | exact Hmode].
    change (Z.land 0x4000 0xffff) with 0x4000. lia. }
  assert (Hcomposed : mbc1_rom_bank (vm_mem (with_mem vm (set_mbc_data 0x20 m))) 0x05 = 0x25).
  { unfold mbc1_rom_bank.
    change (mbc_mode (vm_mem (with_mem vm (set_mbc_data 0x20 m)))) with (mbc_mode m).
    rewrite Hmode. reflexivity. }
  split; [exact Hcomposed |].
  rewrite <- Hcomposed.
  apply (mbc1_rom_bank_write os (with_mem vm (set_mbc_data 0x20 m)) 0x2100 0x05);
    [exact Hcase |].
  change (Z.land 0x2100 0xffff) with 0x2100. lia.
Qed.

Lemma mbc5_rom_bank_write (os : syscalls) (vm : gb_vm) (addr value : Z) :
  mbc5_case (cartridge_type (mbc (vm_mem vm))) = true ->
  0x2000 <= Z.land addr 0xffff < 0x4000 ->
  gb_memory_write os vm addr value
  = Some (with_mem vm (gb_memory_change_rom_bank os (vm_mem vm) (Z.land value 0xff))).
Proof.
  intros Hcase Haddr. unfold gb_memory_write.
  replace (Z.land addr 0xffff <? 0x8000) with true by (symmetry; apply Z.ltb_lt; lia).
  replace (Z.land addr 0xffff >=? 0x4000) with false
    by (symmetry; rewrite Z.geb_leb; apply Z.leb_gt; lia).
  replace (Z.land addr 0xffff >=? 0x2000) with true by (symmetry; apply Z.geb_le; lia).
  destruct (cartridge_type (mbc (vm_mem vm))); try discriminate Hcase; reflexivity.
Qed.

(** C5. In the MBC5 case group, a write of [value] to
    [0x2000, 0x4000) calls [gb_memory_change_rom_bank] with the whole
    byte, neither masked nor forced; when the remapping succeeds that
    byte is the current ROM bank afterwards, so writing [0x00] makes
    bank 0 current. *)
Theorem mbc5_rom_bank_register (os : syscalls) (vm : gb_vm) (addr value : Z) :
  mbc5_case (cartridge_type (mbc (vm_mem vm))) = true ->
  0x2000 <= Z.land addr 0xffff < 0x4000 ->
  sys_munmap os = 0 ->
  is_Some (sys_mmap_file os (0x4000 * Z.land value 0xff) 0x4000) ->
  exists vm',
    gb_memory_write os vm addr value = Some vm' /\
    vm' = with_mem vm (gb_memory_change_rom_bank os (vm_mem vm) (Z.land value 0xff)) /\
    current_rom_bank (vm_mem vm') = Z.land value 0xff /\
    (Z.land value 0xff = 0x00 -> current_rom_bank (vm_mem vm') = 0).
Proof.
  intros Hcase Haddr Hun Hmap.
  eexists. split; [| split; [reflexivity |]].
  - apply mbc5_rom_bank_write; assumption.
  - assert (Hsel : current_rom_bank
                     (gb_memory_change_rom_bank os (vm_mem vm) (Z.land value 0xff))
                   = Z.land value 0xff)
      by (apply change_rom_bank_selects; assumption).
    split; [exact Hsel |]. intros Hz. rewrite <- Hz. exact Hsel.
Qed.

(** ** The session invariant on the ROM bank *)

Lemma gb_memory_init_success (os : syscalls) (held held' : list resource)
    (m0 m : gb_memory) (fname : option string) :
  gb_memory_init os held m0 fname = Some (true, m, held') ->
  mem m 0x0147 = Some (mbc m) /\
  mbc_mode m = 0 /\ mbc_data m = 0 /\
  current_rom_bank m = 1 /\ current_ram_bank m = 0 /\ rtc_access m = false.
Proof.
  unfold gb_memory_init. intros Hinit.
  destruct fname as [name |].
  - destruct (fd (set_fd (sys_open os) m0) <? 0); [discriminate |].
    destruct (sys_mmap_file os 0 0x8000) as [img |]; [| discriminate].
    destruct (sys_mmap_anon os); [| discriminate].
    destruct (sys_malloc os) as [contents |];
      apply bind_Some in Hinit as (code & Hcode & Hinit);
      injection Hinit as <- _; simpl in *;
      repeat split; assumption || reflexivity.
  - destruct (sys_mmap_anon os); [| discriminate].
    destruct (sys_malloc os) as [contents |];
      apply bind_Some in Hinit as (code & Hcode & Hinit);
      injection Hinit as <- _; simpl in *;
      repeat split; assumption || reflexivity.
Qed.

(** No write changes the cartridge type, and outside the MBC5 case
    group no write makes bank 0 current. *)
Lemma write_keeps_rom_bank_nonzero (os : syscalls) (vm vm' : gb_vm) (addr value : Z) :
  gb_memory_write os vm addr value = Some vm' ->
  mbc (vm_mem vm') = mbc (vm_mem vm) /\
  (mbc5_case (cartridge_type (mbc (vm_mem vm))) = false ->
   current_rom_bank (vm_mem vm) <> 0 ->
   current_rom_bank (vm_mem vm') <> 0).
Proof.
  unfold gb_memory_write.
  set (a := Z.land addr 0xffff). set (v := Z.land value 0xff). set (m := vm_mem vm).
  assert (Hrom : forall bank, bank <> 0 ->
            mbc (gb_memory_change_rom_bank os m bank) = mbc m /\
            (current_rom_bank m <> 0 ->
             current_rom_bank (gb_memory_change_rom_bank os m bank) <> 0)).
  { intros bank Hbank.
    destruct (change_rom_bank_result os m bank) as [Hmbc [Hsame | Hnew]];
      (split; [exact Hmbc | congruence]). }
  assert (Hram : forall bank m', gb_memory_change_ram_bank m bank = Some m' ->
            mbc m' = mbc m /\ (current_rom_bank m <> 0 -> current_rom_bank m' <> 0)).
  { intros bank m' Hm'. destruct (change_ram_bank_rom_side m m' bank Hm') as [-> ->].
    auto. }
  assert (Hrtc : forall elt m', gb_memory_access_rtc m elt = Some m' ->
            mbc m' = mbc m /\ (current_rom_bank m <> 0 -> current_rom_bank m' <> 0)).
  { intros elt m' Hm'. destruct (access_rtc_rom_side m m' elt Hm') as [-> ->]. auto. }
  intros Hw.
  destruct (a <? 0x8000).
  - destruct (cartridge_type (mbc m)) eqn:Htype;
      repeat match type of Hw with
             | context [if ?c then _ else _] => destruct c
             end;
      try (apply bind_Some in Hw as (m' & Hm' & Hw));
      injection Hw as <-;
      change (mbc (vm_mem vm)) with (mbc m);
      change (current_rom_bank (vm_mem vm)) with (current_rom_bank m);
      try (split; [reflexivity | intros _ Hnz; exact Hnz]);
      try (split; [| intros _]; eapply Hram; eassumption);
      try (split; [| intros _]; eapply Hrtc; eassumption);
      try (split; [| intros _]; apply Hrom; apply mbc1_rom_bank_nonzero);
      try (split; [| intros _]; apply Hrom; apply mbc3_rom_bank_nonzero);
      try (split; [apply change_rom_bank_result | intros Hcase; discriminate Hcase]).
  - repeat match type of Hw with
           | context [if ?c then _ else _] => destruct c
           end;
      repeat (apply bind_Some in Hw as (? & ? & Hw));
      injection Hw as <-;
      (split; [reflexivity | intros _ Hnz; exact Hnz]).
Qed.

(** C4, as the code has it. In every state a session reaches, for
    every cartridge type outside the MBC5 case group, the current ROM
    bank is not 0.  In the MBC5 case group it can be: from any reached
    state, writing [0x00] to [0x2100] with a remapping that succeeds
    makes bank 0 current. *)
Theorem rom_bank_nonzero_outside_mbc5 (vm : gb_vm) :
  reachable vm ->
  (mbc5_case (cartridge_type (mbc (vm_mem vm))) = false ->
   current_rom_bank (vm_mem vm) <> 0) /\
  (mbc5_case (cartridge_type (mbc (vm_mem vm))) = true ->
   forall os, sys_munmap os = 0 -> is_Some (sys_mmap_file os 0 0x4000) ->
     exists vm', gb_memory_write os vm 0x2100 0x00 = Some vm' /\
                 reachable vm' /\ current_rom_bank (vm_mem vm') = 0).
Proof.
  intros Hreach. split.
  - induction Hreach as [os m0 fname m held keys blocks Hinit
                        | os vm addr value vm' Hreach IH Hw
                        | vm keys blocks Hreach IH].
    + intros _. change (current_rom_bank m <> 0).
      destruct (gb_memory_init_success _ _ _ _ _ _ Hinit) as (_ & _ & _ & Hrom & _).
      rewrite Hrom. discriminate.
    + destruct (write_keeps_rom_bank_nonzero os vm vm' addr value Hw) as [Hmbc Hkeep].
      rewrite Hmbc. intros Hcase. apply Hkeep; [exact Hcase | apply IH; exact Hcase].
    + exact IH.
  - intros Hcase os Hun Hmap.
    assert (Hw : gb_memory_write os vm 0x2100 0x00
                 = Some (with_mem vm (gb_memory_change_rom_bank os (vm_mem vm) 0))).
    { apply (mbc5_rom_bank_write os vm 0x2100 0x00); [exact Hcase |].
      change (Z.land 0x2100 0xffff) with 0x2100. lia. }
    eexists. split; [exact Hw |]. split.
    + eapply reachable_write; eassumption.
    + apply (change_rom_bank_selects os (vm_mem vm) 0); assumption.
Qed.

(** ** Initialisation *)

(** What a successful [gb_memory_init] maps: zeroes over
    [0x8000, 0x10000), and the bank store at its full size when
    [malloc] gave a buffer. *)
Lemma gb_memory_init_maps (os : syscalls) (held held' : list resource)
    (m0 m : gb_memory) (fname : option string) :
  gb_memory_init os held m0 fname = Some (true, m, held') ->
  (forall x, 0x8000 <= x < 0x10000 -> mem m x = Some 0) /\
  (is_Some (sys_malloc os) -> store_allocated (ram_banks m)).
Proof.
  unfold gb_memory_init. intros Hinit.
  assert (Hzero : forall r x, 0x8000 <= x < 0x10000 ->
                     region_map r 0x8000 0x8000 zero_page x = Some 0).
  { intros r x Hx. unfold region_map.
    rewrite (proj2 (in_range_true 0x8000 0x8000 x)) by lia. reflexivity. }
  assert (Hzero' : forall r x, 0x8000 <= x < 0x10000 ->
                     region_map r 0 0x10000 zero_page x = Some 0).
  { intros r x Hx. unfold region_map.
    rewrite (proj2 (in_range_true 0 0x10000 x)) by lia. reflexivity. }
  assert (Hheap : forall contents, store_allocated (heap_buffer contents)).
  { intros contents o Ho. unfold heap_buffer.
    rewrite (proj2 (in_range_true 0 (MAX_RAM_BANKS * 0x2000) o)) by lia. eauto. }
  destruct fname as [name |].
  - destruct (fd (set_fd (sys_open os) m0) <? 0); [discriminate |].
    destruct (sys_mmap_file os 0 0x8000) as [img |]; [| discriminate].
    destruct (sys_mmap_anon os); [| discriminate].
    destruct (sys_malloc os) as [contents |];
      apply bind_Some in Hinit as (code & Hcode & Hinit);
      injection Hinit as <- _; simpl; (split; [apply Hzero |]).
    + intros _. apply Hheap.
    + intros [? Hnone]. discriminate Hnone.
  - destruct (sys_mmap_anon os); [| discriminate].
    destruct (sys_malloc os) as [contents |];
      apply bind_Some in Hinit as (code & Hcode & Hinit);
      injection Hinit as <- _; simpl; (split; [apply Hzero' |]).
    + intros _. apply Hheap.
    + intros [? Hnone]. discriminate Hnone.
Qed.

(** The four ways [gb_memory_init] fails, and what the process still
    holds on each: nothing more than before when [open] or the only
    [mmap] of a session without a file fails; the descriptor when the
    first [mmap] of a file fails; the descriptor and the first mapping
    when the second [mmap] fails. *)
Lemma gb_memory_init_failures (os : syscalls) (held : list resource)
    (m0 : gb_memory) (fname : option string) :
  (forall b m held', gb_memory_init os held m0 fname = Some (b, m, held') ->
     b = false ->
     match fname with
     | None => held' = held
     | Some _ =>
         if sys_open os <? 0 then held' = held
         else match sys_mmap_file os 0 0x8000 with
              | None => held' = FileDescriptor (sys_open os) :: held
              | Some _ =>
                  held' = Mapping 0 0x8000 :: FileDescriptor (sys_open os) :: held
              end
     end) /\
  (match fname with
   | None => sys_mmap_anon os = false
   | Some _ =>
       sys_open os < 0 \/ sys_mmap_file os 0 0x8000 = None \/ sys_mmap_anon os = false
   end ->
   exists m held', gb_memory_init os held m0 fname = Some (false, m, held')).
Proof.
  unfold gb_memory_init. split.
  - intros b m held' Hinit ->.
    destruct fname as [name |].
    + change (fd (set_fd (sys_open os) m0)) with (sys_open os) in Hinit.
      destruct (sys_open os <? 0); [injection Hinit as _ <-; reflexivity |].
      destruct (sys_mmap_file os 0 0x8000) as [img |];
        [| injection Hinit as _ <-; reflexivity].
      destruct (sys_mmap_anon os); [| injection Hinit as _ <-; reflexivity].
      destruct (sys_malloc os);
        apply bind_Some in Hinit as (code & _ & Hinit); discriminate Hinit.
    + destruct (sys_mmap_anon os); [| injection Hinit as _ <-; reflexivity].
      destruct (sys_malloc os);
        apply bind_Some in Hinit as (code & _ & Hinit); discriminate Hinit.
  - intros Hfail. destruct fname as [name |].
    + change (fd (set_fd (sys_open os) m0)) with (sys_open os).
      destruct (Z.ltb_spec (sys_open os) 0) as [Hneg | Hpos]; [eauto |].
      destruct (sys_mmap_file os 0 0x8000) as [img |]; [| eauto].
      destruct (sys_mmap_anon os); [| eauto].
      destruct Hfail as [Hneg | [Hnone | Hanon]]; [lia | discriminate | discriminate].
    + rewrite Hfail. eauto.
Qed.

End Properties.

(** * Runs on the concrete console *)

Lemma session_view (code : Z) (blocks : list gb_block) :
  session code blocks =
  Build_gb_vm
    (Build_gb_state
       (Build_gb_memory
          (region_map (region_map unmapped 0 0x8000 (rom_image code 0))
                      0x8000 0x8000 zero_page)
          (heap_buffer (H := dmg) (fun _ => 0))
          (Some "rom.gb"%string) 3 code 0 0 1 0 false)
       (Build_gb_keys 0))
    blocks.
Proof. reflexivity. Qed.

Lemma session_mapped (code : Z) (blocks : list gb_block) (x : Z) :
  0 <= x < 0x10000 -> is_Some (mem (vm_mem (session code blocks)) x).
Proof.
  intros Hx. rewrite session_view. simpl. unfold region_map.
  destruct (in_range 0x8000 0x8000 x) eqn:Hhigh; [unfold zero_page; eauto |].
  apply in_range_false in Hhigh.
  rewrite (proj2 (in_range_true 0 0x8000 x)) by lia.
  unfold rom_image. eauto.
Qed.

Lemma session_reachable (code : Z) (blocks : list gb_block) :
  reachable (H := dmg) (session code blocks).
Proof.
  rewrite session_view.
  apply (reachable_init (H := dmg) (os_ok code) blank_memory (Some "rom.gb"%string) _
           [HeapBuffer; Mapping 0x8000 0x8000; Mapping 0 0x8000; FileDescriptor 3]).
  reflexivity.
Qed.

Lemma session_store_allocated (code : Z) (blocks : list gb_block) :
  store_allocated (H := dmg) (ram_banks (vm_mem (session code blocks))).
Proof.
  intros o Ho. rewrite session_view. simpl. unfold heap_buffer.
  rewrite (proj2 (in_range_true 0 _ o)) by exact Ho. eauto.
Qed.

(** C6. The code at its failing inputs: the file opens (descriptor 3)
    and the first [mmap] fails, and [gb_memory_init] returns false with
    descriptor 3 still open; the first [mmap] succeeds and the anonymous
    one fails, and it returns false still holding the descriptor and the
    first mapping. *)
Theorem gb_memory_init_failure_keeps_resources :
  (exists m, gb_memory_init (H := dmg) os_mmap_fails [] blank_memory (Some "rom.gb"%string)
             = Some (false, m, [FileDescriptor 3])) /\
  (exists m, gb_memory_init (H := dmg) os_anon_fails [] blank_memory (Some "rom.gb"%string)
             = Some (false, m, [Mapping 0 0x8000; FileDescriptor 3])).
Proof. split; eexists; reflexivity. Qed.

(** C3, the claim as worded fails: on an MBC1 cartridge, after [0x01] is
    written to [0x4000], "forces bank 1" gives bank 1 for a write of
    [0x00] to [0x2100], and the write makes bank [0x21] current. *)
Lemma mbc1_zero_low_bits_keep_upper_bits :
  observe (fun m => mbc1_rom_bank_forced m 0x00)
          (os_ok 0x01) (session 0x01 []) [(0x4000, 0x01)] = Some 1 /\
  observe current_rom_bank
          (os_ok 0x01) (session 0x01 []) [(0x4000, 0x01); (0x2100, 0x00)] = Some 0x21 /\
  observe current_rom_bank
          (os_ok 0x01) (session 0x01 []) [(0x4000, 0x01); (0x2100, 0x00)] <> Some 1.
Proof.
  split; [vm_compute; reflexivity |].
  split; [vm_compute; reflexivity | vm_compute; discriminate].
Qed.

(** C4, the claim as worded fails: a session on an MBC5 cartridge
    reaches a state whose current ROM bank is 0, by one write of [0x00]
    to [0x2100]. *)
Lemma rom_bank_zero_reached_on_mbc5 :
  exists vm,
    gb_memory_write (H := dmg) (os_ok 0x19) (session 0x19 []) 0x2100 0x00 = Some vm /\
    reachable (H := dmg) vm /\
    current_rom_bank (vm_mem vm) = 0.
Proof.
  assert (Hw : gb_memory_write (H := dmg) (os_ok 0x19) (session 0x19 []) 0x2100 0x00
               = Some (with_mem (session 0x19 [])
                         (gb_memory_change_rom_bank (os_ok 0x19)
                            (vm_mem (session 0x19 [])) (Z.land 0x00 0xff)))).
  { apply (mbc5_rom_bank_write (H := dmg)); [reflexivity |].
    change (Z.land 0x2100 0xffff) with 0x2100. lia. }
  eexists. split; [exact Hw |]. split.
  - eapply (reachable_write (H := dmg)); [apply session_reachable | exact Hw].
  - vm_compute. reflexivity.
Qed.

(** C7, the claim as worded fails: the byte at [0xff01] is 0 before a
    write of [0x42] there and still 0, not [0x42], after it. *)
Lemma serial_write_is_dropped :
  mem (vm_mem (session 0x00 [])) 0xff01 = Some 0 /\
  observe (fun m => mem m 0xff01) (os_ok 0x00) (session 0x00 []) [(0xff01, 0x42)]
  = Some (Some 0) /\
  observe (fun m => mem m 0xff01) (os_ok 0x00) (session 0x00 []) [(0xff01, 0x42)]
  <> Some (Some 0x42).
Proof.
  split; [vm_compute; reflexivity |].
  split; [vm_compute; reflexivity | vm_compute; discriminate].
Qed.

(** C8, the claim as worded fails: with keys [0xa5], the mask [0x21]
    selects the d-pad line alone (bit 5 set, bit 4 clear), which gives
    [~0x05 & 0xff = 0xfa]; the write stores [0xf0], the complement of
    both nibbles. *)
Lemma joypad_stray_bit_takes_both_nibbles :
  joypad_byte 0xa5 0x21 = 0xfa /\
  observe (fun m => mem m 0xff00) (os_ok 0x00) (with_keys (session 0x00 []) 0xa5)
          [(0xff00, 0x21)]
  = Some (Some 0xf0) /\
  observe (fun m => mem m 0xff00) (os_ok 0x00) (with_keys (session 0x00 []) 0xa5)
          [(0xff00, 0x21)]
  <> Some (Some (joypad_byte 0xa5 0x21)).
Proof.
  split; [vm_compute; reflexivity |].
  split; [vm_compute; reflexivity | vm_compute; discriminate].
Qed.

(** C9, the claim as worded fails: for [value = 0xff] the source block
    [0xff00 .. 0xffa0) holds 0 at [0xff46] before the write, and the OAM
    byte [0xfe46] holds [0xff] after it. *)
Lemma dma_from_page_ff_copies_the_trigger :
  mem (vm_mem (session 0x00 [])) (Z.shiftl 0xff 8 + 0x46) = Some 0 /\
  observe (fun m => mem m (0xfe00 + 0x46)) (os_ok 0x00) (session 0x00 []) [(0xff46, 0xff)]
  = Some (Some 0xff) /\
  observe (fun m => mem m (0xfe00 + 0x46)) (os_ok 0x00) (session 0x00 []) [(0xff46, 0xff)]
  <> Some (mem (vm_mem (session 0x00 [])) (Z.shiftl 0xff 8 + 0x46)).
Proof.
  split; [vm_compute; reflexivity |].
  split; [vm_compute; reflexivity | vm_compute; discriminate].
Qed.

(** ** The theorems at concrete inputs *)

Lemma highmem_write_invalidates_blocks_witness :
  0xff80 <= 0xff85 < 0x10000 /\
  (Z.to_nat (0xff85 - 0xff80) <= length (highmem_blocks (session 0x00 live_table)))%nat /\
  is_Some (mem (vm_mem (session 0x00 live_table)) 0xff85) /\
  exists blocks' view,
    gb_memory_write (H := dmg) (os_ok 0x00) (session 0x00 live_table) 0xff85 0x42
    = Some (with_mem (with_blocks (session 0x00 live_table) blocks')
              (set_mem view (vm_mem (session 0x00 live_table)))) /\
    blocks' !! 0%nat = Some (Build_gb_block 0 0xff90 None) /\
    blocks' !! 5%nat = Some live_block /\
    view 0xff85 = Some 0x42.
Proof.
  assert (H1 : 0xff80 <= 0xff85 < 0x10000) by lia.
  assert (H2 : (Z.to_nat (0xff85 - 0xff80)
                <= length (highmem_blocks (session 0x00 live_table)))%nat)
    by (vm_compute; lia).
  assert (H3 : is_Some (mem (vm_mem (session 0x00 live_table)) 0xff85))
    by (vm_compute; eexists; reflexivity).
  split; [exact H1 |]. split; [exact H2 |]. split; [exact H3 |].
  destruct (highmem_write_invalidates_blocks (H := dmg) (os_ok 0x00)
              (session 0x00 live_table) 0xff85 0x42 H1 H2 H3)
    as (blocks' & view & _ & _ & Hw & _ & Hfreed & Hkept & Hview & _).
  exists blocks', view. split; [exact Hw |]. split; [| split; [| exact Hview]].
  - destruct (Hfreed 0%nat live_block) as [Hb _];
      [reflexivity | simpl; lia | discriminate | simpl; lia | exact Hb].
  - apply Hkept; [reflexivity | left; simpl; lia].
Defined.

Lemma ram_bank_round_trip_witness :
  rtc_access (vm_mem (session 0x13 [])) = false /\
  0 <= current_ram_bank (vm_mem (session 0x13 [])) < MAX_RAM_BANKS (Collaborators := dmg) /\
  0 <= 1 < MAX_RAM_BANKS (Collaborators := dmg) /\
  0 <= 2 < MAX_RAM_BANKS (Collaborators := dmg) /\
  1 <> 2 /\
  store_allocated (H := dmg) (ram_banks (vm_mem (session 0x13 []))) /\
  window_mapped (mem (vm_mem (session 0x13 []))) /\
  Forall (fun w => 0xa000 <= Z.land (fst w) 0xffff < 0xc000) [(0xa000, 0x42)] /\
  exists m1 vm2 m3 m4,
    gb_memory_change_ram_bank (vm_mem (session 0x13 [])) 1 = Some m1 /\
    guest_writes (H := dmg) (os_ok 0x13) (with_mem (session 0x13 []) m1) [(0xa000, 0x42)]
    = Some vm2 /\
    gb_memory_change_ram_bank (vm_mem vm2) 2 = Some m3 /\
    gb_memory_change_ram_bank m3 1 = Some m4 /\
    mem m4 0xa000 = Some 0x42.
Proof.
  assert (H1 : rtc_access (vm_mem (session 0x13 [])) = false) by reflexivity.
  assert (H2 : 0 <= current_ram_bank (vm_mem (session 0x13 []))
               < MAX_RAM_BANKS (Collaborators := dmg)) by (simpl; lia).
  assert (H3 : 0 <= 1 < MAX_RAM_BANKS (Collaborators := dmg)) by (simpl; lia).
  assert (H4 : 0 <= 2 < MAX_RAM_BANKS (Collaborators := dmg)) by (simpl; lia).
  assert (H5 : 1 <> 2) by lia.
  assert (H6 : store_allocated (H := dmg) (ram_banks (vm_mem (session 0x13 []))))
    by apply session_store_allocated.
  assert (H7 : window_mapped (mem (vm_mem (session 0x13 []))))
    by (intros x Hx; apply session_mapped; lia).
  assert (H8 : Forall (fun w => 0xa000 <= Z.land (fst w) 0xffff < 0xc000) [(0xa000, 0x42)])
    by (constructor; [change (0xa000 <= 0xa000 < 0xc000); lia | constructor]).
  repeat (split; [assumption |]).
  destruct (ram_bank_round_trip (H := dmg) (os_ok 0x13) (session 0x13 []) 1 2
              [(0xa000, 0x42)] H1 H2 H3 H4 H5 H6 H7 H8)
    as (m1 & Hsel & (vm2 & m3 & m4 & Hrun & Hgo & Hback & _ & Hwritten) & _).
  exists m1, vm2, m3, m4.
  repeat (split; [assumption |]).
  apply Hwritten. reflexivity.
Defined.

Lemma mbc1_rom_bank_register_witness :
  mbc1_case (cartridge_type (Collaborators := dmg) (mbc (vm_mem (session 0x01 [])))) = true /\
  0x2000 <= Z.land 0x2100 0xffff < 0x4000 /\
  mbc1_rom_bank (vm_mem (session 0x01 [])) (Z.land 0x00 0xff) = 1 /\
  gb_memory_write (H := dmg) (os_ok 0x01) (session 0x01 []) 0x2100 0x00
  = Some (with_mem (session 0x01 [])
            (gb_memory_change_rom_bank (os_ok 0x01) (vm_mem (session 0x01 [])) 1)).
Proof.
  assert (H1 : mbc1_case (cartridge_type (Collaborators := dmg)
                            (mbc (vm_mem (session 0x01 [])))) = true) by reflexivity.
  assert (H2 : 0x2000 <= Z.land 0x2100 0xffff < 0x4000)
    by (change (0x2000 <= 0x2100 < 0x4000); lia).
  split; [exact H1 |]. split; [exact H2 |].
  destruct (mbc1_rom_bank_register (H := dmg) (os_ok 0x01) (session 0x01 []) 0x2100 0x00
              H1 H2) as (Hbank & _ & Hw & _).
  split; [exact Hbank | exact Hw].
Defined.

Lemma rom_bank_nonzero_outside_mbc5_witness :
  reachable (H := dmg) (session 0x01 []) /\
  current_rom_bank (vm_mem (session 0x01 [])) <> 0.
Proof.
  assert (H1 : reachable (H := dmg) (session 0x01 [])) by apply session_reachable.
  split; [exact H1 |].
  apply (proj1 (rom_bank_nonzero_outside_mbc5 (H := dmg) (session 0x01 []) H1)).
  reflexivity.
Defined.

Lemma mbc5_rom_bank_register_witness :
  mbc5_case (cartridge_type (Collaborators := dmg) (mbc (vm_mem (session 0x19 [])))) = true /\
  0x2000 <= Z.land 0x2100 0xffff < 0x4000 /\
  sys_munmap (os_ok 0x19) = 0 /\
  is_Some (sys_mmap_file (os_ok 0x19) (0x4000 * Z.land 0x00 0xff) 0x4000) /\
  exists vm',
    gb_memory_write (H := dmg) (os_ok 0x19) (session 0x19 []) 0x2100 0x00 = Some vm' /\
    current_rom_bank (vm_mem vm') = 0.
Proof.
  assert (H1 : mbc5_case (cartridge_type (Collaborators := dmg)
                            (mbc (vm_mem (session 0x19 [])))) = true) by reflexivity.
  assert (H2 : 0x2000 <= Z.land 0x2100 0xffff < 0x4000)
    by (change (0x2000 <= 0x2100 < 0x4000); lia).
  assert (H3 : sys_munmap (os_ok 0x19) = 0) by reflexivity.
  assert (H4 : is_Some (sys_mmap_file (os_ok 0x19) (0x4000 * Z.land 0x00 0xff) 0x4000))
    by (simpl; eexists; reflexivity).
  repeat (split; [assumption |]).
  destruct (mbc5_rom_bank_register (H := dmg) (os_ok 0x19) (session 0x19 []) 0x2100 0x00
              H1 H2 H3 H4) as (vm' & Hw & _ & _ & Hzero).
  exists vm'. split; [exact Hw | apply Hzero; reflexivity].
Defined.

Lemma serial_write_changes_nothing_witness :
  Z.land 0x1ff01 0xffff = 0xff01 /\
  gb_memory_write (H := dmg) (os_ok 0x00) (session 0x00 []) 0x1ff01 0x42
  = Some (session 0x00 []).
Proof.
  assert (H1 : Z.land 0x1ff01 0xffff = 0xff01) by reflexivity.
  split; [exact H1 |].
  exact (proj1 (serial_write_changes_nothing (H := dmg) (os_ok 0x00) (session 0x00 [])
                  0x1ff01 0x42 H1)).
Defined.

Lemma joypad_write_stores_key_lines_witness :
  0 <= keys_state (state_keys (vm_state (with_keys (session 0x00 []) 0x05))) < 256 /\
  is_Some (mem (vm_mem (with_keys (session 0x00 []) 0x05)) 0xff00) /\
  exists view,
    gb_memory_write (H := dmg) (os_ok 0x00) (with_keys (session 0x00 []) 0x05) 0xff00 0x20
    = Some (with_mem (with_keys (session 0x00 []) 0x05)
              (set_mem view (vm_mem (with_keys (session 0x00 []) 0x05)))) /\
    view 0xff00 = Some 0xfa.
Proof.
  assert (H1 : 0 <= keys_state (state_keys (vm_state (with_keys (session 0x00 []) 0x05)))
               < 256) by (simpl; lia).
  assert (H2 : is_Some (mem (vm_mem (with_keys (session 0x00 []) 0x05)) 0xff00))
    by (vm_compute; eexists; reflexivity).
  split; [exact H1 |]. split; [exact H2 |].
  destruct (joypad_write_stores_key_lines (H := dmg) (os_ok 0x00)
              (with_keys (session 0x00 []) 0x05) 0x20 H1 H2)
    as (view & Hw & Hview & _).
  exists view. split; [exact Hw | exact Hview].
Defined.

Lemma dma_write_copies_page_witness :
  (forall x, Z.shiftl (Z.land 0x30 0xff) 8 <= x < Z.shiftl (Z.land 0x30 0xff) 8 + 160 ->
             is_Some (mem (vm_mem (session 0x00 [])) x)) /\
  (forall x, 0xfe00 <= x < 0xfea0 -> is_Some (mem (vm_mem (session 0x00 [])) x)) /\
  is_Some (mem (vm_mem (session 0x00 [])) 0xff46) /\
  exists view,
    gb_memory_write (H := dmg) (os_ok 0x00) (session 0x00 []) 0xff46 0x30
    = Some (with_mem (session 0x00 []) (set_mem view (vm_mem (session 0x00 [])))) /\
    view 0xff46 = Some 0x30 /\
    forall i, 0 <= i < 160 ->
              view (0xfe00 + i) = mem (vm_mem (session 0x00 [])) (0x3000 + i).
Proof.
  assert (H1 : forall x, Z.shiftl (Z.land 0x30 0xff) 8 <= x
                         < Z.shiftl (Z.land 0x30 0xff) 8 + 160 ->
                         is_Some (mem (vm_mem (session 0x00 [])) x)).
  { change (Z.shiftl (Z.land 0x30 0xff) 8) with 0x3000.
    intros x Hx. apply session_mapped. lia. }
  assert (H2 : forall x, 0xfe00 <= x < 0xfea0 ->
                         is_Some (mem (vm_mem (session 0x00 [])) x))
    by (intros x Hx; apply session_mapped; lia).
  assert (H3 : is_Some (mem (vm_mem (session 0x00 [])) 0xff46))
    by (vm_compute; eexists; reflexivity).
  split; [exact H1 |]. split; [exact H2 |]. split; [exact H3 |].
  destruct (dma_write_copies_page (H := dmg) (os_ok 0x00) (session 0x00 []) 0x30 H1 H2 H3)
    as (view & Hw & Hreg & _ & Hcopy & _).
  exists view. split; [exact Hw |]. split; [exact Hreg |].
  apply Hcopy. discriminate.
Defined.

Lemma ram_bank_reselect_under_rtc_is_noop_witness :
  rtc_access (vm_mem rtc_session) = true /\
  Z.land 0x00 0xff = current_ram_bank (vm_mem rtc_session) /\
  gb_memory_change_ram_bank (vm_mem rtc_session) (Z.land 0x00 0xff)
  = Some (vm_mem rtc_session) /\
  gb_memory_write (H := dmg) (os_ok 0x11) rtc_session 0x4000 0x00 = Some rtc_session.
Proof.
  assert (H1 : rtc_access (vm_mem rtc_session) = true) by (vm_compute; reflexivity).
  assert (H2 : Z.land 0x00 0xff = current_ram_bank (vm_mem rtc_session))
    by (vm_compute; reflexivity).
  split; [exact H1 |]. split; [exact H2 |].
  destruct (ram_bank_reselect_under_rtc_is_noop (H := dmg) (os_ok 0x11) rtc_session
              0x4000 0x00 H1 H2) as (Hnoop & Hwrite).
  split; [exact Hnoop |].
  apply Hwrite;
    [vm_compute; reflexivity | change (0x4000 <= 0x4000 < 0x6000); lia | change (0 <= 4); lia].
Defined.

(** * The rest of [memory.c] *)

(** ** Inversions *)

Lemma region_store_inv (r r' : region) (a v : Z) :
  region_store r a v = Some r' ->
  is_Some (r a) /\ r' = (fun x => if x =? a then Some v else r x).
Proof.
  unfold region_store. destruct (r a) as [u |]; [| discriminate].
  intros Hr. injection Hr as <-. eauto.
Qed.

Lemma memcpy_inv (dst : region) (d : Z) (src : region) (s n : Z) (r : region) :
  memcpy dst d src s n = Some r ->
  r = (fun x => if in_range d n x then src (s + (x - d)) else dst x) /\
  (forall x, d <= x < d + n -> is_Some (dst x)) /\
  (forall x, s <= x < s + n -> is_Some (src x)).
Proof.
  unfold memcpy.
  destruct (range_mapped dst d n) eqn:Hd; [| discriminate].
  destruct (range_mapped src s n) eqn:Hs; [| discriminate].
  intros Hr. injection Hr as <-.
  split; [reflexivity |]. split; apply range_mapped_true; assumption.
Qed.

Lemma memcpy_unmapped_source (dst : region) (d : Z) (src : region) (s n x : Z) :
  s <= x < s + n -> src x = None -> memcpy dst d src s n = None.
Proof.
  intros Hx Hnone. destruct (memcpy dst d src s n) as [r |] eqn:Hcopy; [| reflexivity].
  apply memcpy_inv in Hcopy as (_ & _ & Hsrc).
  destruct (Hsrc x Hx) as [v Hv]. congruence.
Qed.

(** a [memcpy] that returns keeps every mapped byte of [dst] mapped *)
Lemma memcpy_keeps_mapped (dst : region) (d : Z) (src : region) (s n : Z) (r : region) :
  memcpy dst d src s n = Some r ->
  forall x, is_Some (dst x) -> is_Some (r x).
Proof.
  intros Hcopy x Hx. apply memcpy_inv in Hcopy as (-> & _ & Hsrc).
  destruct (in_range d n x) eqn:Hin; [| exact Hx].
  apply in_range_true in Hin. apply Hsrc. lia.
Qed.

Lemma change_ram_bank_inv (m m' : gb_memory) (bank : Z) :
  gb_memory_change_ram_bank m bank = Some m' ->
  current_ram_bank m <> bank ->
  exists banks view,
    (if rtc_access m then Some (ram_banks m)
     else memcpy (ram_banks m) (current_ram_bank m * 0x2000) (mem m) 0xa000 0x2000)
    = Some banks /\
    memcpy (mem m) 0xa000 banks (bank * 0x2000) 0x2000 = Some view /\
    m' = set_current_ram_bank bank
           (set_rtc_access false (set_mem view (set_ram_banks banks m))).
Proof.
  unfold gb_memory_change_ram_bank. intros Hm Hne.
  apply Z.eqb_neq in Hne. rewrite Hne in Hm.
  apply bind_Some in Hm as (banks & Hsave & Hm).
  apply bind_Some in Hm as (view & Hload & Hm).
  injection Hm as <-. eauto.
Qed.

(** ** [gb_memory_change_rom_bank] *)

(** X1. A selection of another bank whose [munmap] and [mmap] succeed
    makes the bank current and shows the bytes of the new mapping at
    [0x4000 .. 0x8000); the rest of the view and every other field stay. *)
Theorem rom_bank_switch_shows_image
    (os : syscalls) (m : gb_memory) (bank : Z) (img : region) :
  current_rom_bank m <> bank ->
  sys_munmap os = 0 ->
  sys_mmap_file os (0x4000 * bank) 0x4000 = Some img ->
  current_rom_bank (gb_memory_change_rom_bank os m bank) = bank /\
  (forall o, 0 <= o < 0x4000 ->
             mem (gb_memory_change_rom_bank os m bank) (0x4000 + o) = img o) /\
  (forall x, ~ 0x4000 <= x < 0x8000 ->
             mem (gb_memory_change_rom_bank os m bank) x = mem m x) /\
  gb_memory_change_rom_bank os m bank
  = set_current_rom_bank bank (set_mem (mem (gb_memory_change_rom_bank os m bank)) m).
Proof.
  intros Hne Hun Himg.
  assert (Hm : gb_memory_change_rom_bank os m bank =
               set_current_rom_bank bank
                 (set_mem (region_map (region_unmap (mem m) 0x4000 0x4000)
                             0x4000 0x4000 img) m)).
  { unfold gb_memory_change_rom_bank.
    apply Z.eqb_neq in Hne. rewrite Hne, Hun, Himg. reflexivity. }
  rewrite Hm. split; [reflexivity |]. split; [| split; [| reflexivity]].
  - intros o Ho. simpl. unfold region_map.
    rewrite (proj2 (in_range_true 0x4000 0x4000 (0x4000 + o))) by lia.
    f_equal. lia.
  - intros x Hx. simpl. unfold region_map, region_unmap.
    rewrite (proj2 (in_range_false 0x4000 0x4000 x)) by lia. reflexivity.
Qed.

Lemma rom_bank_switch_outside (os : syscalls) (m : gb_memory) (bank : Z) :
  (forall x, ~ 0x4000 <= x < 0x8000 ->
             mem (gb_memory_change_rom_bank os m bank) x = mem m x) /\
  gb_memory_change_rom_bank os m bank
  = set_current_rom_bank (current_rom_bank (gb_memory_change_rom_bank os m bank))
      (set_mem (mem (gb_memory_change_rom_bank os m bank)) m).
Proof.
  unfold gb_memory_change_rom_bank.
  destruct (current_rom_bank m =? bank); [destruct m; auto |].
  destruct (negb (sys_munmap os =? 0)); [destruct m; auto |].
  destruct (sys_mmap_file os (0x4000 * bank) 0x4000) as [img |];
    (split; [| reflexivity]); intros x Hx; simpl; unfold region_map, region_unmap;
    rewrite (proj2 (in_range_false 0x4000 0x4000 x)) by lia; reflexivity.
Qed.

(** X2. Whatever the system calls answer, a ROM bank selection touches
    nothing but the window [0x4000 .. 0x8000) and [current_rom_bank],
    which afterwards is the old bank or the requested one. *)
Theorem rom_bank_switch_frame (os : syscalls) (m : gb_memory) (bank : Z) :
  (forall x, ~ 0x4000 <= x < 0x8000 ->
             mem (gb_memory_change_rom_bank os m bank) x = mem m x) /\
  gb_memory_change_rom_bank os m bank
  = set_current_rom_bank (current_rom_bank (gb_memory_change_rom_bank os m bank))
      (set_mem (mem (gb_memory_change_rom_bank os m bank)) m) /\
  (current_rom_bank (gb_memory_change_rom_bank os m bank) = current_rom_bank m \/
   current_rom_bank (gb_memory_change_rom_bank os m bank) = bank).
Proof.
  assert (Hout : forall r img x, ~ 0x4000 <= x < 0x8000 ->
            region_map (region_unmap r 0x4000 0x4000) 0x4000 0x4000 img x = r x /\
            region_unmap r 0x4000 0x4000 x = r x).
  { intros r img x Hx. unfold region_map, region_unmap.
    rewrite (proj2 (in_range_false 0x4000 0x4000 x)) by lia. auto. }
  unfold gb_memory_change_rom_bank.
  destruct (current_rom_bank m =? bank); [destruct m; auto |].
  destruct (negb (sys_munmap os =? 0)); [destruct m; auto |].
  destruct (sys_mmap_file os (0x4000 * bank) 0x4000) as [img |].
  - split; [intros x Hx; simpl; apply Hout; exact Hx |]. split; [reflexivity | auto].
  - split; [intros x Hx; simpl; apply (Hout (mem m) unmapped); exact Hx |].
    split; [reflexivity | auto].
Qed.

(** X3. The two failures of a ROM bank selection.  When [munmap] fails
    the state is untouched.  When [munmap] succeeds and [mmap] fails,
    [current_rom_bank] still names the old bank while nothing is mapped
    at [0x4000 .. 0x8000) any more. *)
Theorem rom_bank_switch_failure (os : syscalls) (m : gb_memory) (bank : Z) :
  current_rom_bank m <> bank ->
  (sys_munmap os <> 0 -> gb_memory_change_rom_bank os m bank = m) /\
  (sys_munmap os = 0 -> sys_mmap_file os (0x4000 * bank) 0x4000 = None ->
   current_rom_bank (gb_memory_change_rom_bank os m bank) = current_rom_bank m /\
   forall x, 0x4000 <= x < 0x8000 -> mem (gb_memory_change_rom_bank os m bank) x = None).
Proof.
  intros Hne. apply Z.eqb_neq in Hne. unfold gb_memory_change_rom_bank. rewrite Hne.
  split.
  - intros Hfail. apply Z.eqb_neq in Hfail. rewrite Hfail. reflexivity.
  - intros Hun Hmap. rewrite Hun, Hmap. split; [reflexivity |].
    intros x Hx. simpl. unfold region_unmap.
    rewrite (proj2 (in_range_true 0x4000 0x4000 x)) by lia. reflexivity.
Qed.

Section Coverage.
Context `{Collaborators}.

(** X4. A DMA whose 160 source bytes are not all mapped (as after a
    failed remapping, from a page of the ROM window) faults. *)
Theorem dma_unmapped_source_faults (os : syscalls) (vm : gb_vm) (value x : Z) :
  Z.shiftl (Z.land value 0xff) 8 <= x < Z.shiftl (Z.land value 0xff) 8 + 0xa0 ->
  mem (vm_mem vm) x = None ->
  gb_memory_write os vm 0xff46 value = None.
Proof.
  intros Hx Hnone. unfold gb_memory_write.
  change (Z.land 0xff46 0xffff) with 0xff46.
  change (0xff46 <? 0x8000) with false. change (0xff46 =? 0xff05) with false.
  change (0xff46 =? 0xff00) with false. change (0xff46 =? 0xff01) with false.
  change (0xff46 =? 0xff46) with true. cbv iota.
  destruct (region_store (mem (vm_mem vm)) 0xff46 (Z.land value 0xff)) as [view |] eqn:Hst;
    [| reflexivity].
  apply region_store_inv in Hst as ([u Hu] & ->). simpl mbind. cbv beta.
  rewrite (memcpy_unmapped_source _ _ _ _ _ x Hx); [reflexivity |].
  destruct (Z.eqb_spec x 0xff46) as [-> | _]; [congruence | exact Hnone].
Qed.

(** ** [gb_memory_change_ram_bank] *)

(** X5. A selection of another bank inside the store copies, it does not
    move: the window shows what the store held for the new bank and the
    store still holds it; the store of every bank but the outgoing one,
    the view outside the window and the ROM side of the controller are
    as before. *)
Theorem ram_bank_switch_isolation (m : gb_memory) (bank : Z) :
  current_ram_bank m <> bank ->
  0 <= current_ram_bank m < MAX_RAM_BANKS ->
  0 <= bank < MAX_RAM_BANKS ->
  store_allocated (ram_banks m) ->
  window_mapped (mem m) ->
  exists m',
    gb_memory_change_ram_bank m bank = Some m' /\
    (forall x, 0xa000 <= x < 0xc000 ->
               mem m' x = ram_banks m (bank * 0x2000 + (x - 0xa000))) /\
    (forall k o, k <> current_ram_bank m -> k * 0x2000 <= o < k * 0x2000 + 0x2000 ->
                 ram_banks m' o = ram_banks m o) /\
    (forall x, ~ 0xa000 <= x < 0xc000 -> mem m' x = mem m x) /\
    current_rom_bank m' = current_rom_bank m /\
    mbc_mode m' = mbc_mode m /\ mbc_data m' = mbc_data m /\
    mbc m' = mbc m /\ fd m' = fd m.
Proof.
  intros Hne Hcur Hbank Halloc Hwin.
  destruct (change_ram_bank_switch m bank Hne Hcur Hbank Halloc Hwin)
    as (m' & Hgo & _ & _ & _ & _ & Hview & Hother & _ & _).
  exists m'. split; [exact Hgo |].
  destruct (change_ram_bank_inv m m' bank Hgo Hne) as (banks & view & _ & Hload & ->).
  apply memcpy_inv in Hload as (-> & _ & _).
  split; [| split; [| split; [| repeat split]]].
  - intros x Hx. rewrite Hview by exact Hx. apply Hother. lia.
  - intros k o Hk Ho. apply Hother. lia.
  - intros x Hx. simpl.
    rewrite (proj2 (in_range_false 0xa000 0x2000 x)) by lia. reflexivity.
Qed.

Lemma change_ram_bank_needs_source (m : gb_memory) (bank : Z) :
  current_ram_bank m <> bank ->
  ram_banks m (bank * 0x2000) = None ->
  gb_memory_change_ram_bank m bank = None.
Proof.
  intros Hne Hsource.
  destruct (gb_memory_change_ram_bank m bank) as [m' |] eqn:Hgo; [| reflexivity].
  destruct (change_ram_bank_inv m m' bank Hgo Hne) as (banks & view & Hsave & Hload & _).
  apply memcpy_inv in Hload as (_ & _ & Hsrc).
  destruct (Hsrc (bank * 0x2000) ltac:(lia)) as [v Hv].
  assert (Hnone : banks (bank * 0x2000) = None); [| congruence].
  destruct (rtc_access m).
  - injection Hsave as <-. exact Hsource.
  - apply memcpy_inv in Hsave as (-> & _ & _).
    rewrite (proj2 (in_range_false (current_ram_bank m * 0x2000) 0x2000 (bank * 0x2000)))
      by lia.
    exact Hsource.
Qed.

(** X6. No bound is checked: with the store allocated at its size and no
    more, a selection of a bank at or beyond [MAX_RAM_BANKS] (other than
    the current one) runs [memcpy] past the end of the store and faults. *)
Theorem ram_bank_out_of_store_faults (m : gb_memory) (bank : Z) :
  current_ram_bank m <> bank ->
  MAX_RAM_BANKS <= bank ->
  (forall o, MAX_RAM_BANKS * 0x2000 <= o -> ram_banks m o = None) ->
  gb_memory_change_ram_bank m bank = None.
Proof.
  intros Hne Hbank Hend.
  apply change_ram_bank_needs_source; [exact Hne |].
  apply Hend. lia.
Qed.

(** ** The dispatch of [gb_memory_write] below [0x8000] *)

(** X7. In the MBC3 case group, a write of a byte above 4 to
    [0x4000, 0x6000) exposes the RTC register: the byte at [0xa000]
    becomes 0 and [rtc_access] true; the current RAM bank, the bank
    store and the rest of the view stay. *)
Theorem mbc3_rtc_register (os : syscalls) (vm : gb_vm) (addr value : Z) :
  mbc3_case (cartridge_type (mbc (vm_mem vm))) = true ->
  0x4000 <= Z.land addr 0xffff < 0x6000 ->
  4 < Z.land value 0xff ->
  is_Some (mem (vm_mem vm) 0xa000) ->
  exists view,
    gb_memory_write os vm addr value
    = Some (with_mem vm (set_rtc_access true (set_mem view (vm_mem vm)))) /\
    view 0xa000 = Some 0 /\
    (forall x, x <> 0xa000 -> view x = mem (vm_mem vm) x).
Proof.
  intros Hcase Haddr Hval Hmapped.
  exists (fun x => if x =? 0xa000 then Some 0 else mem (vm_mem vm) x).
  split; [| split; [reflexivity |]].
  - unfold gb_memory_write.
    replace (Z.land addr 0xffff <? 0x8000) with true by (symmetry; apply Z.ltb_lt; lia).
    replace (Z.land addr 0xffff >=? 0x6000) with false
      by (symmetry; rewrite Z.geb_leb; apply Z.leb_gt; lia).
    replace (Z.land addr 0xffff >=? 0x4000) with true by (symmetry; apply Z.geb_le; lia).
    replace (Z.land value 0xff <=? 4) with false by (symmetry; apply Z.leb_gt; lia).
    unfold gb_memory_access_rtc. rewrite (region_store_Some _ _ _ Hmapped). simpl mbind.
    destruct (cartridge_type (mbc (vm_mem vm))); try discriminate Hcase; reflexivity.
  - intros x Hx. apply Z.eqb_neq in Hx. rewrite Hx. reflexivity.
Qed.

(** X8. Writes the controller ignores: below [0x8000], every write
    on a cartridge without controller or of an unknown type, every write
    below [0x2000] on any cartridge, and on MBC3 every write to
    [0x6000, 0x8000) leave the whole state as it is; the byte is never
    stored in the ROM range. *)
Theorem ignored_rom_writes (os : syscalls) (vm : gb_vm) (addr value : Z) :
  Z.land addr 0xffff < 0x8000 ->
  cartridge_type (mbc (vm_mem vm)) = MBC_NONE \/
  cartridge_type (mbc (vm_mem vm)) = MBC_UNKNOWN \/
  Z.land addr 0xffff < 0x2000 \/
  (mbc3_case (cartridge_type (mbc (vm_mem vm))) = true /\ 0x6000 <= Z.land addr 0xffff) ->
  gb_memory_write os vm addr value = Some vm.
Proof.
  intros Hrom Hcase. unfold gb_memory_write.
  replace (Z.land addr 0xffff <? 0x8000) with true by (symmetry; apply Z.ltb_lt; lia).
  destruct Hcase as [-> | [-> | [Hlow | [Hcase Hhigh]]]]; [reflexivity | reflexivity | |].
  - replace (Z.land addr 0xffff >=? 0x6000) with false
      by (symmetry; rewrite Z.geb_leb; apply Z.leb_gt; lia).
    replace (Z.land addr 0xffff >=? 0x4000) with false
      by (symmetry; rewrite Z.geb_leb; apply Z.leb_gt; lia).
    replace (Z.land addr 0xffff >=? 0x2000) with false
      by (symmetry; rewrite Z.geb_leb; apply Z.leb_gt; lia).
    destruct (cartridge_type (mbc (vm_mem vm))); reflexivity.
  - replace (Z.land addr 0xffff >=? 0x6000) with true by (symmetry; apply Z.geb_le; lia).
    destruct (cartridge_type (mbc (vm_mem vm))); try discriminate Hcase;
      unfold gb_memory_update_rtc_time; rewrite with_mem_vm_mem; reflexivity.
Qed.

Lemma lor_below_128 (a b : Z) : 0 <= a < 128 -> 0 <= b < 128 -> 0 <= Z.lor a b < 128.
Proof.
  intros Ha Hb.
  assert (Hmod : Z.lor a b = Z.lor a b mod 128).
  { change 128 with (2 ^ 7). rewrite <- Z.land_ones by lia.
    rewrite Z.land_lor_distr_l, !Z.land_ones by lia.
    change (2 ^ 7) with 128. rewrite !Z.mod_small by lia. reflexivity. }
  rewrite Hmod. apply Z.mod_pos_bound. lia.
Qed.

Lemma land_mask_below (x mask k : Z) :
  0 <= k -> Z.land mask (Z.ones k) = mask -> 0 <= Z.land x mask < 2 ^ k.
Proof.
  intros Hk Hmask. rewrite <- Hmask, Z.land_assoc, Z.land_ones by exact Hk.
  apply Z.mod_pos_bound. apply Z.pow_pos_nonneg; lia.
Qed.

(** X9. The banks the MBC1 and MBC3 registers request lie in
    [1 .. 127] whatever byte is written and whatever was latched; the
    low five bits of an MBC1 bank are never all zero. *)
Theorem rom_bank_register_bounds (m : gb_memory) (value : Z) :
  1 <= mbc1_rom_bank m value <= 127 /\
  Z.land (mbc1_rom_bank m value) 0x1f <> 0 /\
  1 <= mbc3_rom_bank value <= 127.
Proof.
  assert (Hlow : 0 <= Z.land value 0x1f < 128).
  { pose proof (land_mask_below value 0x1f 5 ltac:(lia) eq_refl) as Hb.
    change (2 ^ 5) with 32 in Hb. lia. }
  assert (Hup : 0 <= (if negb (mbc_mode m =? 0) then 0 else Z.land (mbc_data m) 0x60) < 128).
  { destruct (negb (mbc_mode m =? 0)); [lia |].
    exact (land_mask_below (mbc_data m) 0x60 7 ltac:(lia) eq_refl). }
  pose proof (lor_below_128 _ _ Hlow Hup) as Hcomposed.
  pose proof (mbc1_rom_bank_nonzero m value) as Hnz.
  unfold mbc1_rom_bank in *.
  set (bank := Z.lor (Z.land value 0x1f) _) in *.
  split; [| split].
  - destruct (Z.land bank 0x1f =? 0).
    + pose proof (lor_below_128 bank 1 Hcomposed ltac:(lia)). lia.
    + lia.
  - destruct (Z.eqb_spec (Z.land bank 0x1f) 0) as [Hz | Hz]; [| exact Hz].
    rewrite Z.land_lor_distr_l, Hz. discriminate.
  - pose proof (mbc3_rom_bank_nonzero value) as Hnz3.
    unfold mbc3_rom_bank in *.
    pose proof (land_mask_below value 0x7f 7 ltac:(lia) eq_refl) as Hb.
    change (2 ^ 7) with 128 in Hb.
    destruct (Z.land value 0x7f =? 0); lia.
Qed.

Lemma rom_bank_register_ranges (m : gb_memory) (value : Z) :
  1 <= mbc1_rom_bank m value <= 127 /\ 1 <= mbc3_rom_bank value <= 127.
Proof.
  assert (Hlow : 0 <= Z.land value 0x1f < 128).
  { pose proof (land_mask_below value 0x1f 5 ltac:(lia) eq_refl) as Hb.
    change (2 ^ 5) with 32 in Hb. lia. }
  assert (Hup : 0 <= (if negb (mbc_mode m =? 0) then 0 else Z.land (mbc_data m) 0x60) < 128).
  { destruct (negb (mbc_mode m =? 0)); [lia |].
    exact (land_mask_below (mbc_data m) 0x60 7 ltac:(lia) eq_refl). }
  pose proof (lor_below_128 _ _ Hlow Hup) as Hcomposed.
  pose proof (mbc1_rom_bank_nonzero m value) as Hnz.
  pose proof (mbc3_rom_bank_nonzero value) as Hnz3.
  unfold mbc1_rom_bank, mbc3_rom_bank in *.
  set (bank := Z.lor (Z.land value 0x1f) _) in *.
  pose proof (land_mask_below value 0x7f 7 ltac:(lia) eq_refl) as Hb.
  change (2 ^ 7) with 128 in Hb.
  pose proof (lor_below_128 bank 1 Hcomposed ltac:(lia)).
  split.
  - destruct (Z.land bank 0x1f =? 0); lia.
  - destruct (Z.land value 0x7f =? 0); lia.
Qed.

(** X10. In the MBC1 case group, a write of an odd byte to
    [0x6000, 0x8000) sets the mode to 1 and nothing else; from then on
    the ROM bank register drops the latched upper bits: the bank it
    requests is the low five bits of the byte written, or 1 when they
    are zero. *)
Theorem mbc1_mode_one_drops_upper_bits (os : syscalls) (vm : gb_vm) (addr value w : Z) :
  mbc1_case (cartridge_type (mbc (vm_mem vm))) = true ->
  0x6000 <= Z.land addr 0xffff < 0x8000 ->
  Z.land (Z.land value 0xff) 0x01 = 1 ->
  gb_memory_write os vm addr value
  = Some (with_mem vm (set_mbc_mode 1 (vm_mem vm))) /\
  mbc1_rom_bank (set_mbc_mode 1 (vm_mem vm)) w
  = (if Z.land w 0x1f =? 0 then 1 else Z.land w 0x1f).
Proof.
  intros Hcase Haddr Hodd. split.
  - unfold gb_memory_write.
    replace (Z.land addr 0xffff <? 0x8000) with true by (symmetry; apply Z.ltb_lt; lia).
    replace (Z.land addr 0xffff >=? 0x6000) with true by (symmetry; apply Z.geb_le; lia).
    rewrite Hodd.
    destruct (cartridge_type (mbc (vm_mem vm))); try discriminate Hcase; reflexivity.
  - unfold mbc1_rom_bank.
    change (mbc_mode (set_mbc_mode 1 (vm_mem vm))) with 1.
    change (negb (1 =? 0)) with true. cbv iota.
    rewrite Z.lor_0_r.
    replace (Z.land (Z.land w 0x1f) 0x1f) with (Z.land w 0x1f)
      by (rewrite <- Z.land_assoc; reflexivity).
    destruct (Z.eqb_spec (Z.land w 0x1f) 0) as [-> | _]; reflexivity.
Qed.

(** X11. In the MBC3 case group, a write to [0x2000, 0x4000) requests
    the bank named by the low seven bits of the byte, bank 1 when they
    are zero: bit 7 is ignored, so the bytes [0x00] and [0x80] both
    request bank 1.  When the remapping succeeds that bank is current
    afterwards. *)
Theorem mbc3_rom_bank_register (os : syscalls) (vm : gb_vm) (addr value : Z) :
  mbc3_case (cartridge_type (mbc (vm_mem vm))) = true ->
  0x2000 <= Z.land addr 0xffff < 0x4000 ->
  let bank := if Z.land value 0xff mod 128 =? 0 then 1 else Z.land value 0xff mod 128 in
  gb_memory_write os vm addr value
  = Some (with_mem vm (gb_memory_change_rom_bank os (vm_mem vm) bank)) /\
  (sys_munmap os = 0 -> is_Some (sys_mmap_file os (0x4000 * bank) 0x4000) ->
   current_rom_bank (gb_memory_change_rom_bank os (vm_mem vm) bank) = bank).
Proof.
  intros Hcase Haddr bank.
  assert (Hbank : mbc3_rom_bank (Z.land value 0xff) = bank).
  { unfold mbc3_rom_bank, bank. change 0x7f with (Z.ones 7).
    rewrite Z.land_ones by lia. reflexivity. }
  split; [| apply change_rom_bank_selects].
  unfold gb_memory_write. rewrite Hbank.
  replace (Z.land addr 0xffff <? 0x8000) with true by (symmetry; apply Z.ltb_lt; lia).
  replace (Z.land addr 0xffff >=? 0x6000) with false
    by (symmetry; rewrite Z.geb_leb; apply Z.leb_gt; lia).
  replace (Z.land addr 0xffff >=? 0x4000) with false
    by (symmetry; rewrite Z.geb_leb; apply Z.leb_gt; lia).
  replace (Z.land addr 0xffff >=? 0x2000) with true by (symmetry; apply Z.geb_le; lia).
  destruct (cartridge_type (mbc (vm_mem vm))); try discriminate Hcase; reflexivity.
Qed.

(** ** Writes at and above [0x8000] *)

(** X12. A write to the timer counter [0xff05] stores 0 there whatever
    the value written; nothing else changes. *)
Theorem timer_write_resets (os : syscalls) (vm : gb_vm) (value : Z) :
  is_Some (mem (vm_mem vm) 0xff05) ->
  exists view,
    gb_memory_write os vm 0xff05 value = Some (with_mem vm (set_mem view (vm_mem vm))) /\
    view 0xff05 = Some 0 /\
    (forall x, x <> 0xff05 -> view x = mem (vm_mem vm) x).
Proof.
  intros Hmapped.
  exists (fun x => if x =? 0xff05 then Some 0 else mem (vm_mem vm) x).
  split; [| split; [reflexivity |]].
  - unfold gb_memory_write. change (Z.land 0xff05 0xffff) with 0xff05.
    change (0xff05 <? 0x8000) with false. change (0xff05 =? 0xff05) with true. cbv iota.
    rewrite (region_store_Some _ _ _ Hmapped). reflexivity.
  - intros x Hx. apply Z.eqb_neq in Hx. rewrite Hx. reflexivity.
Qed.

Lemma plain_address_spec (a : Z) :
  plain_address a = true <->
  0x8000 <= a < 0xff80 /\ a <> 0xff05 /\ a <> 0xff00 /\ a <> 0xff01 /\ a <> 0xff46.
Proof.
  unfold plain_address.
  rewrite !andb_true_iff, negb_true_iff, !orb_false_iff, Z.leb_le, Z.ltb_lt, !Z.eqb_neq.
  tauto.
Qed.

Lemma plain_write (os : syscalls) (vm : gb_vm) (addr value : Z) :
  plain_address (Z.land addr 0xffff) = true ->
  gb_memory_write os vm addr value =
  (view ← region_store (mem (vm_mem vm)) (Z.land addr 0xffff) (Z.land value 0xff);
   Some (with_mem vm (set_mem view (vm_mem vm)))).
Proof.
  intros Hplain. apply plain_address_spec in Hplain as (Hr & H5 & H0 & H1 & H46).
  unfold gb_memory_write.
  replace (Z.land addr 0xffff <? 0x8000) with false by (symmetry; apply Z.ltb_ge; lia).
  apply Z.eqb_neq in H5, H0, H1, H46. rewrite H5, H0, H1, H46.
  replace (Z.land addr 0xffff >=? 0xff80) with false
    by (symmetry; rewrite Z.geb_leb; apply Z.leb_gt; lia).
  reflexivity.
Qed.

(** X13. A write to a plain address (in [0x8000, 0xff80), not one of
    [0xff00], [0xff01], [0xff05], [0xff46]) is a store: the byte read
    back at the address is the low eight bits of the value, every other
    byte and every other part of the state are as before. *)
Theorem plain_write_stores (os : syscalls) (vm : gb_vm) (addr value : Z) :
  plain_address (Z.land addr 0xffff) = true ->
  is_Some (mem (vm_mem vm) (Z.land addr 0xffff)) ->
  exists view,
    gb_memory_write os vm addr value = Some (with_mem vm (set_mem view (vm_mem vm))) /\
    view (Z.land addr 0xffff) = Some (Z.land value 0xff) /\
    (forall x, x <> Z.land addr 0xffff -> view x = mem (vm_mem vm) x).
Proof.
  intros Hplain Hmapped.
  exists (fun x => if x =? Z.land addr 0xffff then Some (Z.land value 0xff)
                   else mem (vm_mem vm) x).
  split; [| split].
  - rewrite plain_write by exact Hplain.
    rewrite (region_store_Some _ _ _ Hmapped). reflexivity.
  - rewrite Z.eqb_refl. reflexivity.
  - intros x Hx. apply Z.eqb_neq in Hx. rewrite Hx. reflexivity.
Qed.

(** X14. Only the low 16 bits of the address and the low 8 bits of the
    value count: two calls whose addresses agree modulo [0x10000] and
    whose values agree modulo 256 do the same. *)
Theorem write_wraps_address_and_value
    (os : syscalls) (vm : gb_vm) (addr addr' value value' : Z) :
  addr mod 0x10000 = addr' mod 0x10000 ->
  value mod 256 = value' mod 256 ->
  gb_memory_write os vm addr value = gb_memory_write os vm addr' value'.
Proof.
  intros Haddr Hvalue.
  assert (Ha : Z.land addr 0xffff = Z.land addr' 0xffff).
  { change 0xffff with (Z.ones 16). rewrite !Z.land_ones by lia. exact Haddr. }
  assert (Hv : Z.land value 0xff = Z.land value' 0xff).
  { change 0xff with (Z.ones 8). rewrite !Z.land_ones by lia. exact Hvalue. }
  unfold gb_memory_write. rewrite Ha, Hv. reflexivity.
Qed.

(** ** What no write does *)

Lemma rom_kept_refl (m : gb_memory) : rom_kept m m.
Proof. repeat split. Qed.

Lemma rom_kept_store (m : gb_memory) (a v : Z) (view : region) :
  0x4000 <= a -> region_store (mem m) a v = Some view -> rom_kept m (set_mem view m).
Proof.
  intros Ha Hst. apply region_store_inv in Hst as (_ & ->).
  repeat split. intros x Hx. simpl.
  replace (x =? a) with false by (symmetry; apply Z.eqb_neq; lia). reflexivity.
Qed.

Lemma rom_kept_ram_bank (m m' : gb_memory) (bank : Z) :
  gb_memory_change_ram_bank m bank = Some m' -> rom_kept m m'.
Proof.
  intros Hgo. destruct (Z.eq_dec (current_ram_bank m) bank) as [Heq | Hne].
  - unfold gb_memory_change_ram_bank in Hgo.
    apply Z.eqb_eq in Heq. rewrite Heq in Hgo. injection Hgo as <-. apply rom_kept_refl.
  - destruct (change_ram_bank_inv m m' bank Hgo Hne) as (banks & view & _ & Hload & ->).
    apply memcpy_inv in Hload as (-> & _ & _).
    repeat split. intros x Hx. simpl.
    rewrite (proj2 (in_range_false 0xa000 0x2000 x)) by lia. reflexivity.
Qed.

Lemma rom_kept_rom_bank (os : syscalls) (m : gb_memory) (bank : Z) :
  rom_kept m (gb_memory_change_rom_bank os m bank).
Proof.
  destruct (rom_bank_switch_outside os m bank) as (Hout & Hfields).
  rewrite Hfields. repeat split. intros x Hx. simpl. apply Hout. lia.
Qed.

Lemma rom_kept_rtc (m m' : gb_memory) (elt : Z) :
  gb_memory_access_rtc m elt = Some m' -> rom_kept m m'.
Proof.
  unfold gb_memory_access_rtc. intros Hm.
  apply bind_Some in Hm as (view & Hst & Hm). injection Hm as <-.
  destruct (rom_kept_store m 0xa000 0 view ltac:(lia) Hst) as (Hf & Hd & Hc & Hv).
  repeat split; assumption.
Qed.

Lemma invalidate_blocks_length (addr : Z) (count : nat) :
  forall (from : nat) (blocks blocks' : list gb_block),
    invalidate_blocks addr from count blocks = Some blocks' ->
    length blocks' = length blocks.
Proof.
  induction count as [| count IH]; intros from blocks blocks' Hscan; simpl in Hscan.
  - injection Hscan as <-. reflexivity.
  - apply bind_Some in Hscan as (blocks1 & Hstep & Hrest).
    rewrite (IH _ _ _ Hrest).
    unfold invalidate_block in Hstep.
    apply bind_Some in Hstep as (b & _ & Hstep).
    destruct (negb (exec_count b =? 0) && (end_address b >? addr));
      injection Hstep as <-; [apply length_insert | reflexivity].
Qed.

(** X15. What no write does.  A call of [gb_memory_write] that returns
    never changes the key state, the file name, the descriptor, the
    cartridge type, the view below [0x4000] (the fixed ROM bank) or the
    length of the block table, and it changes the block table only when
    the address is [0xff80] or above. *)
Theorem write_frame (os : syscalls) (vm vm' : gb_vm) (addr value : Z) :
  gb_memory_write os vm addr value = Some vm' ->
  state_keys (vm_state vm') = state_keys (vm_state vm) /\
  rom_kept (vm_mem vm) (vm_mem vm') /\
  length (highmem_blocks vm') = length (highmem_blocks vm) /\
  (Z.land addr 0xffff < 0xff80 -> highmem_blocks vm' = highmem_blocks vm).
Proof.
  unfold gb_memory_write.
  set (a := Z.land addr 0xffff). set (v := Z.land value 0xff). set (m := vm_mem vm).
  assert (Hsame : state_keys (vm_state vm) = state_keys (vm_state vm) /\
                  rom_kept m (vm_mem vm) /\
                  length (highmem_blocks vm) = length (highmem_blocks vm) /\
                  (a < 0xff80 -> highmem_blocks vm = highmem_blocks vm)).
  { repeat split. }
  assert (Hwith : forall m', rom_kept m m' ->
            state_keys (vm_state (with_mem vm m')) = state_keys (vm_state vm) /\
            rom_kept m (vm_mem (with_mem vm m')) /\
            length (highmem_blocks (with_mem vm m')) = length (highmem_blocks vm) /\
            (a < 0xff80 -> highmem_blocks (with_mem vm m') = highmem_blocks vm)).
  { intros m' Hkept. split; [reflexivity |]. split; [exact Hkept |]. split; reflexivity. }
  intros Hw.
  destruct (a <? 0x8000) eqn:Hrom.
  - destruct (cartridge_type (mbc m));
      repeat match type of Hw with
             | context [if ?c then _ else _] => destruct c
             end;
      try (apply bind_Some in Hw as (m' & Hm' & Hw));
      injection Hw as <-;
      first [ exact Hsame
            | apply Hwith;
              first [ eapply rom_kept_ram_bank; eassumption
                    | eapply rom_kept_rtc; eassumption
                    | apply rom_kept_rom_bank
                    | repeat split ] ].
  - apply Z.ltb_ge in Hrom.
    destruct (a =? 0xff05).
    { apply bind_Some in Hw as (view & Hst & Hw). injection Hw as <-.
      apply Hwith. eapply rom_kept_store; [| exact Hst]. lia. }
    destruct (a =? 0xff00).
    { apply bind_Some in Hw as (view & Hst & Hw). injection Hw as <-.
      apply Hwith. eapply rom_kept_store; [| exact Hst]. lia. }
    destruct (a =? 0xff01); [injection Hw as <-; exact Hsame |].
    destruct (a =? 0xff46).
    { apply bind_Some in Hw as (view & Hst & Hw).
      apply bind_Some in Hw as (view' & Hcopy & Hw). injection Hw as <-.
      apply Hwith.
      destruct (rom_kept_store m a v view ltac:(lia) Hst) as (Hf & Hd & Hc & Hv).
      apply memcpy_inv in Hcopy as (-> & _ & _).
      repeat split. intros x Hx. simpl.
      rewrite (proj2 (in_range_false 0xfe00 0xa0 x)) by lia. apply Hv. exact Hx. }
    destruct (a >=? 0xff80) eqn:Hhigh.
    + apply bind_Some in Hw as (blocks & Hscan & Hw).
      apply bind_Some in Hw as (view & Hst & Hw). injection Hw as <-.
      split; [reflexivity |].
      split; [eapply rom_kept_store; [| exact Hst]; lia |].
      split; [exact (invalidate_blocks_length _ _ _ _ _ Hscan) |].
      intros Hlow. apply Z.geb_le in Hhigh. lia.
    + apply bind_Some in Hw as (view & Hst & Hw). injection Hw as <-.
      apply Hwith. eapply rom_kept_store; [| exact Hst]. lia.
Qed.

(** ** Invariants of a session *)

Lemma region_store_keeps_mapped (r r' : region) (a v : Z) :
  region_store r a v = Some r' -> forall x, is_Some (r x) -> is_Some (r' x).
Proof.
  intros Hst x Hx. apply region_store_inv in Hst as (_ & ->).
  destruct (x =? a); [eauto | exact Hx].
Qed.

Lemma change_ram_bank_keeps_mapped (m m' : gb_memory) (bank : Z) :
  gb_memory_change_ram_bank m bank = Some m' ->
  forall x, is_Some (mem m x) -> is_Some (mem m' x).
Proof.
  intros Hgo. destruct (Z.eq_dec (current_ram_bank m) bank) as [Heq | Hne].
  - unfold gb_memory_change_ram_bank in Hgo.
    apply Z.eqb_eq in Heq. rewrite Heq in Hgo. injection Hgo as <-. auto.
  - destruct (change_ram_bank_inv m m' bank Hgo Hne) as (banks & view & _ & Hload & ->).
    exact (memcpy_keeps_mapped _ _ _ _ _ _ Hload).
Qed.

Lemma write_keeps_high_mapped (os : syscalls) (vm vm' : gb_vm) (addr value : Z) :
  gb_memory_write os vm addr value = Some vm' ->
  high_mapped (mem (vm_mem vm)) -> high_mapped (mem (vm_mem vm')).
Proof.
  unfold gb_memory_write.
  set (a := Z.land addr 0xffff). set (v := Z.land value 0xff). set (m := vm_mem vm).
  intros Hw Hhigh.
  assert (Hrom : forall bank, high_mapped (mem (gb_memory_change_rom_bank os m bank))).
  { intros bank x Hx. rewrite (proj1 (rom_bank_switch_outside os m bank)) by lia.
    apply Hhigh. exact Hx. }
  assert (Hram : forall bank m', gb_memory_change_ram_bank m bank = Some m' ->
                                 high_mapped (mem m')).
  { intros bank m' Hgo x Hx. eapply change_ram_bank_keeps_mapped; [exact Hgo |].
    apply Hhigh. exact Hx. }
  assert (Hstore : forall r a' v' view, region_store r a' v' = Some view ->
                                        high_mapped r -> high_mapped view).
  { intros r a' v' view Hst Hr x Hx. eapply region_store_keeps_mapped; [exact Hst |].
    apply Hr. exact Hx. }
  destruct (a <? 0x8000).
  - destruct (cartridge_type (mbc m));
      repeat match type of Hw with
             | context [if ?c then _ else _] => destruct c
             end;
      try (apply bind_Some in Hw as (m' & Hm' & Hw));
      injection Hw as <-;
      first [ exact Hhigh
            | eapply Hram; eassumption
            | apply Hrom
            | idtac ].
    all: unfold gb_memory_access_rtc in Hm';
      apply bind_Some in Hm' as (view & Hst & Hm'); injection Hm' as <-;
      exact (Hstore _ _ _ _ Hst Hhigh).
  - repeat match type of Hw with
           | context [if ?c then _ else _] => destruct c
           end;
      repeat (apply bind_Some in Hw as (? & ? & Hw));
      injection Hw as <-;
      first [ exact Hhigh
            | eapply Hstore; eassumption
            | idtac ].
    match goal with
    | Hst : region_store _ _ _ = Some ?view1, Hcopy : memcpy _ _ _ _ _ = Some _ |- _ =>
        intros y Hy; eapply memcpy_keeps_mapped; [exact Hcopy |];
        exact (Hstore _ _ _ _ Hst Hhigh y Hy)
    end.
Qed.

Lemma reachable_high_mapped (vm : gb_vm) :
  reachable vm -> high_mapped (mem (vm_mem vm)).
Proof.
  induction 1 as [os m0 fname m held keys blocks Hinit
                 | os vm addr value vm' Hreach IH Hw
                 | vm keys blocks Hreach IH].
  - intros x Hx. change (is_Some (mem m x)).
    rewrite (proj1 (gb_memory_init_maps _ _ _ _ _ _ Hinit) x Hx). eauto.
  - eapply write_keeps_high_mapped; eassumption.
  - exact IH.
Qed.

(** X16. In every state a session reaches, the emulator's half of the
    view, [0x8000 .. 0x10000), is mapped: no bank switch, DMA or store
    ever unmaps a byte of it. *)
Theorem reachable_high_memory_mapped (vm : gb_vm) :
  reachable vm ->
  forall x, 0x8000 <= x < 0x10000 -> is_Some (mem (vm_mem vm) x).
Proof.
  induction 1 as [os m0 fname m held keys blocks Hinit
                 | os vm addr value vm' Hreach IH Hw
                 | vm keys blocks Hreach IH].
  - intros x Hx. change (is_Some (mem m x)).
    rewrite (proj1 (gb_memory_init_maps _ _ _ _ _ _ Hinit) x Hx). eauto.
  - exact (write_keeps_high_mapped os vm vm' addr value Hw IH).
  - exact IH.
Qed.

Lemma high_write_returns (os : syscalls) (vm : gb_vm) (addr value : Z) :
  high_mapped (mem (vm_mem vm)) ->
  0x8000 <= Z.land addr 0xffff ->
  (Z.land addr 0xffff = 0xff46 -> 0x80 <= Z.land value 0xff) ->
  (Z.to_nat (Z.land addr 0xffff - 0xff80) <= length (highmem_blocks vm))%nat ->
  is_Some (gb_memory_write os vm addr value).
Proof.
  intros Hhigh Ha Hdma Hlen.
  assert (Hbound : 0 <= Z.land addr 0xffff < 0x10000)
    by (change 0xffff with (Z.ones 16); rewrite Z.land_ones by lia;
        apply Z.mod_pos_bound; lia).
  pose proof (land_byte_range value) as Hv.
  assert (Hmapped : is_Some (mem (vm_mem vm) (Z.land addr 0xffff)))
    by (apply Hhigh; lia).
  unfold gb_memory_write.
  set (a := Z.land addr 0xffff) in *. set (v := Z.land value 0xff) in *.
  replace (a <? 0x8000) with false by (symmetry; apply Z.ltb_ge; lia).
  destruct (a =? 0xff05); [rewrite (region_store_Some _ _ _ Hmapped); simpl; eauto |].
  destruct (a =? 0xff00); [rewrite (region_store_Some _ _ _ Hmapped); simpl; eauto |].
  destruct (a =? 0xff01); [eauto |].
  destruct (Z.eqb_spec a 0xff46) as [Heq | _].
  - rewrite (region_store_Some _ _ _ Hmapped). simpl mbind. cbv beta.
    specialize (Hdma Heq).
    assert (Hpage : Z.shiftl v 8 = v * 256) by (apply Z.shiftl_mul_pow2; lia).
    rewrite memcpy_Some; [simpl; eauto | |];
      intros x Hx; (destruct (x =? a); [eauto | apply Hhigh; lia]).
  - destruct (a >=? 0xff80).
    + destruct (invalidate_blocks_lookup a (Z.to_nat (a - 0xff80)) 0 (highmem_blocks vm))
        as (blocks' & Hscan & _); [lia |].
      rewrite Hscan. simpl mbind. cbv beta.
      rewrite (region_store_Some _ _ _ Hmapped). simpl. eauto.
    + rewrite (region_store_Some _ _ _ Hmapped). simpl. eauto.
Qed.

(** X17. In every state a session reaches, a write at or above
    [0x8000] returns: a store, a timer or joypad write, a write to high
    memory when the block table covers the scanned displacements, and a
    DMA from page [0x80] or above never fault. *)
Theorem reachable_write_returns (os : syscalls) (vm : gb_vm) (addr value : Z) :
  reachable vm ->
  0x8000 <= Z.land addr 0xffff ->
  (Z.land addr 0xffff = 0xff46 -> 0x80 <= Z.land value 0xff) ->
  (Z.to_nat (Z.land addr 0xffff - 0xff80) <= length (highmem_blocks vm))%nat ->
  exists vm', gb_memory_write os vm addr value = Some vm' /\ reachable vm'.
Proof.
  intros Hreach Ha Hdma Hlen.
  destruct (high_write_returns os vm addr value) as [vm' Hw];
    [apply reachable_high_mapped; exact Hreach | exact Ha | exact Hdma
     | exact Hlen |].
  exists vm'. split; [exact Hw |]. eapply reachable_write; eassumption.
Qed.

Lemma in_range_ram_bank (m m' : gb_memory) (bank : Z) :
  controller_in_range m ->
  gb_memory_change_ram_bank m bank = Some m' ->
  0 <= bank <= 255 ->
  (mbc3_case (cartridge_type (mbc m)) = true -> bank <= 4) ->
  controller_in_range m'.
Proof.
  intros (Hmode & Hdata & Hrom & Hram & H1 & H3 & Hrtc) Hgo Hbank Hsmall.
  destruct (Z.eq_dec (current_ram_bank m) bank) as [Heq | Hne].
  - unfold gb_memory_change_ram_bank in Hgo.
    apply Z.eqb_eq in Heq. rewrite Heq in Hgo. injection Hgo as <-.
    repeat split; tauto || lia || apply H1 || apply H3 || idtac; auto.
  - destruct (change_ram_bank_inv m m' bank Hgo Hne) as (banks & view & _ & _ & ->).
    unfold controller_in_range. simpl.
    split; [exact Hmode |]. split; [exact Hdata |]. split; [exact Hrom |].
    split; [exact Hbank |]. split; [exact H1 |].
    split; [intros Hcase; split; [apply H3; exact Hcase | apply Hsmall; exact Hcase] |].
    discriminate.
Qed.

Lemma in_range_rtc (m m' : gb_memory) (elt : Z) :
  controller_in_range m ->
  gb_memory_access_rtc m elt = Some m' ->
  mbc3_case (cartridge_type (mbc m)) = true ->
  controller_in_range m'.
Proof.
  intros (Hmode & Hdata & Hrom & Hram & H1 & H3 & Hrtc) Hgo Hcase.
  unfold gb_memory_access_rtc in Hgo.
  apply bind_Some in Hgo as (view & _ & Hgo). injection Hgo as <-.
  unfold controller_in_range. simpl.
  split; [exact Hmode |]. split; [exact Hdata |]. split; [exact Hrom |].
  split; [exact Hram |]. split; [exact H1 |]. split; [exact H3 |].
  intros _. exact Hcase.
Qed.

Lemma in_range_rom_bank (os : syscalls) (m : gb_memory) (bank : Z) :
  controller_in_range m ->
  0 <= bank <= 255 ->
  (mbc1_case (cartridge_type (mbc m)) = true -> 1 <= bank <= 127) ->
  (mbc3_case (cartridge_type (mbc m)) = true -> 1 <= bank <= 127) ->
  controller_in_range (gb_memory_change_rom_bank os m bank).
Proof.
  intros (Hmode & Hdata & Hrom & Hram & H1 & H3 & Hrtc) Hbank Hb1 Hb3.
  destruct (rom_bank_switch_outside os m bank) as (_ & Hfields).
  destruct (change_rom_bank_result os m bank) as (_ & Hcur).
  rewrite Hfields. unfold controller_in_range. simpl.
  set (new := current_rom_bank (gb_memory_change_rom_bank os m bank)) in *.
  split; [exact Hmode |]. split; [exact Hdata |].
  split; [destruct Hcur as [-> | ->]; assumption |].
  split; [exact Hram |].
  split; [intros Hcase; destruct Hcur as [-> | ->]; auto |].
  split; [| exact Hrtc].
  intros Hcase. split; [| apply H3; exact Hcase].
  destruct Hcur as [-> | ->]; [apply H3; exact Hcase | apply Hb3; exact Hcase].
Qed.

Lemma write_keeps_controller_in_range (os : syscalls) (vm vm' : gb_vm) (addr value : Z) :
  gb_memory_write os vm addr value = Some vm' ->
  controller_in_range (vm_mem vm) -> controller_in_range (vm_mem vm').
Proof.
  unfold gb_memory_write.
  set (a := Z.land addr 0xffff). set (v := Z.land value 0xff). set (m := vm_mem vm).
  intros Hw HJ.
  pose proof (land_byte_range value) as Hv. fold v in Hv.
  assert (Hmem : forall view, controller_in_range (set_mem view m)) by (intros view; exact HJ).
  destruct (a <? 0x8000).
  - assert (Hbit : Z.land v 0x01 = 0 \/ Z.land v 0x01 = 1).
    { pose proof (land_mask_below v 0x01 1 ltac:(lia) eq_refl) as Hb.
      change (2 ^ 1) with 2 in Hb. lia. }
    assert (Hshift : 0 <= Z.shiftl v 5 <= 0x1fe0).
    { rewrite Z.shiftl_mul_pow2 by lia. change (2 ^ 5) with 32. lia. }
    pose proof (rom_bank_register_ranges m v) as (Hb1 & Hb3).
    destruct HJ as (Hmode & Hdata & Hrom & Hram & H1 & H3 & Hrtc).
    assert (HJ : controller_in_range m) by (repeat split; tauto || lia || auto).
    destruct (cartridge_type (mbc m)) eqn:Hct;
      repeat match type of Hw with
             | context [if ?c then _ else _] => destruct c eqn:?
             end;
      try (apply bind_Some in Hw as (m' & Hm' & Hw));
      injection Hw as <-;
      try exact HJ;
      try (eapply in_range_ram_bank;
           [exact HJ | exact Hm' | lia
           | fold m; rewrite Hct; first [discriminate | intros _; lia]]);
      try (eapply in_range_rtc; [exact HJ | exact Hm' | fold m; rewrite Hct; reflexivity]);
      try (apply in_range_rom_bank;
           [exact HJ | lia
           | fold m; rewrite Hct; first [discriminate | intros _; lia]
           | fold m; rewrite Hct; first [discriminate | intros _; lia]]);
      try (unfold controller_in_range; simpl; fold m; rewrite Hct;
           repeat split; tauto || lia || discriminate || auto).
  - repeat match type of Hw with
           | context [if ?c then _ else _] => destruct c
           end;
      repeat (apply bind_Some in Hw as (? & ? & Hw));
      injection Hw as <-; first [exact HJ | apply Hmem].
Qed.

(** X18. In every state a session reaches the controller fields are in
    range: the mode is 0 or 1, the latched bits lie in [0 .. 0x1fe0],
    both current banks lie in [0 .. 255]; on MBC1 and MBC3 cartridges
    the ROM bank lies in [1 .. 127], on MBC3 the RAM bank is at most 4,
    and the RTC register is exposed on MBC3 cartridges only. *)
Theorem reachable_controller_in_range (vm : gb_vm) :
  reachable vm -> controller_in_range (vm_mem vm).
Proof.
  induction 1 as [os m0 fname m held keys blocks Hinit
                 | os vm addr value vm' Hreach IH Hw
                 | vm keys blocks Hreach IH].
  - destruct (gb_memory_init_success _ _ _ _ _ _ Hinit)
      as (_ & Hmode & Hdata & Hrom & Hram & Hrtc).
    unfold controller_in_range.
    change (vm_mem (Build_gb_vm (Build_gb_state m keys) blocks)) with m.
    rewrite Hmode, Hdata, Hrom, Hram, Hrtc.
    repeat split; lia || discriminate || auto.
  - exact (write_keeps_controller_in_range os vm vm' addr value Hw IH).
  - exact IH.
Qed.

(** ** High memory, again *)

Lemma invalidated_idempotent (addr : Z) (b : gb_block) :
  invalidated addr (invalidated addr b) = invalidated addr b.
Proof.
  unfold invalidated.
  destruct (negb (exec_count b =? 0) && (end_address b >? addr)) eqn:Hcond.
  - reflexivity.
  - rewrite Hcond. reflexivity.
Qed.

Lemma highmem_write (os : syscalls) (vm : gb_vm) (addr value : Z) :
  0xff80 <= addr < 0x10000 ->
  gb_memory_write os vm addr value =
  (blocks ← invalidate_blocks addr 0 (Z.to_nat (addr - 0xff80)) (highmem_blocks vm);
   view ← region_store (mem (vm_mem vm)) addr (Z.land value 0xff);
   Some (with_mem (with_blocks vm blocks) (set_mem view (vm_mem vm)))).
Proof.
  intros Haddr. unfold gb_memory_write. rewrite (land_addr addr) by lia.
  replace (addr <? 0x8000) with false by (symmetry; apply Z.ltb_ge; lia).
  replace (addr =? 0xff05) with false by (symmetry; apply Z.eqb_neq; lia).
  replace (addr =? 0xff00) with false by (symmetry; apply Z.eqb_neq; lia).
  replace (addr =? 0xff01) with false by (symmetry; apply Z.eqb_neq; lia).
  replace (addr =? 0xff46) with false by (symmetry; apply Z.eqb_neq; lia).
  replace (addr >=? 0xff80) with true by (symmetry; apply Z.geb_le; lia).
  reflexivity.
Qed.

(** X19. No block is freed twice: after a write to a high-memory
    address, a second write to the same address (of any value) finds
    nothing to invalidate and leaves the block table as the first write
    left it. *)
Theorem highmem_write_twice (os : syscalls) (vm : gb_vm) (addr value value' : Z) :
  0xff80 <= addr < 0x10000 ->
  (Z.to_nat (addr - 0xff80) <= length (highmem_blocks vm))%nat ->
  is_Some (mem (vm_mem vm) addr) ->
  exists vm1 vm2,
    gb_memory_write os vm addr value = Some vm1 /\
    gb_memory_write os vm1 addr value' = Some vm2 /\
    highmem_blocks vm2 = highmem_blocks vm1.
Proof.
  intros Haddr Hlen Hmapped.
  destruct (invalidate_blocks_lookup addr (Z.to_nat (addr - 0xff80)) 0
              (highmem_blocks vm)) as (blocks1 & Hscan1 & Hlen1 & Hlook1); [lia |].
  destruct (invalidate_blocks_lookup addr (Z.to_nat (addr - 0xff80)) 0 blocks1)
    as (blocks2 & Hscan2 & Hlen2 & Hlook2); [lia |].
  assert (Hsame : blocks2 = blocks1).
  { apply list_eq. intros j. rewrite Hlook2, Hlook1.
    destruct ((0 <=? j) && (j <? 0 + Z.to_nat (addr - 0xff80)))%nat; [| reflexivity].
    destruct (highmem_blocks vm !! j) as [b |]; [| reflexivity].
    simpl. rewrite invalidated_idempotent. reflexivity. }
  set (view1 := fun x => if x =? addr then Some (Z.land value 0xff) else mem (vm_mem vm) x).
  set (vm1 := with_mem (with_blocks vm blocks1) (set_mem view1 (vm_mem vm))).
  assert (Hmapped1 : is_Some (mem (vm_mem vm1) addr)).
  { simpl. unfold view1. rewrite Z.eqb_refl. eauto. }
  exists vm1. eexists. split; [| split].
  - rewrite highmem_write by exact Haddr. rewrite Hscan1. simpl mbind. cbv beta.
    rewrite (region_store_Some _ _ _ Hmapped). reflexivity.
  - rewrite highmem_write by exact Haddr.
    change (highmem_blocks vm1) with blocks1. rewrite Hscan2. simpl mbind. cbv beta.
    rewrite (region_store_Some _ _ _ Hmapped1). reflexivity.
  - exact Hsame.
Qed.

(** ** The joypad byte *)

(** X20. For an 8-bit key state the byte [get_joypad_state] returns
    depends on the low eight bits of [value] only (the parameter is a
    [uint8_t]); it always has its four high bits set and, in its low
    nibble, the complement of the nibbles taken in (the low one unless
    the byte is 0 or [0x10], the high one unless it is 0 or [0x20]); it
    is [0xff] when no key is pressed and when the mask is 0. *)
Theorem joypad_byte_range (keys : gb_keys) (value : Z) :
  0 <= keys_state keys < 256 ->
  get_joypad_state keys value = get_joypad_state keys (Z.land value 0xff) /\
  0xf0 <= get_joypad_state keys value <= 0xff /\
  get_joypad_state keys value mod 16
  = 15 - taken_nibbles (keys_state keys) (Z.land value 0xff) /\
  (keys_state keys = 0 -> get_joypad_state keys value = 0xff) /\
  get_joypad_state keys 0 = 0xff.
Proof.
  intros Hk. rewrite !get_joypad_state_taken by exact Hk.
  rewrite (land_byte (Z.land value 0xff)) by apply land_byte_range.
  set (v := Z.land value 0xff).
  assert (Hsel : 0 <= taken_nibbles (keys_state keys) v < 16).
  { unfold taken_nibbles. apply lor_nibbles.
    - destruct ((v =? 0) || (v =? 0x10)); [| apply Z.mod_pos_bound]; lia.
    - destruct ((v =? 0) || (v =? 0x20)); [lia |].
      split; [apply Z.div_pos; lia | apply Z.div_lt_upper_bound; lia]. }
  split; [reflexivity |]. split; [lia |]. split; [| split].
  - replace (255 - taken_nibbles (keys_state keys) v)
      with (15 - taken_nibbles (keys_state keys) v + 15 * 16) by lia.
    rewrite Z_mod_plus_full. apply Z.mod_small. lia.
  - intros Hzero. unfold taken_nibbles. rewrite Hzero.
    destruct ((v =? 0) || (v =? 0x10)), ((v =? 0) || (v =? 0x20)); reflexivity.
  - reflexivity.
Qed.

(** ** [gb_memory_init] and [gb_memory_free] *)

(** X21. A file-backed initialisation whose [open] and two [mmap]s
    succeed returns true; the view shows the first 32 KiB of the image
    in [0 .. 0x8000) and zeroes in [0x8000 .. 0x10000), the cartridge
    type is the image byte at [0x0147], ROM bank 1 and RAM bank 0 are
    current, and the process holds the descriptor, both mappings and,
    when [malloc] gave one, the bank store. *)
Theorem init_file_session (os : syscalls) (held : list resource) (m0 : gb_memory)
    (name : string) (img : region) (code : Z) :
  0 <= sys_open os ->
  sys_mmap_file os 0 0x8000 = Some img ->
  sys_mmap_anon os = true ->
  img 0x0147 = Some code ->
  exists m,
    gb_memory_init os held m0 (Some name)
    = Some (true, m,
            (match sys_malloc os with Some _ => [HeapBuffer] | None => [] end)
            ++ Mapping 0x8000 0x8000 :: Mapping 0 0x8000
               :: FileDescriptor (sys_open os) :: held) /\
    (forall x, 0 <= x < 0x8000 -> mem m x = img x) /\
    (forall x, 0x8000 <= x < 0x10000 -> mem m x = Some 0) /\
    (forall x, ~ 0 <= x < 0x10000 -> mem m x = None) /\
    mbc m = code /\ fd m = sys_open os /\ filename m = Some name /\
    current_rom_bank m = 1 /\ current_ram_bank m = 0 /\
    mbc_mode m = 0 /\ mbc_data m = 0 /\ rtc_access m = false.
Proof.
  intros Hfd Himg Hanon Hcode.
  assert (Hview : forall x,
            region_map (region_map unmapped 0 0x8000 img) 0x8000 0x8000 zero_page x =
            if in_range 0x8000 0x8000 x then Some 0
            else if in_range 0 0x8000 x then img x else None).
  { intros x. unfold region_map, zero_page, unmapped.
    destruct (in_range 0x8000 0x8000 x); [reflexivity |].
    destruct (in_range 0 0x8000 x); [f_equal; lia | reflexivity]. }
  assert (Hlayout :
            (forall x, 0 <= x < 0x8000 ->
               region_map (region_map unmapped 0 0x8000 img) 0x8000 0x8000 zero_page x
               = img x) /\
            (forall x, 0x8000 <= x < 0x10000 ->
               region_map (region_map unmapped 0 0x8000 img) 0x8000 0x8000 zero_page x
               = Some 0) /\
            (forall x, ~ 0 <= x < 0x10000 ->
               region_map (region_map unmapped 0 0x8000 img) 0x8000 0x8000 zero_page x
               = None)).
  { split; [| split]; intros x Hx; rewrite Hview.
    - rewrite (proj2 (in_range_false 0x8000 0x8000 x)) by lia.
      rewrite (proj2 (in_range_true 0 0x8000 x)) by lia. reflexivity.
    - rewrite (proj2 (in_range_true 0x8000 0x8000 x)) by lia. reflexivity.
    - rewrite (proj2 (in_range_false 0x8000 0x8000 x)) by lia.
      rewrite (proj2 (in_range_false 0 0x8000 x)) by lia. reflexivity. }
  destruct Hlayout as (Hlow & Hhigh & Hout).
  assert (Hheader :
            region_map (region_map unmapped 0 0x8000 img) 0x8000 0x8000 zero_page 0x0147
            = Some code) by (rewrite Hlow by lia; exact Hcode).
  unfold gb_memory_init.
  change (fd (set_fd (sys_open os) m0)) with (sys_open os).
  replace (sys_open os <? 0) with false by (symmetry; apply Z.ltb_ge; lia).
  rewrite Himg, Hanon.
  destruct (sys_malloc os) as [contents |]; simpl mem; rewrite Hheader; simpl mbind;
    cbv beta; (eexists; split; [reflexivity |]); simpl;
    repeat split; assumption.
Qed.

(** X22. An initialisation without file never opens anything: when its
    one anonymous [mmap] succeeds it returns true with descriptor -1, the
    whole view [0 .. 0x10000) zero, hence cartridge-type byte 0, holding
    the one 64 KiB mapping (and the bank store when [malloc] gave one). *)
Theorem init_anonymous_session (os : syscalls) (held : list resource) (m0 : gb_memory) :
  sys_mmap_anon os = true ->
  exists m,
    gb_memory_init os held m0 None
    = Some (true, m,
            (match sys_malloc os with Some _ => [HeapBuffer] | None => [] end)
            ++ Mapping 0 0x10000 :: held) /\
    (forall x, 0 <= x < 0x10000 -> mem m x = Some 0) /\
    (forall x, ~ 0 <= x < 0x10000 -> mem m x = None) /\
    mbc m = 0 /\ fd m = -1 /\ filename m = None /\
    current_rom_bank m = 1 /\ current_ram_bank m = 0 /\ rtc_access m = false.
Proof.
  intros Hanon. unfold gb_memory_init. rewrite Hanon.
  assert (Hin : forall x, 0 <= x < 0x10000 ->
            region_map unmapped 0 0x10000 zero_page x = Some 0).
  { intros x Hx. unfold region_map.
    rewrite (proj2 (in_range_true 0 0x10000 x)) by lia. reflexivity. }
  assert (Hout : forall x, ~ 0 <= x < 0x10000 ->
            region_map unmapped 0 0x10000 zero_page x = None).
  { intros x Hx. unfold region_map.
    rewrite (proj2 (in_range_false 0 0x10000 x)) by lia. reflexivity. }
  destruct (sys_malloc os) as [contents |]; simpl;
    (eexists; split; [reflexivity |]); simpl; repeat split; assumption.
Qed.

(** X23. The result of [malloc] is not checked: when it is [NULL] an
    initialisation that otherwise succeeds still returns true, and in
    the state it returns every selection of a RAM bank other than bank 0
    faults. *)
Theorem init_unchecked_malloc (os : syscalls) (held held' : list resource)
    (m0 m : gb_memory) (fname : option string) (bank : Z) :
  gb_memory_init os held m0 fname = Some (true, m, held') ->
  sys_malloc os = None ->
  bank <> 0 ->
  (forall o, ram_banks m o = None) /\
  gb_memory_change_ram_bank m bank = None.
Proof.
  intros Hinit Hnull Hbank.
  assert (Hstore : forall o, ram_banks m o = None).
  { unfold gb_memory_init in Hinit. rewrite Hnull in Hinit.
    destruct fname as [name |].
    - destruct (fd (set_fd (sys_open os) m0) <? 0); [discriminate |].
      destruct (sys_mmap_file os 0 0x8000) as [img |]; [| discriminate].
      destruct (sys_mmap_anon os); [| discriminate].
      apply bind_Some in Hinit as (code & _ & Hinit). injection Hinit as <- _.
      reflexivity.
    - destruct (sys_mmap_anon os); [| discriminate].
      apply bind_Some in Hinit as (code & _ & Hinit). injection Hinit as <- _.
      reflexivity. }
  split; [exact Hstore |].
  destruct (gb_memory_init_success _ _ _ _ _ _ Hinit) as (_ & _ & _ & _ & Hram & _).
  apply change_ram_bank_needs_source; [rewrite Hram; congruence | apply Hstore].
Qed.

Lemma init_success_ledger (os : syscalls) (m0 m : gb_memory) (fname : option string)
    (held' : list resource) :
  gb_memory_init os [] m0 fname = Some (true, m, held') ->
  exists heap,
    (heap = [] \/ heap = [HeapBuffer]) /\
    ((fname = None /\ fd m = -1 /\ held' = heap ++ [Mapping 0 0x10000]) \/
     (fname <> None /\ 0 <= fd m /\
      held' = heap ++ [Mapping 0x8000 0x8000; Mapping 0 0x8000; FileDescriptor (fd m)])).
Proof.
  unfold gb_memory_init. intros Hinit.
  destruct fname as [name |].
  - change (fd (set_fd (sys_open os) m0)) with (sys_open os) in Hinit.
    destruct (Z.ltb_spec (sys_open os) 0) as [Hneg | Hpos]; [discriminate |].
    destruct (sys_mmap_file os 0 0x8000) as [img |]; [| discriminate].
    destruct (sys_mmap_anon os); [| discriminate].
    destruct (sys_malloc os) as [contents |];
      apply bind_Some in Hinit as (code & _ & Hinit); injection Hinit as <- <-;
      [exists [HeapBuffer] | exists []]; (split; [auto |]); right;
      (split; [discriminate |]); (split; [exact Hpos | reflexivity]).
  - destruct (sys_mmap_anon os); [| discriminate].
    destruct (sys_malloc os) as [contents |];
      apply bind_Some in Hinit as (code & _ & Hinit); injection Hinit as <- <-;
      [exists [HeapBuffer] | exists []]; (split; [auto |]); left;
      repeat split.
Qed.

(** X24. Set-up and teardown pair up: after an initialisation that
    returned true (with or without a file, with or without a bank
    store), [gb_memory_free] whose two [munmap]s succeed returns true and
    leaves the process holding nothing of what the initialisation
    acquired, with the whole view unmapped. *)
Theorem init_then_free_releases_all (os : syscalls) (fc : free_calls)
    (m0 m : gb_memory) (fname : option string) (held' : list resource) :
  gb_memory_init os [] m0 fname = Some (true, m, held') ->
  munmap_low fc = 0 ->
  munmap_high fc = 0 ->
  exists m',
    gb_memory_free fc held' m = (true, m', []) /\
    (forall x, 0 <= x < 0x10000 -> mem m' x = None).
Proof.
  intros Hinit Hlow Hhigh.
  destruct (init_success_ledger os m0 m fname held' Hinit)
    as (heap & Hheap & [(_ & Hfd & ->) | (_ & Hfd & ->)]).
  - eexists. split.
    + unfold gb_memory_free. rewrite Hlow, Hhigh.
      change (fd (set_ram_banks unmapped m)) with (fd m). rewrite Hfd.
      destruct Hheap as [-> | ->]; reflexivity.
    + intros x Hx. simpl. unfold region_unmap.
      destruct (in_range 0x8000 0x8000 x) eqn:Hin; [reflexivity |].
      apply in_range_false in Hin.
      rewrite (proj2 (in_range_true 0 0x8000 x)) by lia. reflexivity.
  - eexists. split.
    + unfold gb_memory_free. rewrite Hlow, Hhigh.
      change (fd (set_ram_banks unmapped m)) with (fd m).
      destruct Hheap as [-> | ->]; simpl; rewrite Z.eqb_refl; reflexivity.
    + intros x Hx. simpl. unfold region_unmap.
      destruct (in_range 0x8000 0x8000 x) eqn:Hin; [reflexivity |].
      apply in_range_false in Hin.
      rewrite (proj2 (in_range_true 0 0x8000 x)) by lia. reflexivity.
Qed.

(** X25. Teardown when [munmap] fails, after a file-backed
    initialisation: the bank store and the descriptor are released in
    any case and false is returned.  When the first [munmap] fails the
    second is not attempted (its answer does not matter) and both
    mappings stay; when only the second fails the high mapping stays. *)
Theorem free_failure_keeps_mappings (os : syscalls) (fc : free_calls)
    (m0 m : gb_memory) (name : string) (held' : list resource) :
  gb_memory_init os [] m0 (Some name) = Some (true, m, held') ->
  munmap_low fc <> 0 \/ munmap_high fc <> 0 ->
  exists m',
    gb_memory_free fc held' m
    = (false, m',
       if munmap_low fc =? 0 then [Mapping 0x8000 0x8000]
       else [Mapping 0x8000 0x8000; Mapping 0 0x8000]) /\
    (forall x, 0x8000 <= x < 0x10000 -> mem m' x = mem m x).
Proof.
  intros Hinit Hfail.
  destruct (init_success_ledger os m0 m (Some name) held' Hinit)
    as (heap & Hheap & [(Hnone & _) | (_ & Hfd & ->)]); [discriminate |].
  unfold gb_memory_free. change (fd (set_ram_banks unmapped m)) with (fd m).
  destruct (Z.eqb_spec (munmap_low fc) 0) as [Hlow | Hlow].
  - assert (Hhigh : (munmap_high fc =? 0) = false)
      by (apply Z.eqb_neq; destruct Hfail; congruence).
    rewrite Hhigh. eexists. split.
    + destruct Hheap as [-> | ->]; simpl; rewrite Z.eqb_refl; reflexivity.
    + intros x Hx. simpl. unfold region_unmap.
      rewrite (proj2 (in_range_false 0 0x8000 x)) by lia. reflexivity.
  - eexists. split.
    + destruct Hheap as [-> | ->]; simpl; rewrite Z.eqb_refl; reflexivity.
    + intros x Hx. reflexivity.
Qed.

End Coverage.

(** ** These theorems at concrete inputs *)

Lemma session_init (code : Z) :
  gb_memory_init (H := dmg) (os_ok code) [] blank_memory (Some "rom.gb"%string)
  = Some (true, vm_mem (session code []),
          [HeapBuffer; Mapping 0x8000 0x8000; Mapping 0 0x8000; FileDescriptor 3]).
Proof. reflexivity. Qed.

Lemma rom_bank_switch_shows_image_witness :
  current_rom_bank (vm_mem (session 0x01 [])) <> 2 /\
  sys_munmap (os_ok 0x01) = 0 /\
  sys_mmap_file (os_ok 0x01) (0x4000 * 2) 0x4000 = Some (rom_image 0x01 0x8000) /\
  current_rom_bank (gb_memory_change_rom_bank (os_ok 0x01) (vm_mem (session 0x01 [])) 2) = 2 /\
  mem (gb_memory_change_rom_bank (os_ok 0x01) (vm_mem (session 0x01 [])) 2) (0x4000 + 0x10)
  = rom_image 0x01 0x8000 0x10.
Proof.
  assert (H1 : current_rom_bank (vm_mem (session 0x01 [])) <> 2)
    by (change (1 <> 2); lia).
  assert (H2 : sys_munmap (os_ok 0x01) = 0) by reflexivity.
  assert (H3 : sys_mmap_file (os_ok 0x01) (0x4000 * 2) 0x4000 = Some (rom_image 0x01 0x8000))
    by reflexivity.
  split; [exact H1 |]. split; [exact H2 |]. split; [exact H3 |].
  destruct (rom_bank_switch_shows_image (os_ok 0x01) (vm_mem (session 0x01 [])) 2
              (rom_image 0x01 0x8000) H1 H2 H3) as (Hbank & Hshow & _).
  split; [exact Hbank | apply Hshow; lia].
Defined.

Lemma rom_bank_switch_failure_witness :
  current_rom_bank (vm_mem (session 0x01 [])) <> 2 /\
  gb_memory_change_rom_bank os_munmap_fails (vm_mem (session 0x01 [])) 2
  = vm_mem (session 0x01 []) /\
  mem (gb_memory_change_rom_bank os_remap_fails (vm_mem (session 0x01 [])) 2) 0x4000 = None.
Proof.
  assert (H1 : current_rom_bank (vm_mem (session 0x01 [])) <> 2)
    by (change (1 <> 2); lia).
  split; [exact H1 |]. split.
  - apply (proj1 (rom_bank_switch_failure os_munmap_fails (vm_mem (session 0x01 [])) 2 H1)).
    change (-1 <> 0). lia.
  - apply (proj2 (rom_bank_switch_failure os_remap_fails (vm_mem (session 0x01 [])) 2 H1));
      [reflexivity | reflexivity | lia].
Defined.

Lemma dma_unmapped_source_faults_witness :
  Z.shiftl (Z.land 0x40 0xff) 8 <= 0x4000 < Z.shiftl (Z.land 0x40 0xff) 8 + 0xa0 /\
  mem (vm_mem stranded_session) 0x4000 = None /\
  gb_memory_write (H := dmg) (os_ok 0x01) stranded_session 0xff46 0x40 = None.
Proof.
  assert (H1 : Z.shiftl (Z.land 0x40 0xff) 8 <= 0x4000 < Z.shiftl (Z.land 0x40 0xff) 8 + 0xa0)
    by (change (0x4000 <= 0x4000 < 0x4000 + 0xa0); lia).
  assert (H2 : mem (vm_mem stranded_session) 0x4000 = None) by (vm_compute; reflexivity).
  split; [exact H1 |]. split; [exact H2 |].
  exact (dma_unmapped_source_faults (H := dmg) (os_ok 0x01) stranded_session 0x40 0x4000
           H1 H2).
Defined.

Lemma ram_bank_switch_isolation_witness :
  current_ram_bank (vm_mem (session 0x13 [])) <> 1 /\
  0 <= current_ram_bank (vm_mem (session 0x13 [])) < MAX_RAM_BANKS (Collaborators := dmg) /\
  0 <= 1 < MAX_RAM_BANKS (Collaborators := dmg) /\
  store_allocated (H := dmg) (ram_banks (vm_mem (session 0x13 []))) /\
  window_mapped (mem (vm_mem (session 0x13 []))) /\
  exists m',
    gb_memory_change_ram_bank (vm_mem (session 0x13 [])) 1 = Some m' /\
    mem m' 0xa000 = ram_banks (vm_mem (session 0x13 [])) (1 * 0x2000 + (0xa000 - 0xa000)) /\
    mem m' 0x9fff = mem (vm_mem (session 0x13 [])) 0x9fff.
Proof.
  assert (H1 : current_ram_bank (vm_mem (session 0x13 [])) <> 1)
    by (change (0 <> 1); lia).
  assert (H2 : 0 <= current_ram_bank (vm_mem (session 0x13 []))
               < MAX_RAM_BANKS (Collaborators := dmg)) by (simpl; lia).
  assert (H3 : 0 <= 1 < MAX_RAM_BANKS (Collaborators := dmg)) by (simpl; lia).
  assert (H4 : store_allocated (H := dmg) (ram_banks (vm_mem (session 0x13 []))))
    by apply session_store_allocated.
  assert (H5 : window_mapped (mem (vm_mem (session 0x13 []))))
    by (intros x Hx; apply session_mapped; lia).
  repeat (split; [assumption |]).
  destruct (ram_bank_switch_isolation (H := dmg) (vm_mem (session 0x13 [])) 1
              H1 H2 H3 H4 H5) as (m' & Hgo & Hview & _ & Hout & _).
  exists m'. split; [exact Hgo |]. split; [apply Hview; lia | apply Hout; lia].
Defined.

Lemma ram_bank_out_of_store_faults_witness :
  current_ram_bank (vm_mem (session 0x19 [])) <> 16 /\
  MAX_RAM_BANKS (Collaborators := dmg) <= 16 /\
  (forall o, MAX_RAM_BANKS (Collaborators := dmg) * 0x2000 <= o ->
             ram_banks (vm_mem (session 0x19 [])) o = None) /\
  gb_memory_change_ram_bank (vm_mem (session 0x19 [])) 16 = None.
Proof.
  assert (H1 : current_ram_bank (vm_mem (session 0x19 [])) <> 16)
    by (change (0 <> 16); lia).
  assert (H2 : MAX_RAM_BANKS (Collaborators := dmg) <= 16) by (simpl; lia).
  assert (H3 : forall o, MAX_RAM_BANKS (Collaborators := dmg) * 0x2000 <= o ->
                         ram_banks (vm_mem (session 0x19 [])) o = None).
  { intros o Ho. rewrite session_view. simpl in *. unfold heap_buffer.
    rewrite (proj2 (in_range_false 0 _ o)); [reflexivity |]. simpl. lia. }
  split; [exact H1 |]. split; [exact H2 |]. split; [exact H3 |].
  exact (ram_bank_out_of_store_faults (H := dmg) (vm_mem (session 0x19 [])) 16 H1 H2 H3).
Defined.

Lemma mbc3_rtc_register_witness :
  mbc3_case (cartridge_type (Collaborators := dmg) (mbc (vm_mem (session 0x11 [])))) = true /\
  0x4000 <= Z.land 0x4000 0xffff < 0x6000 /\
  4 < Z.land 0x08 0xff /\
  is_Some (mem (vm_mem (session 0x11 [])) 0xa000) /\
  exists view,
    gb_memory_write (H := dmg) (os_ok 0x11) (session 0x11 []) 0x4000 0x08
    = Some (with_mem (session 0x11 [])
              (set_rtc_access true (set_mem view (vm_mem (session 0x11 []))))) /\
    view 0xa000 = Some 0.
Proof.
  assert (H1 : mbc3_case (cartridge_type (Collaborators := dmg)
                            (mbc (vm_mem (session 0x11 [])))) = true) by reflexivity.
  assert (H2 : 0x4000 <= Z.land 0x4000 0xffff < 0x6000)
    by (change (0x4000 <= 0x4000 < 0x6000); lia).
  assert (H3 : 4 < Z.land 0x08 0xff) by (change (4 < 8); lia).
  assert (H4 : is_Some (mem (vm_mem (session 0x11 [])) 0xa000))
    by (vm_compute; eexists; reflexivity).
  repeat (split; [assumption |]).
  destruct (mbc3_rtc_register (H := dmg) (os_ok 0x11) (session 0x11 []) 0x4000 0x08
              H1 H2 H3 H4) as (view & Hw & Hzero & _).
  exists view. split; [exact Hw | exact Hzero].
Defined.

Lemma ignored_rom_writes_witness :
  Z.land 0x2100 0xffff < 0x8000 /\
  (cartridge_type (Collaborators := dmg) (mbc (vm_mem (session 0x00 []))) = MBC_NONE \/
   cartridge_type (Collaborators := dmg) (mbc (vm_mem (session 0x00 []))) = MBC_UNKNOWN \/
   Z.land 0x2100 0xffff < 0x2000 \/
   (mbc3_case (cartridge_type (Collaborators := dmg) (mbc (vm_mem (session 0x00 [])))) = true /\
    0x6000 <= Z.land 0x2100 0xffff)) /\
  gb_memory_write (H := dmg) (os_ok 0x00) (session 0x00 []) 0x2100 0x05
  = Some (session 0x00 []).
Proof.
  assert (H1 : Z.land 0x2100 0xffff < 0x8000) by (change (0x2100 < 0x8000); lia).
  assert (H2 : cartridge_type (Collaborators := dmg) (mbc (vm_mem (session 0x00 []))) = MBC_NONE \/
               cartridge_type (Collaborators := dmg) (mbc (vm_mem (session 0x00 []))) = MBC_UNKNOWN \/
               Z.land 0x2100 0xffff < 0x2000 \/
               (mbc3_case (cartridge_type (Collaborators := dmg)
                             (mbc (vm_mem (session 0x00 [])))) = true /\
                0x6000 <= Z.land 0x2100 0xffff)) by (left; reflexivity).
  split; [exact H1 |]. split; [exact H2 |].
  exact (ignored_rom_writes (H := dmg) (os_ok 0x00) (session 0x00 []) 0x2100 0x05 H1 H2).
Defined.

Lemma mbc1_mode_one_drops_upper_bits_witness :
  mbc1_case (cartridge_type (Collaborators := dmg) (mbc (vm_mem (session 0x01 [])))) = true /\
  0x6000 <= Z.land 0x6000 0xffff < 0x8000 /\
  Z.land (Z.land 0x01 0xff) 0x01 = 1 /\
  gb_memory_write (H := dmg) (os_ok 0x01) (session 0x01 []) 0x6000 0x01
  = Some (with_mem (session 0x01 []) (set_mbc_mode 1 (vm_mem (session 0x01 [])))) /\
  mbc1_rom_bank (set_mbc_mode 1 (vm_mem (session 0x01 []))) 0x25 = 0x05.
Proof.
  assert (H1 : mbc1_case (cartridge_type (Collaborators := dmg)
                            (mbc (vm_mem (session 0x01 [])))) = true) by reflexivity.
  assert (H2 : 0x6000 <= Z.land 0x6000 0xffff < 0x8000)
    by (change (0x6000 <= 0x6000 < 0x8000); lia).
  assert (H3 : Z.land (Z.land 0x01 0xff) 0x01 = 1) by reflexivity.
  repeat (split; [assumption |]).
  exact (mbc1_mode_one_drops_upper_bits (H := dmg) (os_ok 0x01) (session 0x01 [])
           0x6000 0x01 0x25 H1 H2 H3).
Defined.

Lemma mbc3_rom_bank_register_witness :
  mbc3_case (cartridge_type (Collaborators := dmg) (mbc (vm_mem (session 0x11 [])))) = true /\
  0x2000 <= Z.land 0x2100 0xffff < 0x4000 /\
  gb_memory_write (H := dmg) (os_ok 0x11) (session 0x11 []) 0x2100 0x80
  = Some (with_mem (session 0x11 [])
            (gb_memory_change_rom_bank (os_ok 0x11) (vm_mem (session 0x11 [])) 1)).
Proof.
  assert (H1 : mbc3_case (cartridge_type (Collaborators := dmg)
                            (mbc (vm_mem (session 0x11 [])))) = true) by reflexivity.
  assert (H2 : 0x2000 <= Z.land 0x2100 0xffff < 0x4000)
    by (change (0x2000 <= 0x2100 < 0x4000); lia).
  split; [exact H1 |]. split; [exact H2 |].
  exact (proj1 (mbc3_rom_bank_register (H := dmg) (os_ok 0x11) (session 0x11 [])
                  0x2100 0x80 H1 H2)).
Defined.

Lemma timer_write_resets_witness :
  is_Some (mem (vm_mem (session 0x00 [])) 0xff05) /\
  exists view,
    gb_memory_write (H := dmg) (os_ok 0x00) (session 0x00 []) 0xff05 0x42
    = Some (with_mem (session 0x00 []) (set_mem view (vm_mem (session 0x00 [])))) /\
    view 0xff05 = Some 0.
Proof.
  assert (H1 : is_Some (mem (vm_mem (session 0x00 [])) 0xff05))
    by (vm_compute; eexists; reflexivity).
  split; [exact H1 |].
  destruct (timer_write_resets (H := dmg) (os_ok 0x00) (session 0x00 []) 0x42 H1)
    as (view & Hw & Hzero & _).
  exists view. split; [exact Hw | exact Hzero].
Defined.

Lemma plain_write_stores_witness :
  plain_address (Z.land 0xc000 0xffff) = true /\
  is_Some (mem (vm_mem (session 0x00 [])) (Z.land 0xc000 0xffff)) /\
  exists view,
    gb_memory_write (H := dmg) (os_ok 0x00) (session 0x00 []) 0xc000 0x142
    = Some (with_mem (session 0x00 []) (set_mem view (vm_mem (session 0x00 [])))) /\
    view (Z.land 0xc000 0xffff) = Some (Z.land 0x142 0xff).
Proof.
  assert (H1 : plain_address (Z.land 0xc000 0xffff) = true) by reflexivity.
  assert (H2 : is_Some (mem (vm_mem (session 0x00 [])) (Z.land 0xc000 0xffff)))
    by (vm_compute; eexists; reflexivity).
  split; [exact H1 |]. split; [exact H2 |].
  destruct (plain_write_stores (H := dmg) (os_ok 0x00) (session 0x00 []) 0xc000 0x142 H1 H2)
    as (view & Hw & Hread & _).
  exists view. split; [exact Hw | exact Hread].
Defined.

Lemma write_wraps_address_and_value_witness :
  0x1c000 mod 0x10000 = 0xc000 mod 0x10000 /\
  0x142 mod 256 = 0x42 mod 256 /\
  gb_memory_write (H := dmg) (os_ok 0x00) (session 0x00 []) 0x1c000 0x142
  = gb_memory_write (H := dmg) (os_ok 0x00) (session 0x00 []) 0xc000 0x42.
Proof.
  assert (H1 : 0x1c000 mod 0x10000 = 0xc000 mod 0x10000) by reflexivity.
  assert (H2 : 0x142 mod 256 = 0x42 mod 256) by reflexivity.
  split; [exact H1 |]. split; [exact H2 |].
  exact (write_wraps_address_and_value (H := dmg) (os_ok 0x00) (session 0x00 [])
           0x1c000 0xc000 0x142 0x42 H1 H2).
Defined.

Lemma write_frame_witness :
  let view := fun x => if x =? Z.land 0xc000 0xffff then Some (Z.land 0x42 0xff)
                       else mem (vm_mem (session 0x01 live_table)) x in
  let vm' := with_mem (session 0x01 live_table)
                      (set_mem view (vm_mem (session 0x01 live_table))) in
  gb_memory_write (H := dmg) (os_ok 0x01) (session 0x01 live_table) 0xc000 0x42 = Some vm' /\
  mem (vm_mem vm') 0x0147 = mem (vm_mem (session 0x01 live_table)) 0x0147 /\
  highmem_blocks vm' = highmem_blocks (session 0x01 live_table).
Proof.
  intros view vm'.
  assert (H1 : gb_memory_write (H := dmg) (os_ok 0x01) (session 0x01 live_table) 0xc000 0x42
               = Some vm').
  { rewrite plain_write by reflexivity.
    rewrite (region_store_Some (mem (vm_mem (session 0x01 live_table))) _ _
               (session_mapped 0x01 live_table (Z.land 0xc000 0xffff)
                  ltac:(change (0 <= 0xc000 < 0x10000); lia))).
    reflexivity. }
  split; [exact H1 |].
  destruct (write_frame (H := dmg) (os_ok 0x01) (session 0x01 live_table) vm' 0xc000 0x42 H1)
    as (_ & (_ & _ & _ & Hrom) & _ & Hblocks).
  split; [apply Hrom; lia | apply Hblocks; change (0xc000 < 0xff80); lia].
Defined.

Lemma reachable_high_memory_mapped_witness :
  reachable (H := dmg) (session 0x01 []) /\
  0x8000 <= 0xc000 < 0x10000 /\
  is_Some (mem (vm_mem (session 0x01 [])) 0xc000).
Proof.
  assert (H1 : reachable (H := dmg) (session 0x01 [])) by apply session_reachable.
  assert (H2 : 0x8000 <= 0xc000 < 0x10000) by lia.
  split; [exact H1 |]. split; [exact H2 |].
  exact (reachable_high_memory_mapped (H := dmg) (session 0x01 []) H1 0xc000 H2).
Defined.

Lemma reachable_write_returns_witness :
  reachable (H := dmg) (session 0x00 live_table) /\
  0x8000 <= Z.land 0xff85 0xffff /\
  (Z.land 0xff85 0xffff = 0xff46 -> 0x80 <= Z.land 0x42 0xff) /\
  (Z.to_nat (Z.land 0xff85 0xffff - 0xff80)
   <= length (highmem_blocks (session 0x00 live_table)))%nat /\
  exists vm',
    gb_memory_write (H := dmg) (os_ok 0x00) (session 0x00 live_table) 0xff85 0x42 = Some vm' /\
    reachable (H := dmg) vm'.
Proof.
  assert (H1 : reachable (H := dmg) (session 0x00 live_table)) by apply session_reachable.
  assert (H2 : 0x8000 <= Z.land 0xff85 0xffff) by (change (0x8000 <= 0xff85); lia).
  assert (H3 : Z.land 0xff85 0xffff = 0xff46 -> 0x80 <= Z.land 0x42 0xff)
    by (change (0xff85 = 0xff46 -> 0x80 <= 0x42); lia).
  assert (H4 : (Z.to_nat (Z.land 0xff85 0xffff - 0xff80)
                <= length (highmem_blocks (session 0x00 live_table)))%nat)
    by (vm_compute; lia).
  repeat (split; [assumption |]).
  exact (reachable_write_returns (H := dmg) (os_ok 0x00) (session 0x00 live_table)
           0xff85 0x42 H1 H2 H3 H4).
Defined.

Lemma reachable_controller_in_range_witness :
  reachable (H := dmg) (session 0x11 []) /\
  controller_in_range (H := dmg) (vm_mem (session 0x11 [])).
Proof.
  assert (H1 : reachable (H := dmg) (session 0x11 [])) by apply session_reachable.
  split; [exact H1 |].
  exact (reachable_controller_in_range (H := dmg) (session 0x11 []) H1).
Defined.

Lemma highmem_write_twice_witness :
  0xff80 <= 0xff85 < 0x10000 /\
  (Z.to_nat (0xff85 - 0xff80) <= length (highmem_blocks (session 0x00 live_table)))%nat /\
  is_Some (mem (vm_mem (session 0x00 live_table)) 0xff85) /\
  exists vm1 vm2,
    gb_memory_write (H := dmg) (os_ok 0x00) (session 0x00 live_table) 0xff85 0x42 = Some vm1 /\
    gb_memory_write (H := dmg) (os_ok 0x00) vm1 0xff85 0x43 = Some vm2 /\
    highmem_blocks vm2 = highmem_blocks vm1.
Proof.
  assert (H1 : 0xff80 <= 0xff85 < 0x10000) by lia.
  assert (H2 : (Z.to_nat (0xff85 - 0xff80)
                <= length (highmem_blocks (session 0x00 live_table)))%nat)
    by (vm_compute; lia).
  assert (H3 : is_Some (mem (vm_mem (session 0x00 live_table)) 0xff85))
    by (vm_compute; eexists; reflexivity).
  repeat (split; [assumption |]).
  exact (highmem_write_twice (H := dmg) (os_ok 0x00) (session 0x00 live_table)
           0xff85 0x42 0x43 H1 H2 H3).
Defined.

Lemma joypad_byte_range_witness :
  0 <= keys_state (Build_gb_keys 0xa5) < 256 /\
  get_joypad_state (Build_gb_keys 0xa5) 0x120 = get_joypad_state (Build_gb_keys 0xa5) 0x20 /\
  0xf0 <= get_joypad_state (Build_gb_keys 0xa5) 0x120 <= 0xff /\
  get_joypad_state (Build_gb_keys 0xa5) 0x120 mod 16 = 15 - taken_nibbles 0xa5 0x20.
Proof.
  assert (H1 : 0 <= keys_state (Build_gb_keys 0xa5) < 256) by (simpl; lia).
  split; [exact H1 |].
  destruct (joypad_byte_range (Build_gb_keys 0xa5) 0x120 H1) as (Hwrap & Hrange & Hlow & _).
  split; [exact Hwrap |]. split; [exact Hrange | exact Hlow].
Defined.

Lemma init_file_session_witness :
  0 <= sys_open (os_ok 0x01) /\
  sys_mmap_file (os_ok 0x01) 0 0x8000 = Some (rom_image 0x01 0) /\
  sys_mmap_anon (os_ok 0x01) = true /\
  rom_image 0x01 0 0x0147 = Some 0x01 /\
  exists m,
    gb_memory_init (H := dmg) (os_ok 0x01) [] blank_memory (Some "rom.gb"%string)
    = Some (true, m,
            [HeapBuffer; Mapping 0x8000 0x8000; Mapping 0 0x8000; FileDescriptor 3]) /\
    mem m 0x0100 = rom_image 0x01 0 0x0100 /\ mbc m = 0x01.
Proof.
  assert (H1 : 0 <= sys_open (os_ok 0x01)) by (simpl; lia).
  assert (H2 : sys_mmap_file (os_ok 0x01) 0 0x8000 = Some (rom_image 0x01 0))
    by reflexivity.
  assert (H3 : sys_mmap_anon (os_ok 0x01) = true) by reflexivity.
  assert (H4 : rom_image 0x01 0 0x0147 = Some 0x01) by reflexivity.
  repeat (split; [assumption |]).
  destruct (init_file_session (H := dmg) (os_ok 0x01) [] blank_memory "rom.gb"%string
              (rom_image 0x01 0) 0x01 H1 H2 H3 H4)
    as (m & Hinit & Hlow & _ & _ & Hmbc & _).
  exists m. split; [exact Hinit |]. split; [apply Hlow; lia | exact Hmbc].
Defined.

Lemma init_anonymous_session_witness :
  sys_mmap_anon (os_ok 0x00) = true /\
  exists m,
    gb_memory_init (H := dmg) (os_ok 0x00) [] blank_memory None
    = Some (true, m, [HeapBuffer; Mapping 0 0x10000]) /\
    mem m 0x0147 = Some 0 /\ mbc m = 0 /\ fd m = -1.
Proof.
  assert (H1 : sys_mmap_anon (os_ok 0x00) = true) by reflexivity.
  split; [exact H1 |].
  destruct (init_anonymous_session (H := dmg) (os_ok 0x00) [] blank_memory H1)
    as (m & Hinit & Hzero & _ & Hmbc & Hfd & _).
  exists m. split; [exact Hinit |]. split; [apply Hzero; lia |].
  split; [exact Hmbc | exact Hfd].
Defined.

Lemma init_unchecked_malloc_witness :
  gb_memory_init (H := dmg) os_no_heap [] blank_memory (Some "rom.gb"%string)
  = Some (true, no_heap_memory,
          [Mapping 0x8000 0x8000; Mapping 0 0x8000; FileDescriptor 3]) /\
  sys_malloc os_no_heap = None /\
  1 <> 0 /\
  gb_memory_change_ram_bank no_heap_memory 1 = None.
Proof.
  assert (H1 : gb_memory_init (H := dmg) os_no_heap [] blank_memory (Some "rom.gb"%string)
               = Some (true, no_heap_memory,
                       [Mapping 0x8000 0x8000; Mapping 0 0x8000; FileDescriptor 3]))
    by reflexivity.
  assert (H2 : sys_malloc os_no_heap = None) by reflexivity.
  assert (H3 : 1 <> 0) by lia.
  repeat (split; [assumption |]).
  exact (proj2 (init_unchecked_malloc (H := dmg) os_no_heap [] _ blank_memory
                  no_heap_memory (Some "rom.gb"%string) 1 H1 H2 H3)).
Defined.

Lemma init_then_free_releases_all_witness :
  gb_memory_init (H := dmg) (os_ok 0x01) [] blank_memory (Some "rom.gb"%string)
  = Some (true, vm_mem (session 0x01 []),
          [HeapBuffer; Mapping 0x8000 0x8000; Mapping 0 0x8000; FileDescriptor 3]) /\
  munmap_low fc_ok = 0 /\
  munmap_high fc_ok = 0 /\
  exists m',
    gb_memory_free fc_ok
      [HeapBuffer; Mapping 0x8000 0x8000; Mapping 0 0x8000; FileDescriptor 3]
      (vm_mem (session 0x01 []))
    = (true, m', []).
Proof.
  assert (H1 : gb_memory_init (H := dmg) (os_ok 0x01) [] blank_memory (Some "rom.gb"%string)
               = Some (true, vm_mem (session 0x01 []),
                       [HeapBuffer; Mapping 0x8000 0x8000; Mapping 0 0x8000;
                        FileDescriptor 3])) by reflexivity.
  assert (H2 : munmap_low fc_ok = 0) by reflexivity.
  assert (H3 : munmap_high fc_ok = 0) by reflexivity.
  repeat (split; [assumption |]).
  destruct (init_then_free_releases_all (H := dmg) (os_ok 0x01) fc_ok blank_memory
              (vm_mem (session 0x01 [])) (Some "rom.gb"%string) _ H1 H2 H3)
    as (m' & Hfree & _).
  exists m'. exact Hfree.
Defined.

Lemma free_failure_keeps_mappings_witness :
  gb_memory_init (H := dmg) (os_ok 0x01) [] blank_memory (Some "rom.gb"%string)
  = Some (true, vm_mem (session 0x01 []),
          [HeapBuffer; Mapping 0x8000 0x8000; Mapping 0 0x8000; FileDescriptor 3]) /\
  (munmap_low fc_low_fails <> 0 \/ munmap_high fc_low_fails <> 0) /\
  exists m',
    gb_memory_free fc_low_fails
      [HeapBuffer; Mapping 0x8000 0x8000; Mapping 0 0x8000; FileDescriptor 3]
      (vm_mem (session 0x01 []))
    = (false, m', [Mapping 0x8000 0x8000; Mapping 0 0x8000]).
Proof.
  assert (H1 : gb_memory_init (H := dmg) (os_ok 0x01) [] blank_memory (Some "rom.gb"%string)
               = Some (true, vm_mem (session 0x01 []),
                       [HeapBuffer; Mapping 0x8000 0x8000; Mapping 0 0x8000;
                        FileDescriptor 3])) by reflexivity.
  assert (H2 : munmap_low fc_low_fails <> 0 \/ munmap_high fc_low_fails <> 0)
    by (left; change (-1 <> 0); lia).
  split; [exact H1 |]. split; [exact H2 |].
  destruct (free_failure_keeps_mappings (H := dmg) (os_ok 0x01) fc_low_fails blank_memory
              (vm_mem (session 0x01 [])) "rom.gb"%string _ H1 H2)
    as (m' & Hfree & _).
  exists m'. exact Hfree.
Defined.
